(** * raygen9: the Omaha hand-rank table generator

    A shallow embedding of [src/raygen9.cpp] and the properties of its
    identifier packing, its three folding transitions, the breadth-first
    identifier enumerator, the terminal evaluators and the table assembly.

    Conventions of the embedding:
    - C [int] and [int64_t] values are [Z]; every identifier the program
      builds is shown to stay inside [0, 2^63), so no wrap-around occurs.
    - The local arrays [pocket[4]] and [board[5]] are [list Z] of length
      4 and 5; array counters and indices are [nat].
    - An access outside an array is undefined behaviour in C; the
      embedding returns [None] there, so a function that returns [Some]
      performed only in-range accesses. *)

From stdpp Require Import base numbers list sorting option strings gmap.
From Stdlib Require Import ZArith Lia.

Local Open Scope Z_scope.

(** ** Constants *)

Definition ANY_CARD : Z := 1.
Definition SKIP_BOARD : Z := 53.

Definition pocket_perms : list (nat * nat) :=
  [(0, 1); (0, 2); (0, 3); (1, 2); (1, 3); (2, 3)]%nat.

Definition board_perms : list (nat * nat * nat) :=
  [(0, 1, 2);
   (0, 1, 3); (0, 2, 3); (1, 2, 3);
   (0, 1, 4); (0, 2, 4); (0, 3, 4); (1, 2, 4); (1, 3, 4); (2, 3, 4)]%nat.

Definition n_pocket_perms : nat := 6.

(** The macros [MIN] and [MAX] of rayutils.h. *)
Definition MIN (a b : Z) : Z := if a <? b then a else b.
Definition MAX (a b : Z) : Z := if a >? b then a else b.

(** ** Monadic loops over [option] *)

Fixpoint foldM {A B : Type} (f : B → A → option B) (b : B) (l : list A)
  : option B :=
  match l with
  | [] => Some b
  | x :: l' => b' ← f b x; foldM f b' l'
  end.

(** ** Hands: the unpacked form of an identifier *)

Record hand : Type := Hand {
  pocket : list Z;
  board : list Z;
  n_pocket : nat;
  n_board : nat
}.

(** [(id >> (7 * i)) & 0x7F] *)
Definition slot (id : Z) (i : nat) : Z :=
  Z.land (Z.shiftr id (7 * Z.of_nat i)) 127.

Definition bool_to_int (b : bool) : Z := if b then 1 else 0.

Definition count_cards (id : Z) : Z :=
  bool_to_int (negb (Z.land id 127 =? 0)) +
  bool_to_int (negb (Z.land (Z.shiftr id 7) 127 =? 0)) +
  bool_to_int (negb (Z.land (Z.shiftr id 14) 127 =? 0)) +
  bool_to_int (negb (Z.land (Z.shiftr id 21) 127 =? 0)) +
  bool_to_int (negb (Z.land (Z.shiftr id 28) 127 =? 0)) +
  bool_to_int (negb (Z.land (Z.shiftr id 35) 127 =? 0)) +
  bool_to_int (negb (Z.land (Z.shiftr id 42) 127 =? 0)) +
  bool_to_int (negb (Z.land (Z.shiftr id 49) 127 =? 0)) +
  bool_to_int (negb (Z.land (Z.shiftr id 56) 127 =? 0)).

(** [add_card]: the board is filled first.  With a full board and a full
    pocket the source writes [pocket[4]], outside the array. *)
Definition add_card (new_card : Z) (h : hand) : option hand :=
  if (n_board h <? 5)%nat then
    Some (Hand (pocket h) (<[n_board h := new_card]> (board h))
               (n_pocket h) (S (n_board h)))
  else if (n_pocket h <? 4)%nat then
    Some (Hand (<[n_pocket h := new_card]> (pocket h)) (board h)
               (S (n_pocket h)) (n_board h))
  else None.

(** One iteration of the loop of [unpack64]. The writes are in range:
    at iteration [i] at most [i] cards were stored. *)
Definition unpack_step (id : Z) (h : hand) (i : nat) : hand :=
  let card := slot id i in
  if decide (card ≠ 0) then
    if (i <? 5)%nat then
      Hand (pocket h) (<[n_board h := card]> (board h))
           (n_pocket h) (S (n_board h))
    else
      Hand (<[n_pocket h := card]> (pocket h)) (board h)
           (S (n_pocket h)) (n_board h)
  else h.

Definition unpack64 (id : Z) : hand :=
  foldl (unpack_step id) (Hand (replicate 4 0) (replicate 5 0) 0 0) (seq 0 9).

(** [std::sort] followed by [std::reverse]. *)
Definition sort_desc (l : list Z) : list Z := reverse (merge_sort Z.le l).

Definition pack64 (pocket board : list Z) : Z :=
  let pocket := sort_desc pocket in
  let board := sort_desc board in
  (board !!! 0%nat) +
  Z.shiftl (board !!! 1%nat) 7 +
  Z.shiftl (board !!! 2%nat) 14 +
  Z.shiftl (board !!! 3%nat) 21 +
  Z.shiftl (board !!! 4%nat) 28 +
  Z.shiftl (pocket !!! 0%nat) 35 +
  Z.shiftl (pocket !!! 1%nat) 42 +
  Z.shiftl (pocket !!! 2%nat) 49 +
  Z.shiftl (pocket !!! 3%nat) 56.

(** [skip_board]: drops the skip sentinels of a board, keeping the order. *)
Definition skip_board_step (board : list Z) (st : list Z * nat) (i : nat)
  : list Z * nat :=
  if decide (board !!! i ≠ SKIP_BOARD)
  then (<[st.2 := board !!! i]> st.1, S st.2)
  else st.

Definition skip_board (board : list Z) : list Z * nat :=
  foldl (skip_board_step board) (replicate 5 0, 0%nat) (seq 0 5).

(** ** Folding transitions *)

(** Flush suits: a card is folded to its suit. *)
Definition fold_flush_suits (new_card : Z) : Z :=
  if new_card =? 0 then SKIP_BOARD else Z.land (new_card - 1) 3 + 1.

Definition add_card_to_id_flush_suits (id new_card : Z) : option Z :=
  let new_card := fold_flush_suits new_card in
  h ← add_card new_card (unpack64 id);
  Some (pack64 (pocket h) (board h)).

(** [nsp[v] = MIN(nsp[v] + 1, cap)] on an array of five counters. *)
Definition bump_suit (cap : Z) (hist : list Z) (v : Z) : option (list Z) :=
  if decide (0 ≤ v < 5) then
    Some (<[Z.to_nat v := MIN (hist !!! Z.to_nat v + 1) cap]> hist)
  else None.

(** The final loop of [eval_flush_suits], for a given scanning order. *)
Fixpoint scan_suits (nsp nsb : list Z) (suits : list Z) : Z :=
  match suits with
  | [] => -1
  | suit :: rest =>
      if nsp !!! Z.to_nat suit + nsb !!! Z.to_nat suit >=? 5 then suit
      else scan_suits nsp nsb rest
  end.

Definition suit_histograms (id : Z) : option (list Z * list Z) :=
  let h := unpack64 id in
  nsp ← foldM (bump_suit 2) (replicate 5 0) (take (n_pocket h) (pocket h));
  nsb ← foldM (λ hist v, if decide (v ≠ SKIP_BOARD) then bump_suit 3 hist v
                          else Some hist)
              (replicate 5 0) (take (n_board h) (board h));
  Some (nsp, nsb).

Definition eval_flush_suits_scan (suits : list Z) (id : Z) : option Z :=
  '(nsp, nsb) ← suit_histograms id;
  Some (scan_suits nsp nsb suits).

(** The source scans [suit = 1, 2, 3, 4]. *)
Definition eval_flush_suits (id : Z) : option Z :=
  eval_flush_suits_scan [1; 2; 3; 4] id.

(** Flush ranks: rank 2..14 if suited, [ANY_CARD] otherwise.  In the source
    [(2 + ((new_card - 1) >> 2) & 0xF)] parses as [(2 + (..>> 2)) & 0xF]. *)
Definition fold_flush_ranks (new_card flush_suit : Z) : Z :=
  if new_card =? 0 then SKIP_BOARD
  else if Z.land (new_card - 1) 3 + 1 =? flush_suit
       then Z.land (2 + Z.shiftr (new_card - 1) 2) 15
       else ANY_CARD.

(** [if (cond) n++] over the first cards of an array. *)
Definition count_if (cond : Z → bool) (l : list Z) : Z :=
  foldl (λ n v, if cond v then n + 1 else n) 0 l.

Definition is_duplicate (new_card v : Z) : bool :=
  negb (v =? ANY_CARD) && negb (v =? SKIP_BOARD) && (v =? new_card).

Definition suited_pocket (v : Z) : bool :=
  negb (v =? ANY_CARD) && negb (v =? 0).

Definition suited_board (v : Z) : bool :=
  negb (v =? ANY_CARD) && negb (v =? SKIP_BOARD) && negb (v =? 0).

(** The four pruning tests made after the card was added. *)
Definition flush_unreachable (h : hand) : bool :=
  let nsp := count_if suited_pocket (take (n_pocket h) (pocket h)) in
  let nsb := count_if suited_board (take (n_board h) (board h)) in
  ((n_board h =? 4)%nat && (nsb <=? 1)) ||
  ((n_board h =? 5)%nat && (nsb <=? 2)) ||
  ((n_board h =? 5)%nat && (n_pocket h =? 3)%nat && (nsp =? 0)) ||
  ((n_board h =? 5)%nat && (n_pocket h =? 4)%nat && (nsp <=? 1)).

Definition add_card_to_id_flush_ranks (id new_card flush_suit : Z)
  : option Z :=
  let new_card := fold_flush_ranks new_card flush_suit in
  let h := unpack64 id in
  if existsb (is_duplicate new_card) (take (n_pocket h) (pocket h))
  then Some 0
  else if existsb (is_duplicate new_card) (take (n_board h) (board h))
  then Some 0
  else
    h' ← add_card new_card h;
    if flush_unreachable h' then Some 0
    else Some (pack64 (pocket h') (board h')).

Definition add_card_to_id_flush_ranks_1 (id new_card : Z) : option Z :=
  add_card_to_id_flush_ranks id new_card 1.
Definition add_card_to_id_flush_ranks_2 (id new_card : Z) : option Z :=
  add_card_to_id_flush_ranks id new_card 2.
Definition add_card_to_id_flush_ranks_3 (id new_card : Z) : option Z :=
  add_card_to_id_flush_ranks id new_card 3.
Definition add_card_to_id_flush_ranks_4 (id new_card : Z) : option Z :=
  add_card_to_id_flush_ranks id new_card 4.

(** No flush: a card is folded to its rank 1..13.  In the source
    [1 + ((new_card - 1) >> 2) & 0xF] parses as [(1 + (..>> 2)) & 0xF]. *)
Definition fold_no_flush (new_card : Z) : Z :=
  if new_card =? 0 then SKIP_BOARD
  else Z.land (1 + Z.shiftr (new_card - 1) 2) 15.

(** [n_rank[v]++] on an array of fourteen counters. *)
Definition incr_rank (hist : list Z) (v : Z) : option (list Z) :=
  if decide (0 ≤ v < 14) then
    Some (<[Z.to_nat v := hist !!! Z.to_nat v + 1]> hist)
  else None.

Definition add_card_to_id_no_flush (id new_card : Z) : option Z :=
  let new_card := fold_no_flush new_card in
  let h := unpack64 id in
  n_rank ← foldM incr_rank (replicate 14 0) (take (n_pocket h) (pocket h));
  n_rank ← foldM (λ hist v, if decide (v ≠ SKIP_BOARD) then incr_rank hist v
                             else Some hist)
                 n_rank (take (n_board h) (board h));
  h' ← add_card new_card h;
  n_rank ← (if decide (new_card ≠ SKIP_BOARD) then incr_rank n_rank new_card
            else Some n_rank);
  if existsb (λ i, n_rank !!! i >? 4) (seq 1 13) then Some 0
  else Some (pack64 (pocket h') (board h')).

(** ** Terminal evaluators *)

(** What an evaluator writes on [std::cout]: text and numbers. *)
Inductive out_item : Type :=
  | Text (s : string)
  | Num (n : Z).

(** The line feed written as a backslash-n escape in the source. *)
Definition nl : string := String (Ascii.ascii_of_nat 10) EmptyString.

(** The specification fixes [p(9) = 10], [p(8) = 4], [p(7) = 1]; any other
    card count gives [-1] and the inner loop is not entered. *)
Definition n_board_perms_of (n : nat) : Z :=
  if (n =? 9)%nat then 10 else if (n =? 8)%nat then 4
  else if (n =? 7)%nat then 1 else -1.

(** The double loop [for np < 6; for nb < n_board_perms] keeping the
    smallest score; [score np nb = None] stands for [continue]. *)
Definition best_score (n_board_perms : Z) (score : nat → nat → option Z) : Z :=
  foldl (λ best np,
    foldl (λ best nb,
      match score np nb with
      | Some q => if q <? best then q else best
      | None => best
      end) best (seq 0 (Z.to_nat n_board_perms)))
    8191 (seq 0 n_pocket_perms).

(** The local table [pocket_perms[2][6]] of [eval_flush_ranks]. *)
Definition flush_pocket_perms : list (list nat) :=
  [[0; 0; 0; 1; 1; 2]; [1; 2; 3; 2; 3; 3]]%nat.

Definition prime_of_rank : list Z :=
  [2; 3; 5; 7; 11; 13; 17; 19; 23; 29; 31; 37; 41].

(** [cards[rank][suit]] of the table [int cards[14][5]]: row 0 and column
    0 hold zero. *)
Definition card_to_cactus (rank suit : Z) : option Z :=
  if decide (0 ≤ rank < 14 ∧ 0 ≤ suit < 5) then
    if (rank =? 0) || (suit =? 0) then Some 0
    else Some (Z.lor (Z.lor (Z.lor (prime_of_rank !!! Z.to_nat (rank - 1))
                                   (Z.shiftl (rank - 1) 8))
                            (Z.shiftl 1 (suit + 11)))
                     (Z.shiftl 1 (16 + (rank - 1))))
  else None.

(** [arr[i] = card_to_cactus(arr[i], ((suit++) % 4) + 1)] *)
Definition resuit_step (st : list Z * Z) (i : nat) : option (list Z * Z) :=
  c ← card_to_cactus (st.1 !!! i) (Z.rem st.2 4 + 1);
  Some (<[i := c]> st.1, st.2 + 1).

Section Evaluators.

(** The Cactus Kev tables of arrays.h and the rank conversion of
    rayutils.h are not part of the sources at hand: they are parameters. *)
Context (flushes unique5 values : Z → Z).
Context (cactus_findit cactus_to_ray : Z → Z).

Definition eval_flush_ranks (id : Z) : Z * list out_item :=
  let h := unpack64 id in
  let pocket := pocket h in
  let '(board, n_board) := skip_board (board h) in
  if (pocket !!! 0%nat =? 0) || (pocket !!! 1%nat =? 0) ||
     (board !!! 0%nat =? 0) || (board !!! 1%nat =? 0) ||
     (board !!! 2%nat =? 0)
  then (-1, [Text nl; Text "eval_flush_ranks(): "; Num id;
             Text ": zero encountered."; Text nl])
  else if (pocket !!! 0%nat =? ANY_CARD) || (pocket !!! 1%nat =? ANY_CARD) ||
          (board !!! 0%nat =? ANY_CARD) || (board !!! 1%nat =? ANY_CARD) ||
          (board !!! 2%nat =? ANY_CARD)
  then (-1, [])
  else
    let n := (n_pocket h + n_board)%nat in
    let score np nb :=
      let rank1 := pocket !!! ((flush_pocket_perms !!! 0%nat) !!! np) - 2 in
      let rank2 := pocket !!! ((flush_pocket_perms !!! 1%nat) !!! np) - 2 in
      let rank3 := board !!! (board_perms !!! nb).1.1 - 2 in
      let rank4 := board !!! (board_perms !!! nb).1.2 - 2 in
      let rank5 := board !!! (board_perms !!! nb).2 - 2 in
      if (rank1 <? 0) || (rank2 <? 0) || (rank3 <? 0) || (rank4 <? 0) ||
         (rank5 <? 0) || (rank1 >? 12) || (rank2 >? 12) || (rank3 >? 12) ||
         (rank4 >? 12) || (rank5 >? 12)
      then None
      else Some (flushes (Z.lor (Z.lor (Z.lor (Z.lor
             (Z.shiftl 1 rank1) (Z.shiftl 1 rank2)) (Z.shiftl 1 rank3))
             (Z.shiftl 1 rank4)) (Z.shiftl 1 rank5))) in
    (cactus_to_ray (best_score (n_board_perms_of n) score), []).

Definition eval_cactus_no_flush (c1 c2 c3 c4 c5 : Z) : Z :=
  let s := unique5 (Z.shiftr (Z.lor (Z.lor (Z.lor (Z.lor c1 c2) c3) c4) c5)
                             16) in
  if negb (s =? 0) then s
  else values (cactus_findit (Z.land c1 255 * Z.land c2 255 *
                              Z.land c3 255 * Z.land c4 255 *
                              Z.land c5 255)).

Definition eval_no_flush (id : Z) : option (Z * list out_item) :=
  let h := unpack64 id in
  let n_pocket := n_pocket h in
  let '(board, n_board) := skip_board (board h) in
  let n := (n_pocket + n_board)%nat in
  let n_board_perms := n_board_perms_of n in
  if (n_pocket <? 4)%nat || (n_board <? 3)%nat
  then Some (0, [Text nl;
                 Text "eval_no_flush() encountered invalid # of cards, shouldn't happen...";
                 Text nl])
  else
    '(pocket, suit) ← foldM resuit_step (pocket h, 0) (seq 0 n_pocket);
    '(board, suit) ← foldM resuit_step (board, suit) (seq 0 n_board);
    let score np nb :=
      Some (eval_cactus_no_flush
              (pocket !!! (pocket_perms !!! np).1)
              (pocket !!! (pocket_perms !!! np).2)
              (board !!! (board_perms !!! nb).1.1)
              (board !!! (board_perms !!! nb).1.2)
              (board !!! (board_perms !!! nb).2)) in
    Some (cactus_to_ray (best_score n_board_perms score), []).

End Evaluators.

(** ** Identifier enumeration *)

(** [std::unique]: keeps the first element of every run of equal values. *)
Fixpoint unique_from (x : Z) (l : list Z) : list Z :=
  match l with
  | [] => [x]
  | y :: l' => if decide (x = y) then unique_from x l'
               else x :: unique_from y l'
  end.

Definition unique (l : list Z) : list Z :=
  match l with
  | [] => []
  | x :: l' => unique_from x l'
  end.

(** [min_card = (n_cards <= 2) ? 0 : 1] of [generate_ids], where [n_cards]
    numbers the generation, and [min_card = (num_cards <= 1) ? 0 : 1] of
    [process_ids], where [num_cards = count_cards(id)]. *)
Definition generate_min_card (n_cards : nat) : Z :=
  if (n_cards <=? 2)%nat then 0 else 1.

Definition process_min_card (num_cards : Z) : Z :=
  if num_cards <=? 1 then 0 else 1.

Section Enumerator.

Context (add_card_to_id : Z → Z → option Z).

(** The inner loop over [new_card = min_card .. 52] for one identifier. *)
Definition expand_id (n_cards : nat) (id_queue_2 : list Z) (id : Z)
  : option (list Z) :=
  let min_card := generate_min_card n_cards in
  foldM (λ queue new_card,
           new_id ← add_card_to_id id new_card;
           Some (if decide (new_id ≠ 0) then queue ++ [new_id] else queue))
        id_queue_2 (seqZ min_card (53 - min_card)).

(** One generation: the state is [(id_list, id_queue_1)]. *)
Definition generation (st : list Z * list Z) (n_cards : nat)
  : option (list Z * list Z) :=
  id_queue_2 ← foldM (expand_id n_cards) [] st.2;
  let id_queue_2 := unique (merge_sort Z.le id_queue_2) in
  Some (st.1 ++ id_queue_2, id_queue_2).

(** The state after the generations [1 .. n]. *)
Definition generate_loop (n : nat) : option (list Z * list Z) :=
  foldM generation ([0], [0]) (seq 1 n).

(** The argument [size] of the source only reserves memory. *)
Definition generate_ids : option (list Z) :=
  st ← generate_loop 8;
  Some (merge_sort Z.le st.1).

End Enumerator.

(** ** Table assembly *)

(** [hand_ranks[i] = v] and [hand_ranks[i]] on the vector of hand ranks;
    [std::vector::operator[]] is unchecked. *)
Definition vset (hr : list Z) (i v : Z) : option (list Z) :=
  if decide (0 ≤ i < Z.of_nat (length hr)) then Some (<[Z.to_nat i := v]> hr)
  else None.

Definition vget (hr : list Z) (i : Z) : option Z :=
  if decide (0 ≤ i) then hr !! Z.to_nat i else None.

(** [hash_table.insert((ids[i], i))] for [i = first, first + 1, ...];
    [insert] keeps an existing entry. *)
Fixpoint build_hash_table (first : nat) (ids : list Z) (m : gmap Z Z)
  : gmap Z Z :=
  match ids with
  | [] => m
  | id :: ids' =>
      build_hash_table (S first) ids'
        (match m !! id with
         | Some _ => m
         | None => <[id := Z.of_nat first]> m
         end)
  end.

(** The three branches of the loop body of [process_ids]:
    [if (new_id && ((num_cards + 1) == 9)) .. else if (new_id) .. else ..]. *)
Inductive branch : Type :=
  | Terminal
  | Link
  | Prune.

Definition transition_branch (num_cards new_id : Z) : branch :=
  if decide (new_id ≠ 0 ∧ num_cards + 1 = 9) then Terminal
  else if decide (new_id ≠ 0) then Link
  else Prune.

Section Assembly.

Context (add_card_to_id : Z → Z → option Z).
Context (eval_id : Z → option Z).
Context (offset block_size dummy_card : Z).
Context (hash_table map : gmap Z Z).

(** The value stored for one transition; [hash_table[new_id]] of an
    absent key is 0. *)
Definition transition_value (num_cards new_id : Z) : option Z :=
  match transition_branch num_cards new_id with
  | Terminal =>
      value ← eval_id new_id;
      Some (default value (map !! value))
  | Link =>
      Some (offset + block_size +
            default 0 (hash_table !! new_id) * block_size)
  | Prune => Some offset
  end.

(** Body of the loop over [new_card]; the state is
    [(hand_ranks, dummy_value)]. *)
Definition process_card (id id_index num_cards : Z) (st : list Z * Z)
    (new_card : Z) : option (list Z * Z) :=
  new_id ← add_card_to_id id new_card;
  value ← transition_value num_cards new_id;
  hr ← vset st.1 (id_index + new_card) value;
  if decide (new_card = dummy_card) then
    dummy_value ← vget hr (id_index + new_card);
    Some (hr, dummy_value)
  else Some (hr, st.2).

(** Body of the loop over the identifiers: [id = ids[i]]. *)
Definition process_id (hr : list Z) (i : nat) (id : Z) : option (list Z) :=
  let id_index := offset + block_size + Z.of_nat i * block_size in
  let num_cards := count_cards id in
  hr ← vset hr id_index offset;
  let min_card := process_min_card num_cards in
  st ← foldM (process_card id id_index num_cards) (hr, -1)
             (seqZ min_card (53 - min_card));
  if decide (st.2 ≠ -1) then
    foldM (λ hr new_card, vset hr (id_index + new_card) st.2) st.1
          (seqZ 53 (block_size - 53))
  else Some st.1.

Fixpoint process_from (i : nat) (ids : list Z) (hr : list Z)
  : option (list Z) :=
  match ids with
  | [] => Some hr
  | id :: ids' => hr' ← process_id hr i id; process_from (S i) ids' hr'
  end.

End Assembly.

Definition process_ids (ids : list Z) (offset offset_value : Z)
    (hand_ranks : list Z) (add_card_to_id : Z → Z → option Z)
    (eval_id : Z → option Z) (n_dummy dummy_card : Z) (map : gmap Z Z)
  : option (list Z) :=
  let block_size := 53 + n_dummy in
  let hash_table := build_hash_table 0 ids ∅ in
  hr ← vset hand_ranks offset offset_value;
  hr ← foldM (λ hr i, vset hr (offset + i) offset) hr (seqZ 1 52);
  hr ← foldM (λ hr i, vset hr (offset + i) offset) hr
             (seqZ 53 (block_size - 53));
  process_from add_card_to_id eval_id offset block_size dummy_card
               hash_table map 0 ids hr.

Section Generator.

Context (flushes unique5 values : Z → Z).
Context (cactus_findit cactus_to_ray : Z → Z).

(** Returns [(max_rank, hand_ranks)].  The evaluators' messages on
    [std::cout] are not part of the table: only their value is kept. *)
Definition generate_handranks : option (Z * list Z) :=
  id_fs ← generate_ids add_card_to_id_flush_suits;
  id_fr4 ← generate_ids add_card_to_id_flush_ranks_4;
  id_nf ← generate_ids add_card_to_id_no_flush;
  let n_fs := Z.of_nat (length id_fs) in
  let n_fr4 := Z.of_nat (length id_fr4) in
  let n_nf := Z.of_nat (length id_nf) in
  let offset_fs := 53 in
  let offset_fr4 := offset_fs + 53 + n_fs * 53 in
  let offset_nf := offset_fr4 + (53 + 3) + n_fr4 * (53 + 3) in
  let max_rank := offset_nf + 53 + n_nf * 53 in
  let hand_ranks := replicate (Z.to_nat max_rank) 0 in
  hr ← vset hand_ranks 0 offset_nf;
  hr ← vset hr 1 offset_fr4;
  hr ← process_ids id_fs offset_fs offset_nf hr
         add_card_to_id_flush_suits eval_flush_suits 0 0 {[ -1 := 0 ]};
  hr ← process_ids id_fr4 offset_fr4 0 hr
         add_card_to_id_flush_ranks_4
         (λ id, Some (eval_flush_ranks flushes cactus_to_ray id).1)
         3 1 {[ -1 := offset_fr4 ]};
  hr ← process_ids id_nf offset_nf 0 hr
         add_card_to_id_no_flush
         (λ id, fst <$> eval_no_flush unique5 values cactus_findit
                                      cactus_to_ray id)
         0 0 {[ -1 := offset_nf ]};
  Some (max_rank, hr).

End Generator.

(** ** Query protocol, as performed by [test_all_handranks] *)

(** [x = HR[x + c]] for every card, on the table shifted by [shift]. *)
Definition chain (HR : list Z) (shift start : Z) (cards : list Z)
  : option Z :=
  foldM (λ x c, vget HR (shift + (x + c))) start cards.

(** The score of nine card values [c] (leading zeros for 7 and 8 cards). *)
Definition score_new (HR_new : list Z) (c : list Z) : option Z :=
  fs ← chain HR_new 0 106 c;
  nf_base ← vget HR_new 0;
  score ← chain HR_new 0 (nf_base + 53) c;
  if decide (fs ≠ 0) then
    fr_base ← vget HR_new 1;
    score_flush ← chain HR_new (4 - fs) (fr_base + 56) c;
    Some (MAX score score_flush)
  else Some score.

(** ** Notions used in the statements *)

(** An array prefix followed by empty (zero) slots. *)
Definition pad (n : nat) (l : list Z) : list Z :=
  l ++ replicate (n - length l) 0.

(** The occupied pocket and board slots of an identifier, lowest slot
    first. *)
Definition pocket_cards (id : Z) : list Z :=
  filter (λ v, v ≠ 0) (slot id <$> [5; 6; 7; 8]%nat).

Definition board_cards (id : Z) : list Z :=
  filter (λ v, v ≠ 0) (slot id <$> [0; 1; 2; 3; 4]%nat).

(** The nine slots of a sum of shifted seven-bit values. *)
Definition slots_sum (v : list Z) : Z :=
  (v !!! 0%nat) + Z.shiftl (v !!! 1%nat) 7 + Z.shiftl (v !!! 2%nat) 14 +
  Z.shiftl (v !!! 3%nat) 21 + Z.shiftl (v !!! 4%nat) 28 +
  Z.shiftl (v !!! 5%nat) 35 + Z.shiftl (v !!! 6%nat) 42 +
  Z.shiftl (v !!! 7%nat) 49 + Z.shiftl (v !!! 8%nat) 56.

(** [add_card] on the occupied slots. *)
Definition add_cards (c : Z) (ps bs : list Z) : option (list Z * list Z) :=
  if (length bs <? 5)%nat then Some (ps, bs ++ [c])
  else if (length ps <? 4)%nat then Some (ps ++ [c], bs)
  else None.

(** The three automata and their transition functions. *)
Inductive automaton : Type :=
  | FS
  | FR (flush_suit : Z)
  | NF.

Definition transition (a : automaton) : Z → Z → option Z :=
  match a with
  | FS => add_card_to_id_flush_suits
  | FR flush_suit => λ id new_card,
      add_card_to_id_flush_ranks id new_card flush_suit
  | NF => add_card_to_id_no_flush
  end.

Definition fold_card (a : automaton) (new_card : Z) : Z :=
  match a with
  | FS => fold_flush_suits new_card
  | FR flush_suit => fold_flush_ranks new_card flush_suit
  | NF => fold_no_flush new_card
  end.

(** The identifiers appended to the global list in generation [n]. *)
Definition generation_ids (add_card_to_id : Z → Z → option Z) (n : nat)
  : option (list Z) :=
  st ← generate_loop add_card_to_id n;
  Some st.2.

(** The pruning tests of the flush-rank transition on the occupied slots. *)
Definition flush_unreachable_cards (ps bs : list Z) : bool :=
  let nsp := count_if suited_pocket ps in
  let nsb := count_if suited_board bs in
  ((length bs =? 4)%nat && (nsb <=? 1)) ||
  ((length bs =? 5)%nat && (nsb <=? 2)) ||
  ((length bs =? 5)%nat && (length ps =? 3)%nat && (nsp =? 0)) ||
  ((length bs =? 5)%nat && (length ps =? 4)%nat && (nsp <=? 1)).

(** Folded values an automaton stores in a pocket slot and a board slot. *)
Definition valid_pocket_value (a : automaton) (v : Z) : Prop :=
  match a with
  | FS => 1 ≤ v ≤ 4
  | FR _ => 1 ≤ v ≤ 14
  | NF => 1 ≤ v ≤ 13
  end.

Definition valid_board_value (a : automaton) (v : Z) : Prop :=
  valid_pocket_value a v ∨ v = SKIP_BOARD.

Definition valid_id (a : automaton) (id : Z) : Prop :=
  Forall (valid_pocket_value a) (pocket_cards id) ∧
  Forall (valid_board_value a) (board_cards id).


(** The cards offered to an identifier by the enumerator and by the table
    assembly: 0 (skip) only while at most one slot is occupied. *)
Definition card_allowed (id c : Z) : Prop :=
  0 ≤ c ≤ 52 ∧ (c = 0 → count_cards id ≤ 1).

(** The number of cards of the target suit among folded flush-rank values:
    a suited card is folded to 2..14, the sentinels are 1 and 53. *)
Definition count_suited (l : list Z) : Z :=
  Z.of_nat (length (filter (λ v, 2 ≤ v ≤ 14) l)).

(** The number of slots of a list holding the suit [s], and the clamped
    total that decides a flush on suit [s]: at most 2 pocket cards and at
    most 3 board cards (skipped slots apart) count. *)
Definition suit_count (s : Z) (l : list Z) : Z :=
  Z.of_nat (length (filter (λ v, v = s) l)).

Definition flush_total (id s : Z) : Z :=
  Z.min (suit_count s (pocket_cards id)) 2 +
  Z.min (suit_count s (filter (λ v, v ≠ SKIP_BOARD) (board_cards id))) 3.

(** Following a transition function along a list of cards, as long as no
    branch is pruned. *)
Fixpoint follow (step : Z → Z → option Z) (id : Z) (cards : list Z)
  : option Z :=
  match cards with
  | [] => Some id
  | c :: cards' =>
      r ← step id c;
      if decide (r = 0) then None else follow step r cards'
  end.


(** The first index of the block of the identifier at position [i]:
    [id_index = offset + block_size + i * block_size]. *)
Definition block_start (offset block_size : Z) (i : nat) : Z :=
  offset + block_size + Z.of_nat i * block_size.

(** The value the table assembly stores for the card [c] in the block of
    the identifier [id]. *)
Definition cell_value (add_card_to_id : Z → Z → option Z)
    (eval_id : Z → option Z) (offset block_size : Z)
    (hash_table map : gmap Z Z) (id c : Z) : option Z :=
  new_id ← add_card_to_id id c;
  transition_value eval_id offset block_size hash_table map
                   (count_cards id) new_id.

(** What [process_ids] leaves in the region of an automaton: the fan-in
    block, one cell per identifier and card, the backup value of card 0
    and the dummy slots. *)
Definition region_ok (HR : list Z) (ids : list Z) (offset offset_value : Z)
    (add_card_to_id : Z → Z → option Z) (eval_id : Z → option Z)
    (n_dummy dummy_card : Z) (map : gmap Z Z) : Prop :=
  let block_size := 53 + n_dummy in
  let cell := cell_value add_card_to_id eval_id offset block_size
                         (build_hash_table 0 ids ∅) map in
  let start := block_start offset block_size in
  vget HR offset = Some offset_value ∧
  (∀ k, 1 ≤ k < block_size → vget HR (offset + k) = Some offset) ∧
  (∀ k id c, ids !! k = Some id →
             process_min_card (count_cards id) ≤ c ≤ 52 →
             vget HR (start k + c) = cell id c) ∧
  (∀ k id, ids !! k = Some id → process_min_card (count_cards id) = 1 →
           vget HR (start k) = Some offset) ∧
  (∀ k id d j, ids !! k = Some id →
               process_min_card (count_cards id) ≤ dummy_card ≤ 52 →
               cell id dummy_card = Some d → d ≠ -1 → 53 ≤ j < block_size →
               vget HR (start k + j) = Some d).


(** The card whose cell is read for [c] through a pointer shifted by
    [shift]: the card [c + shift], or, beyond 52, a dummy slot, which
    holds the value of the cell of [dummy_card]. *)
Definition aliased_card (shift dummy_card c : Z) : Z :=
  if c + shift <=? 52 then c + shift else dummy_card.

(** The shifted pointer [HR_flush = HR_new + (4 - flush_suit)] on the
    flush-rank region, whose dummy slots 53..55 follow [dummy_card = 1]. *)
Definition shifted_card (flush_suit c : Z) : Z :=
  aliased_card (4 - flush_suit) 1 c.

(** The identifiers reached from the empty hand by the cards the
    enumerator offers, over at most eight generations. *)
Inductive reachable (step : Z → Z → option Z) : Z → Prop :=
  | reachable_zero : reachable step 0
  | reachable_step id c r :
      reachable step id → count_cards id ≤ 7 → card_allowed id c →
      step id c = Some r → r ≠ 0 → reachable step r.

(** Card sequences as [test_all_handranks] passes them: values 0..52,
    with 0 (skip) only in the first two places. *)
Definition cards_in_order (cards : list Z) : Prop :=
  Forall (λ c, 0 ≤ c ≤ 52) cards ∧ Forall (λ c, c ≠ 0) (drop 2 cards).

(** The number of entries of a list that hold the value [v]. *)
Definition occurrences (v : Z) (l : list Z) : Z :=
  Z.of_nat (length (filter (λ x, x = v) l)).

(** The same condition counted from a hand of [n] cards: the skip card is
    allowed only while at most one card is held. *)
Fixpoint cards_allowed_from (n : Z) (cards : list Z) : Prop :=
  match cards with
  | [] => True
  | c :: cards' =>
      0 ≤ c ≤ 52 ∧ (c = 0 → n ≤ 1) ∧ cards_allowed_from (n + 1) cards'
  end.

(** The value a chain of look-ups ends on: the evaluation of the
    identifier reached, renamed by [map] as [process_ids] does, or the
    fan-in offset of the region when a transition on the way was pruned. *)
Definition chain_value (eval_id : Z → option Z) (map : gmap Z Z) (offset : Z)
    (path : option Z) : option Z :=
  match path with
  | Some new_id => value ← eval_id new_id; Some (default value (map !! value))
  | None => Some offset
  end.

(** The number of cards of the suit [s] in a list of cards 0..52. *)
Definition suited_cards (s : Z) (l : list Z) : Z :=
  Z.of_nat (length (filter (λ c, c ≠ 0 ∧ fold_flush_suits c = s) l)).


(** * Properties *)

(** ** Seven-bit slots *)

Lemma slot_as_div_mod id i :
  slot id i = (id / 2 ^ (7 * Z.of_nat i)) mod 128.
Proof.
  unfold slot. rewrite Z.shiftr_div_pow2 by lia.
  change 127 with (Z.ones 7). rewrite Z.land_ones by lia. reflexivity.
Qed.

Lemma slot_range id i : 0 ≤ slot id i < 128.
Proof. rewrite slot_as_div_mod. apply Z.mod_pos_bound. lia. Qed.

Lemma slots_sum_slot v0 v1 v2 v3 v4 v5 v6 v7 v8 :
  Forall (λ v, 0 ≤ v < 128) [v0; v1; v2; v3; v4; v5; v6; v7; v8] →
  let id := slots_sum [v0; v1; v2; v3; v4; v5; v6; v7; v8] in
  slot id <$> seq 0 9 = [v0; v1; v2; v3; v4; v5; v6; v7; v8] ∧
  0 ≤ id < 2 ^ 63.
Proof.
  intros H id.
  repeat match goal with H : Forall _ (_ :: _) |- _ =>
    apply Forall_cons in H; destruct H as [? H] end.
  subst id. unfold slots_sum. cbn [lookup_total list_lookup_total].
  rewrite !Z.shiftl_mul_pow2 by lia.
  split; [|lia].
  cbn [seq fmap list_fmap]. rewrite !slot_as_div_mod.
  repeat f_equal; Z.div_mod_to_equations; lia.
Qed.

(** ** [unpack64] and [count_cards] in terms of the occupied slots *)

Lemma unpack_board_loop s0 s1 s2 s3 s4 (f : nat → Z) :
  f 0%nat = s0 → f 1%nat = s1 → f 2%nat = s2 → f 3%nat = s3 → f 4%nat = s4 →
  foldl (λ h i,
           if decide (f i ≠ 0) then
             if (i <? 5)%nat then
               Hand (pocket h) (<[n_board h := f i]> (board h))
                    (n_pocket h) (S (n_board h))
             else
               Hand (<[n_pocket h := f i]> (pocket h)) (board h)
                    (S (n_pocket h)) (n_board h)
           else h)
        (Hand (replicate 4 0) (replicate 5 0) 0 0) (seq 0 5) =
  Hand (replicate 4 0) (pad 5 (filter (λ v, v ≠ 0) [s0; s1; s2; s3; s4]))
       0 (length (filter (λ v, v ≠ 0) [s0; s1; s2; s3; s4])).
Proof.
  intros <- <- <- <- <-. cbn [seq foldl Nat.ltb Nat.leb].
  rewrite !filter_cons, filter_nil.
  destruct (decide (f 0%nat ≠ 0)); destruct (decide (f 1%nat ≠ 0));
    destruct (decide (f 2%nat ≠ 0)); destruct (decide (f 3%nat ≠ 0));
    destruct (decide (f 4%nat ≠ 0)); reflexivity.
Qed.

Lemma unpack_pocket_loop s5 s6 s7 s8 (f : nat → Z) b nb :
  f 5%nat = s5 → f 6%nat = s6 → f 7%nat = s7 → f 8%nat = s8 →
  foldl (λ h i,
           if decide (f i ≠ 0) then
             if (i <? 5)%nat then
               Hand (pocket h) (<[n_board h := f i]> (board h))
                    (n_pocket h) (S (n_board h))
             else
               Hand (<[n_pocket h := f i]> (pocket h)) (board h)
                    (S (n_pocket h)) (n_board h)
           else h)
        (Hand (replicate 4 0) b 0 nb) (seq 5 4) =
  Hand (pad 4 (filter (λ v, v ≠ 0) [s5; s6; s7; s8])) b
       (length (filter (λ v, v ≠ 0) [s5; s6; s7; s8])) nb.
Proof.
  intros <- <- <- <-. cbn [seq foldl Nat.ltb Nat.leb].
  rewrite !filter_cons, filter_nil.
  destruct (decide (f 5%nat ≠ 0)); destruct (decide (f 6%nat ≠ 0));
    destruct (decide (f 7%nat ≠ 0)); destruct (decide (f 8%nat ≠ 0));
    reflexivity.
Qed.

Lemma unpack64_cards id :
  unpack64 id =
  Hand (pad 4 (pocket_cards id)) (pad 5 (board_cards id))
       (length (pocket_cards id)) (length (board_cards id)).
Proof.
  unfold unpack64, pocket_cards, board_cards.
  change (seq 0 9) with (seq 0 5 ++ seq 5 4). rewrite foldl_app.
  unfold unpack_step. cbv zeta.
  rewrite (unpack_board_loop _ _ _ _ _ (slot id) eq_refl eq_refl eq_refl
             eq_refl eq_refl).
  rewrite (unpack_pocket_loop _ _ _ _ (slot id) _ _ eq_refl eq_refl eq_refl
             eq_refl).
  reflexivity.
Qed.

Lemma count_nonzero_cons s (l : list Z) :
  Z.of_nat (length (filter (λ v, v ≠ 0) (s :: l))) =
  bool_to_int (negb (s =? 0)) + Z.of_nat (length (filter (λ v, v ≠ 0) l)).
Proof.
  rewrite filter_cons. destruct (decide (s ≠ 0)) as [Hs|Hs].
  - apply Z.eqb_neq in Hs. rewrite Hs. cbn [length negb bool_to_int]. lia.
  - apply dec_stable in Hs. subst s. reflexivity.
Qed.

Lemma count_cards_cards id :
  count_cards id =
  Z.of_nat (length (pocket_cards id) + length (board_cards id)).
Proof.
  unfold pocket_cards, board_cards. cbn [fmap list_fmap].
  rewrite Nat2Z.inj_add, !count_nonzero_cons. rewrite filter_nil.
  cbn [length]. unfold count_cards, slot.
  change (7 * Z.of_nat 0) with 0. rewrite Z.shiftr_0_r.
  change (7 * Z.of_nat 1) with 7. change (7 * Z.of_nat 2) with 14.
  change (7 * Z.of_nat 3) with 21. change (7 * Z.of_nat 4) with 28.
  change (7 * Z.of_nat 5) with 35. change (7 * Z.of_nat 6) with 42.
  change (7 * Z.of_nat 7) with 49. change (7 * Z.of_nat 8) with 56.
  lia.
Qed.


(** ** Sorting in descending order *)

#[local] Instance Zge_antisymm : AntiSymm (=) (flip Z.le).
Proof. intros x y. unfold flip. lia. Qed.

#[local] Instance Zge_transitive : Transitive (flip Z.le).
Proof. intros x y z. unfold flip. lia. Qed.

Lemma sort_desc_perm l : sort_desc l ≡ₚ l.
Proof.
  unfold sort_desc. rewrite reverse_Permutation. apply merge_sort_Permutation.
Qed.

Lemma sort_desc_length l : length (sort_desc l) = length l.
Proof. apply Permutation_length, sort_desc_perm. Qed.

Lemma sort_desc_sorted l : Sorted (flip Z.le) (sort_desc l).
Proof. apply Sorted_reverse, Sorted_merge_sort. apply _. Qed.

Lemma sort_desc_Forall (P : Z → Prop) l : Forall P (sort_desc l) ↔ Forall P l.
Proof. by rewrite sort_desc_perm. Qed.

Lemma sort_desc_unique l k :
  Sorted (flip Z.le) k → k ≡ₚ l → sort_desc l = k.
Proof.
  intros Hk Hp. apply (Sorted_unique (flip Z.le)).
  - apply sort_desc_sorted.
  - exact Hk.
  - by rewrite sort_desc_perm.
Qed.

Lemma sort_desc_idemp l : sort_desc (sort_desc l) = sort_desc l.
Proof. apply sort_desc_unique; [apply sort_desc_sorted|done]. Qed.

Lemma sort_desc_perm_eq l k : l ≡ₚ k → sort_desc l = sort_desc k.
Proof.
  intros Hp. apply sort_desc_unique; [apply sort_desc_sorted|].
  by rewrite sort_desc_perm.
Qed.

Lemma Sorted_desc_zeros l n :
  Sorted (flip Z.le) l → Forall (λ v, 0 ≤ v) l →
  Sorted (flip Z.le) (l ++ replicate n 0).
Proof.
  intros Hs Hf. induction Hs as [|x l Hs IH Hx]; cbn.
  - induction n; cbn; constructor; auto.
    destruct n; cbn; constructor. unfold flip. lia.
  - apply Forall_cons in Hf as [Hx0 Hf]. constructor; [auto|].
    destruct Hx as [|y l' Hy]; cbn.
    + destruct n; cbn; constructor. unfold flip. lia.
    + by constructor.
Qed.

Lemma sort_desc_pad n l :
  Forall (λ v, 0 ≤ v) l → sort_desc (pad n l) = pad n (sort_desc l).
Proof.
  intros Hl. unfold pad. rewrite sort_desc_length.
  apply sort_desc_unique.
  - apply Sorted_desc_zeros; [apply sort_desc_sorted|].
    by apply sort_desc_Forall.
  - by rewrite sort_desc_perm.
Qed.

Lemma filter_all (P : Z → Prop) `{∀ x, Decision (P x)} (l : list Z) :
  Forall P l → filter P l = l.
Proof.
  induction 1 as [|x l Hx _ IH]; [done|].
  by rewrite filter_cons_True, IH.
Qed.

Lemma filter_nonzero_zeros n : filter (λ v : Z, v ≠ 0) (replicate n 0) = [].
Proof.
  induction n; [done|]. cbn [replicate].
  rewrite filter_cons_False; [done|]. intros H. by apply H.
Qed.

Lemma filter_nonzero_pad n l :
  Forall (λ v, v ≠ 0) l → filter (λ v, v ≠ 0) (pad n l) = l.
Proof.
  intros Hl. unfold pad.
  by rewrite filter_app, filter_all, filter_nonzero_zeros, app_nil_r.
Qed.

(** ** [pack64] on padded arrays *)

Lemma pack64_slots_sum qp qb :
  (length qp ≤ 4)%nat → (length qb ≤ 5)%nat →
  (pad 5 qb !!! 0%nat) + Z.shiftl (pad 5 qb !!! 1%nat) 7 +
  Z.shiftl (pad 5 qb !!! 2%nat) 14 + Z.shiftl (pad 5 qb !!! 3%nat) 21 +
  Z.shiftl (pad 5 qb !!! 4%nat) 28 + Z.shiftl (pad 4 qp !!! 0%nat) 35 +
  Z.shiftl (pad 4 qp !!! 1%nat) 42 + Z.shiftl (pad 4 qp !!! 2%nat) 49 +
  Z.shiftl (pad 4 qp !!! 3%nat) 56 =
  slots_sum (pad 5 qb ++ pad 4 qp).
Proof.
  intros Hp Hb.
  destruct qb as [|b0 [|b1 [|b2 [|b3 [|b4 [|]]]]]]; cbn in Hb; try lia;
  (destruct qp as [|p0 [|p1 [|p2 [|p3 [|]]]]]; cbn in Hp; try lia;
   reflexivity).
Qed.

Lemma pad_length n l : (length l ≤ n)%nat → length (pad n l) = n.
Proof. intros. unfold pad. rewrite length_app, length_replicate. lia. Qed.

Lemma pad_Forall (P : Z → Prop) n l : P 0 → Forall P l → Forall P (pad n l).
Proof.
  intros H0 Hl. unfold pad. apply Forall_app. split; [done|].
  by apply Forall_replicate.
Qed.

Lemma pack64_cards ps bs :
  Forall (λ v, 0 < v < 128) ps → Forall (λ v, 0 < v < 128) bs →
  (length ps ≤ 4)%nat → (length bs ≤ 5)%nat →
  slot (pack64 (pad 4 ps) (pad 5 bs)) <$> seq 0 9 =
    pad 5 (sort_desc bs) ++ pad 4 (sort_desc ps) ∧
  pocket_cards (pack64 (pad 4 ps) (pad 5 bs)) = sort_desc ps ∧
  board_cards (pack64 (pad 4 ps) (pad 5 bs)) = sort_desc bs ∧
  0 ≤ pack64 (pad 4 ps) (pad 5 bs) < 2 ^ 63.
Proof.
  intros Hps Hbs Hlp Hlb. unfold pack64. cbv zeta.
  rewrite !sort_desc_pad by (eapply Forall_impl; [eassumption|]; cbn; lia).
  assert (Hqp : Forall (λ v, 0 < v < 128) (sort_desc ps))
    by by apply sort_desc_Forall.
  assert (Hqb : Forall (λ v, 0 < v < 128) (sort_desc bs))
    by by apply sort_desc_Forall.
  rewrite <- (sort_desc_length ps) in Hlp.
  rewrite <- (sort_desc_length bs) in Hlb.
  generalize dependent (sort_desc ps). generalize dependent (sort_desc bs).
  intros qb Hqb Hlb qp Hqp Hlp.
  rewrite pack64_slots_sum by done.
  assert (Hall : Forall (λ v, 0 ≤ v < 128) (pad 5 qb ++ pad 4 qp)).
  { apply Forall_app; split; (apply pad_Forall; [lia|]);
      (eapply Forall_impl; [eassumption|]; cbn; lia). }
  assert (Hlen : length (pad 5 qb ++ pad 4 qp) = 9%nat)
    by (rewrite length_app, !pad_length by done; done).
  assert (Hlen5 : length (pad 5 qb) = 5%nat) by by apply pad_length.
  destruct (pad 5 qb ++ pad 4 qp)
    as [|v0 [|v1 [|v2 [|v3 [|v4 [|v5 [|v6 [|v7 [|v8 [|]]]]]]]]]] eqn:Heq;
    try discriminate Hlen.
  destruct (slots_sum_slot _ _ _ _ _ _ _ _ _ Hall) as [Hslots Hrange].
  split; [exact Hslots|]. split; [|split; [|exact Hrange]].
  - unfold pocket_cards.
    change [5; 6; 7; 8]%nat with (drop 5 (seq 0 9)).
    rewrite fmap_drop, Hslots, <- Heq, drop_app_length' by done.
    apply filter_nonzero_pad. eapply Forall_impl; [eassumption|]. cbn. lia.
  - unfold board_cards.
    change [0; 1; 2; 3; 4]%nat with (take 5 (seq 0 9)).
    rewrite fmap_take, Hslots, <- Heq, take_app_length' by done.
    apply filter_nonzero_pad. eapply Forall_impl; [eassumption|]. cbn. lia.
Qed.

Lemma pack64_perm p p' b b' :
  p ≡ₚ p' → b ≡ₚ b' → pack64 p b = pack64 p' b'.
Proof.
  intros Hp Hb. unfold pack64.
  by rewrite (sort_desc_perm_eq p p' Hp), (sort_desc_perm_eq b b' Hb).
Qed.

(** An array is a permutation of its non-zero values followed by zeros. *)
Lemma pad_filter_nonzero_perm (l : list Z) :
  pad (length l) (filter (λ v, v ≠ 0) l) ≡ₚ l.
Proof.
  unfold pad. induction l as [|x l IH]; [done|].
  rewrite filter_cons. destruct (decide (x ≠ 0)) as [Hx|Hx].
  - cbn [length app Nat.sub]. by rewrite IH.
  - apply dec_stable in Hx. subst x.
    pose proof (length_filter (λ v : Z, v ≠ 0) l) as Hle.
    cbn [length].
    rewrite Nat.sub_succ_l by exact Hle.
    cbn [replicate]. rewrite <- Permutation_middle. by rewrite IH.
Qed.

Lemma filter_nonzero_range (l : list Z) :
  Forall (λ v, 0 ≤ v < 128) l →
  Forall (λ v, 0 < v < 128) (filter (λ v, v ≠ 0) l).
Proof.
  intros Hl. apply Forall_forall. intros x Hx.
  apply list_elem_of_filter in Hx as [Hx0 Hx].
  rewrite Forall_forall in Hl. specialize (Hl x Hx). cbn in Hl. lia.
Qed.

(** [unpack64] after [pack64], for arbitrary arrays of seven-bit values. *)
Lemma unpack64_pack64_gen (p b : list Z) :
  length p = 4%nat → length b = 5%nat →
  Forall (λ v, 0 ≤ v < 128) p → Forall (λ v, 0 ≤ v < 128) b →
  slot (pack64 p b) <$> seq 0 9 = sort_desc b ++ sort_desc p ∧
  unpack64 (pack64 p b) =
    Hand (sort_desc p) (sort_desc b)
         (length (filter (λ v, v ≠ 0) p)) (length (filter (λ v, v ≠ 0) b)) ∧
  0 ≤ pack64 p b < 2 ^ 63.
Proof.
  intros Hlp Hlb Hp Hb.
  pose proof (pad_filter_nonzero_perm p) as Hpp.
  pose proof (pad_filter_nonzero_perm b) as Hpb.
  rewrite Hlp in Hpp. rewrite Hlb in Hpb.
  rewrite <- (pack64_perm _ _ _ _ Hpp Hpb).
  pose proof (length_filter (λ v : Z, v ≠ 0) p) as Hfp.
  pose proof (length_filter (λ v : Z, v ≠ 0) b) as Hfb.
  destruct (pack64_cards (filter (λ v, v ≠ 0) p) (filter (λ v, v ≠ 0) b))
    as (Hs & Hpc & Hbc & Hr);
    [by apply filter_nonzero_range|by apply filter_nonzero_range|lia|lia|].
  assert (Hnn : ∀ l : list Z, Forall (λ v, 0 ≤ v < 128) l →
                 Forall (λ v, 0 ≤ v) (filter (λ v, v ≠ 0) l)).
  { intros l Hl. eapply Forall_impl; [by apply filter_nonzero_range|].
    cbn. lia. }
  rewrite <- !sort_desc_pad in Hs by by apply Hnn.
  rewrite (sort_desc_perm_eq _ _ Hpp), (sort_desc_perm_eq _ _ Hpb) in Hs.
  split; [exact Hs|]. split; [|exact Hr].
  rewrite unpack64_cards, Hpc, Hbc, !sort_desc_length.
  rewrite <- !sort_desc_pad by by apply Hnn.
  by rewrite (sort_desc_perm_eq _ _ Hpp), (sort_desc_perm_eq _ _ Hpb).
Qed.


(** ** Adding a card, on the occupied slots *)

Lemma cards_range id :
  Forall (λ v, 0 < v < 128) (pocket_cards id) ∧
  Forall (λ v, 0 < v < 128) (board_cards id) ∧
  (length (pocket_cards id) ≤ 4)%nat ∧ (length (board_cards id) ≤ 5)%nat.
Proof.
  unfold pocket_cards, board_cards. split_and!.
  - apply filter_nonzero_range, Forall_fmap, Forall_forall.
    intros i _. apply slot_range.
  - apply filter_nonzero_range, Forall_fmap, Forall_forall.
    intros i _. apply slot_range.
  - etrans; [apply length_filter|]. by rewrite length_fmap.
  - etrans; [apply length_filter|]. by rewrite length_fmap.
Qed.

Lemma insert_pad n (l : list Z) c :
  (length l < n)%nat → <[length l := c]> (pad n l) = pad n (l ++ [c]).
Proof.
  intros Hl. unfold pad. rewrite length_app. cbn [length].
  replace (n - length l)%nat with (S (n - (length l + 1))) by lia.
  cbn [replicate].
  rewrite insert_app_r_alt, Nat.sub_diag by lia. cbn.
  by rewrite <- app_assoc.
Qed.

Lemma take_pad n (l : list Z) : take (length l) (pad n l) = l.
Proof. unfold pad. by rewrite take_app_length. Qed.

Lemma add_card_unpack id c :
  add_card c (unpack64 id) =
  st ← add_cards c (pocket_cards id) (board_cards id);
  Some (Hand (pad 4 st.1) (pad 5 st.2) (length st.1) (length st.2)).
Proof.
  rewrite unpack64_cards. unfold add_card, add_cards.
  cbn [n_board n_pocket pocket board].
  destruct (length (board_cards id) <? 5)%nat eqn:Hb.
  - apply Nat.ltb_lt in Hb. rewrite insert_pad by done.
    cbn [mbind option_bind fst snd]. rewrite length_app. cbn [length].
    do 2 f_equal. lia.
  - destruct (length (pocket_cards id) <? 4)%nat eqn:Hp; [|done].
    apply Nat.ltb_lt in Hp. rewrite insert_pad by done.
    cbn [mbind option_bind fst snd]. rewrite length_app. cbn [length].
    do 2 f_equal. lia.
Qed.

Lemma add_cards_Some c ps bs :
  (length ps + length bs ≤ 8)%nat → (length ps ≤ 4)%nat →
  (length bs ≤ 5)%nat → is_Some (add_cards c ps bs).
Proof.
  intros H8 H4 H5. unfold add_cards.
  destruct (length bs <? 5)%nat eqn:Hb; [done|].
  apply Nat.ltb_ge in Hb.
  destruct (length ps <? 4)%nat eqn:Hp; [done|].
  apply Nat.ltb_ge in Hp. lia.
Qed.

Lemma add_cards_inv c ps bs ps' bs' :
  add_cards c ps bs = Some (ps', bs') →
  (length ps ≤ 4)%nat → (length bs ≤ 5)%nat →
  (length ps' ≤ 4)%nat ∧ (length bs' ≤ 5)%nat ∧
  (length ps' + length bs' = S (length ps + length bs))%nat ∧
  ((ps' = ps ∧ bs' = bs ++ [c] ∧ (length bs < 5)%nat) ∨
   (ps' = ps ++ [c] ∧ bs' = bs ∧ length bs = 5%nat)).
Proof.
  unfold add_cards. intros H H4 H5.
  destruct (length bs <? 5)%nat eqn:Hb.
  - apply Nat.ltb_lt in Hb. simplify_eq. rewrite length_app. cbn. 
    split_and!; [lia..|]. left. done.
  - apply Nat.ltb_ge in Hb.
    destruct (length ps <? 4)%nat eqn:Hp; [|done].
    apply Nat.ltb_lt in Hp. simplify_eq. rewrite length_app. cbn.
    split_and!; [lia..|]. right. split_and!; [done..|lia].
Qed.

Lemma count_cards_zero : count_cards 0 = 0.
Proof. reflexivity. Qed.

(** The identifier packed after a card was added. *)
Lemma pack64_after_add id c ps' bs' :
  0 < c < 128 →
  add_cards c (pocket_cards id) (board_cards id) = Some (ps', bs') →
  let id' := pack64 (pad 4 ps') (pad 5 bs') in
  pocket_cards id' = sort_desc ps' ∧ board_cards id' = sort_desc bs' ∧
  count_cards id' = count_cards id + 1 ∧ id' ≠ 0 ∧ 0 ≤ id' < 2 ^ 63.
Proof.
  intros Hc Hadd id'.
  destruct (cards_range id) as (Hps & Hbs & Hlp & Hlb).
  destruct (add_cards_inv _ _ _ _ _ Hadd Hlp Hlb) as (Hlp' & Hlb' & Hn & Hcase).
  assert (Forall (λ v, 0 < v < 128) ps' ∧ Forall (λ v, 0 < v < 128) bs')
    as [Hps' Hbs'].
  { destruct Hcase as [(-> & -> & _)|(-> & -> & _)]; split; try done;
      apply Forall_app; split; try done; by constructor. }
  destruct (pack64_cards ps' bs' Hps' Hbs' Hlp' Hlb') as (_ & Hp & Hb & Hr).
  assert (Hcnt : count_cards id' = count_cards id + 1).
  { rewrite !count_cards_cards. subst id'.
    rewrite Hp, Hb, !sort_desc_length. lia. }
  split; [done|]. split; [done|]. split; [done|]. split; [|done].
  intros H0. rewrite H0, count_cards_zero in Hcnt.
  rewrite count_cards_cards in Hcnt. lia.
Qed.


(** ** Folded cards *)

Lemma land_3_range x : 0 ≤ Z.land x 3 ≤ 3.
Proof.
  change 3 with (Z.ones 2) at 1 2. rewrite Z.land_ones by lia.
  pose proof (Z.mod_pos_bound x (2 ^ 2)). lia.
Qed.

Lemma rank_of_card c k :
  1 ≤ c ≤ 52 → 1 ≤ k ≤ 2 →
  k ≤ Z.land (k + Z.shiftr (c - 1) 2) 15 ≤ k + 12.
Proof.
  intros Hc Hk. rewrite Z.shiftr_div_pow2 by lia.
  change 15 with (Z.ones 4). rewrite Z.land_ones by lia.
  change (2 ^ 2) with 4. change (2 ^ 4) with 16.
  assert (0 ≤ (c - 1) / 4 ≤ 12) by (Z.div_mod_to_equations; lia).
  rewrite Z.mod_small by lia. lia.
Qed.

Lemma fold_card_valid a c :
  0 ≤ c ≤ 52 →
  (c = 0 ∧ fold_card a c = SKIP_BOARD) ∨
  (c ≠ 0 ∧ valid_pocket_value a (fold_card a c)).
Proof.
  intros Hc. destruct (decide (c = 0)) as [->|Hc0]; [left; by destruct a|].
  right. split; [done|].
  destruct a as [|s|]; cbn.
  - unfold fold_flush_suits. rewrite (proj2 (Z.eqb_neq c 0)) by done.
    pose proof (land_3_range (c - 1)). lia.
  - unfold fold_flush_ranks. rewrite (proj2 (Z.eqb_neq c 0)) by done.
    destruct (_ =? s).
    + pose proof (rank_of_card c 2). lia.
    + unfold ANY_CARD. lia.
  - unfold fold_no_flush. rewrite (proj2 (Z.eqb_neq c 0)) by done.
    pose proof (rank_of_card c 1). lia.
Qed.

Lemma valid_pocket_value_range a v : valid_pocket_value a v → 0 < v < 128.
Proof. destruct a; cbn; lia. Qed.

Lemma valid_board_value_range a v : valid_board_value a v → 0 < v < 128.
Proof.
  intros [H| ->]; [by eapply valid_pocket_value_range|]. unfold SKIP_BOARD. lia.
Qed.

Lemma fold_card_range a c : 0 ≤ c ≤ 52 → 0 < fold_card a c < 128.
Proof.
  intros Hc. destruct (fold_card_valid a c Hc) as [[_ ->]|[_ H]].
  - unfold SKIP_BOARD. lia.
  - by eapply valid_pocket_value_range.
Qed.

(** ** The transitions on the occupied slots *)

Lemma flush_suits_cards id c :
  add_card_to_id_flush_suits id c =
  st ← add_cards (fold_flush_suits c) (pocket_cards id) (board_cards id);
  Some (pack64 (pad 4 st.1) (pad 5 st.2)).
Proof.
  unfold add_card_to_id_flush_suits. cbv zeta. rewrite add_card_unpack.
  by destruct (add_cards _ _ _).
Qed.

Lemma flush_unreachable_pad ps bs :
  flush_unreachable (Hand (pad 4 ps) (pad 5 bs) (length ps) (length bs)) =
  flush_unreachable_cards ps bs.
Proof.
  unfold flush_unreachable, flush_unreachable_cards.
  cbn [n_pocket n_board pocket board]. by rewrite !take_pad.
Qed.

Lemma flush_ranks_cards id c s :
  add_card_to_id_flush_ranks id c s =
  let f := fold_flush_ranks c s in
  if existsb (is_duplicate f) (pocket_cards id) then Some 0
  else if existsb (is_duplicate f) (board_cards id) then Some 0
  else
    st ← add_cards f (pocket_cards id) (board_cards id);
    if flush_unreachable_cards st.1 st.2 then Some 0
    else Some (pack64 (pad 4 st.1) (pad 5 st.2)).
Proof.
  unfold add_card_to_id_flush_ranks. cbv zeta. rewrite add_card_unpack.
  rewrite unpack64_cards. cbn [n_pocket n_board pocket board].
  rewrite !take_pad.
  destruct (existsb _ (pocket_cards id)); [done|].
  destruct (existsb _ (board_cards id)); [done|].
  destruct (add_cards _ _ _) as [[ps' bs']|]; [|done].
  cbn [mbind option_bind fst snd pocket board].
  by rewrite flush_unreachable_pad.
Qed.

Lemma no_flush_cards id c :
  add_card_to_id_no_flush id c =
  let f := fold_no_flush c in
  n_rank ← foldM incr_rank (replicate 14 0) (pocket_cards id);
  n_rank ← foldM (λ hist v, if decide (v ≠ SKIP_BOARD) then incr_rank hist v
                             else Some hist)
                 n_rank (board_cards id);
  st ← add_cards f (pocket_cards id) (board_cards id);
  n_rank ← (if decide (f ≠ SKIP_BOARD) then incr_rank n_rank f
            else Some n_rank);
  if existsb (λ i, n_rank !!! i >? 4) (seq 1 13) then Some 0
  else Some (pack64 (pad 4 st.1) (pad 5 st.2)).
Proof.
  unfold add_card_to_id_no_flush. cbv zeta. rewrite add_card_unpack.
  rewrite unpack64_cards. cbn [n_pocket n_board pocket board].
  rewrite !take_pad.
  destruct (foldM incr_rank _ _) as [r1|]; [|done].
  cbn [mbind option_bind].
  destruct (foldM _ r1 _) as [r2|]; [|done].
  cbn [mbind option_bind].
  destruct (add_cards _ _ _) as [[ps' bs']|]; [|done].
  reflexivity.
Qed.


(** ** Every transition keeps identifiers valid and adds one card *)

Lemma packed_valid a id c ps' bs' :
  valid_id a id → card_allowed id c →
  add_cards (fold_card a c) (pocket_cards id) (board_cards id)
    = Some (ps', bs') →
  let r := pack64 (pad 4 ps') (pad 5 bs') in
  valid_id a r ∧ count_cards r = count_cards id + 1 ∧ 0 < r < 2 ^ 63.
Proof.
  intros [Hvp Hvb] [Hc Hc0] Hadd r.
  destruct (pack64_after_add id _ ps' bs' (fold_card_range a c Hc) Hadd)
    as (Hp & Hb & Hcnt & Hr0 & Hr).
  fold r in Hp, Hb, Hcnt, Hr0, Hr.
  split; [|split; [done|lia]].
  destruct (cards_range id) as (_ & _ & Hlp & Hlb).
  destruct (add_cards_inv _ _ _ _ _ Hadd Hlp Hlb) as (_ & _ & _ & Hcase).
  unfold valid_id. rewrite Hp, Hb, !sort_desc_Forall.
  destruct Hcase as [(-> & -> & _)|(-> & -> & Hfull)].
  - split; [done|]. apply Forall_app. split; [done|]. constructor; [|done].
    destruct (fold_card_valid a c Hc) as [[_ ->]|[_ H]]; [by right|by left].
  - split; [|done]. apply Forall_app. split; [done|]. constructor; [|done].
    destruct (fold_card_valid a c Hc) as [[-> _]|[_ H]]; [|done].
    specialize (Hc0 eq_refl). rewrite count_cards_cards in Hc0. lia.
Qed.

Lemma foldM_incr_rank_Some (l : list Z) hist :
  Forall (λ v, v ≠ SKIP_BOARD → 0 ≤ v < 14) l →
  is_Some (foldM (λ hist v, if decide (v ≠ SKIP_BOARD) then incr_rank hist v
                            else Some hist) hist l).
Proof.
  intros Hl. revert hist. induction Hl as [|v l Hv _ IH]; intros hist; [done|].
  cbn [foldM]. destruct (decide (v ≠ SKIP_BOARD)) as [Hs|Hs]; [|apply IH].
  destruct (incr_rank hist v) as [hist'|] eqn:E; [apply IH|].
  unfold incr_rank in E. by rewrite decide_True in E by auto.
Qed.

Lemma foldM_incr_rank_pocket_Some (l : list Z) hist :
  Forall (λ v, 0 ≤ v < 14) l → is_Some (foldM incr_rank hist l).
Proof.
  intros Hl. revert hist. induction Hl as [|v l Hv _ IH]; intros hist; [done|].
  cbn [foldM]. destruct (incr_rank hist v) as [hist'|] eqn:E; [apply IH|].
  unfold incr_rank in E. by rewrite decide_True in E by auto.
Qed.

Lemma transition_spec a id c :
  valid_id a id → count_cards id ≤ 8 → card_allowed id c →
  ∃ r, transition a id c = Some r ∧
       (r ≠ 0 →
        valid_id a r ∧ count_cards r = count_cards id + 1 ∧ 0 < r < 2 ^ 63 ∧
        ∃ ps' bs',
          add_cards (fold_card a c) (pocket_cards id) (board_cards id)
            = Some (ps', bs') ∧
          r = pack64 (pad 4 ps') (pad 5 bs')).
Proof.
  intros Hv H8 Hc.
  destruct (cards_range id) as (_ & _ & Hlp & Hlb).
  rewrite count_cards_cards in H8.
  assert (is_Some (add_cards (fold_card a c) (pocket_cards id)
                             (board_cards id))) as [[ps' bs'] Hadd]
    by (apply add_cards_Some; [lia|done|done]).
  pose proof (packed_valid a id c ps' bs' Hv Hc Hadd) as Hpk.
  cbv zeta in Hpk.
  destruct Hpk as (Hpk1 & Hpk2 & Hpk3).
  assert (Hex : ∃ ps'0 bs'0,
            Some (ps', bs') = Some (ps'0, bs'0) ∧
            pack64 (pad 4 ps') (pad 5 bs') = pack64 (pad 4 ps'0) (pad 5 bs'0))
    by by exists ps', bs'.
  destruct a as [|s|]; cbn [transition fold_card] in *.
  - rewrite flush_suits_cards, Hadd. cbn [mbind option_bind fst snd].
    eexists; split; [done|].
    intros _. done.
  - rewrite flush_ranks_cards. cbv zeta.
    destruct (existsb _ (pocket_cards id)); [by exists 0|].
    destruct (existsb _ (board_cards id)); [by exists 0|].
    rewrite Hadd. cbn [mbind option_bind fst snd].
    destruct (flush_unreachable_cards ps' bs'); [by exists 0|].
    eexists; split; [done|]. intros _. done.
  - rewrite no_flush_cards. cbv zeta.
    destruct Hv as [Hvp Hvb].
    assert (is_Some (foldM incr_rank (replicate 14 0) (pocket_cards id)))
      as [r1 ->].
    { apply foldM_incr_rank_pocket_Some.
      eapply Forall_impl; [exact Hvp|]. cbn. lia. }
    cbn [mbind option_bind].
    assert (is_Some (foldM (λ hist v, if decide (v ≠ SKIP_BOARD)
                                      then incr_rank hist v else Some hist)
                           r1 (board_cards id))) as [r2 ->].
    { apply foldM_incr_rank_Some.
      eapply Forall_impl; [exact Hvb|]. intros v [Hv| ->] Hs; [|done].
      cbn in Hv. lia. }
    cbn [mbind option_bind]. rewrite Hadd. cbn [mbind option_bind fst snd].
    destruct (decide (fold_no_flush c ≠ SKIP_BOARD)) as [Hs|Hs].
    + unfold incr_rank. rewrite decide_True.
      2:{ destruct Hc as [Hc _].
          destruct (fold_card_valid NF c Hc) as [[_ H]|[_ H]]; cbn in H;
            [done|lia]. }
      cbn [mbind option_bind].
      destruct (existsb _ _); [by exists 0|].
      eexists; split; [done|]. intros _. done.
    + cbn [mbind option_bind].
      destruct (existsb _ _); [by exists 0|].
      eexists; split; [done|]. intros _. done.
Qed.


(** ** Loops in the [option] monad *)

Section foldM_lemmas.
Context {A B : Type} (f : B → A → option B).

Lemma foldM_app b l1 l2 :
  foldM f b (l1 ++ l2) = b' ← foldM f b l1; foldM f b' l2.
Proof.
  revert b. induction l1 as [|x l1 IH]; intros b; [done|].
  cbn [foldM app]. destruct (f b x) as [b'|]; [|done]. apply IH.
Qed.

(** A loop invariant [P state processed_prefix]. *)
Lemma foldM_invariant_from (P : B → list A → Prop) l : ∀ pre b,
  P b pre →
  (∀ b pre' x, P b pre' → x ∈ l →
               ∃ b', f b x = Some b' ∧ P b' (pre' ++ [x])) →
  ∃ b', foldM f b l = Some b' ∧ P b' (pre ++ l).
Proof.
  induction l as [|x l IH]; intros pre b HP Hbody.
  - exists b. by rewrite app_nil_r.
  - destruct (Hbody b pre x HP) as (b1 & Hf & HP1); [by left|].
    destruct (IH (pre ++ [x]) b1 HP1) as (b' & Hb' & HP').
    { intros b2 pre' y HP2 Hy. apply Hbody; [done|by right]. }
    exists b'. cbn [foldM]. rewrite Hf. cbn [mbind option_bind].
    split; [done|]. by rewrite <- app_assoc in HP'.
Qed.

Lemma foldM_invariant (P : B → list A → Prop) l b :
  P b [] →
  (∀ b pre x, P b pre → x ∈ l → ∃ b', f b x = Some b' ∧ P b' (pre ++ [x])) →
  ∃ b', foldM f b l = Some b' ∧ P b' l.
Proof. intros H0 Hbody. by apply (foldM_invariant_from P l []). Qed.
End foldM_lemmas.

(** ** [std::unique] on a sorted list *)

Lemma elem_of_unique_from x l y : y ∈ unique_from x l ↔ y = x ∨ y ∈ l.
Proof.
  revert x. induction l as [|z l IH]; intros x; cbn [unique_from].
  - rewrite list_elem_of_singleton. set_solver.
  - destruct (decide (x = z)) as [->|Hxz].
    + rewrite IH. set_solver.
    + rewrite elem_of_cons, IH. set_solver.
Qed.

Lemma elem_of_unique l y : y ∈ unique l ↔ y ∈ l.
Proof.
  destruct l as [|x l]; [done|]. cbn [unique].
  rewrite elem_of_unique_from. set_solver.
Qed.

Lemma unique_from_sorted x l :
  StronglySorted Z.le (x :: l) →
  StronglySorted Z.lt (unique_from x l) ∧
  Forall (λ y, x ≤ y) (unique_from x l).
Proof.
  revert x. induction l as [|z l IH]; intros x Hs; cbn [unique_from].
  - split; repeat constructor. lia.
  - apply StronglySorted_inv in Hs as [Hs Hx].
    apply Forall_cons in Hx as [Hxz Hx].
    destruct (decide (x = z)) as [->|Hne]; [by apply IH|].
    destruct (IH z Hs) as [IH1 IH2]. split.
    + constructor; [done|]. eapply Forall_impl; [exact IH2|]. cbn. lia.
    + constructor; [lia|]. eapply Forall_impl; [exact IH2|]. cbn. lia.
Qed.

Lemma unique_sorted l :
  StronglySorted Z.le l → StronglySorted Z.lt (unique l).
Proof.
  destruct l as [|x l]; [constructor|]. intros Hs. by apply unique_from_sorted.
Qed.

Lemma StronglySorted_lt_NoDup (l : list Z) : StronglySorted Z.lt l → NoDup l.
Proof.
  induction 1 as [|x l _ IH Hx]; constructor; [|done].
  intros Hin. rewrite Forall_forall in Hx. specialize (Hx x Hin). lia.
Qed.

Lemma sort_unique_spec l :
  StronglySorted Z.lt (unique (merge_sort Z.le l)) ∧
  ∀ y, y ∈ unique (merge_sort Z.le l) ↔ y ∈ l.
Proof.
  split.
  - apply unique_sorted, StronglySorted_merge_sort; apply _.
  - intros y. by rewrite elem_of_unique, merge_sort_Permutation.
Qed.

Lemma sort_NoDup_sorted l :
  NoDup l → StronglySorted Z.lt (merge_sort Z.le l).
Proof.
  intros Hnd.
  assert (Hs : StronglySorted Z.le (merge_sort Z.le l))
    by (apply StronglySorted_merge_sort; apply _).
  rewrite <- (merge_sort_Permutation Z.le l) in Hnd.
  revert Hs Hnd. generalize (merge_sort Z.le l). intros k Hs.
  induction Hs as [|x k Hs IH Hx]; intros Hnd; [constructor|].
  apply NoDup_cons in Hnd as [Hx' Hnd]. constructor; [by apply IH|].
  rewrite Forall_forall in Hx |- *. intros y Hy.
  specialize (Hx y Hy). assert (x ≠ y) by (by intros ->). lia.
Qed.

(** ** The enumerator, for any transition that adds one card *)

Section Enumeration.

Context (step : Z → Z → option Z) (Inv : Z → Prop).

Hypothesis step_ok : ∀ id c,
  Inv id → count_cards id ≤ 8 → card_allowed id c →
  ∃ r, step id c = Some r ∧
       (r ≠ 0 → Inv r ∧ count_cards r = count_cards id + 1).

Hypothesis Inv_zero : Inv 0.

(** [r] is a non-zero successor of [id]. *)
Let successor (id r : Z) : Prop :=
  ∃ c, card_allowed id c ∧ step id c = Some r ∧ r ≠ 0.

Lemma loop_cards_allowed (n : nat) id c :
  count_cards id = Z.of_nat n - 1 →
  c ∈ seqZ (generate_min_card n) (53 - generate_min_card n) ↔
  card_allowed id c.
Proof.
  intros Hn. rewrite elem_of_seqZ. unfold card_allowed, generate_min_card.
  destruct (n <=? 2)%nat eqn:Hle.
  - apply Nat.leb_le in Hle. lia.
  - apply Nat.leb_gt in Hle. lia.
Qed.

Lemma expand_id_ok (n : nat) queue id :
  Inv id → count_cards id = Z.of_nat n - 1 → (n ≤ 9)%nat →
  ∃ queue', expand_id step n queue id = Some queue' ∧
            ∀ r, r ∈ queue' ↔ r ∈ queue ∨ successor id r.
Proof.
  intros HI Hn H9. unfold expand_id. cbv zeta.
  set (cards := seqZ _ _).
  destruct (foldM_invariant
    (λ queue new_card,
       new_id ← step id new_card;
       Some (if decide (new_id ≠ 0) then queue ++ [new_id] else queue))
    (λ q pre, ∀ r, r ∈ q ↔
       r ∈ queue ∨ ∃ c, c ∈ pre ∧ step id c = Some r ∧ r ≠ 0)
    cards queue) as (q' & Hq' & Hspec).
  - intros r. set_solver.
  - intros q pre c Hq Hc.
    apply (loop_cards_allowed n id c Hn) in Hc.
    destruct (step_ok id c HI ltac:(lia) Hc) as (r0 & Hr0 & _).
    rewrite Hr0. cbn [mbind option_bind]. eexists; split; [done|].
    intros r. destruct (decide (r0 ≠ 0)) as [Hnz|Hz].
    + rewrite elem_of_app, list_elem_of_singleton, Hq. split.
      * intros [[?|(c' & ? & ? & ?)]| ->]; [by left|right..].
        -- exists c'. set_solver.
        -- exists c. set_solver.
      * intros [?|(c' & [Hc'|Hc']%elem_of_app & Hs & ?)]; [by left; left|..].
        -- left. right. by exists c'.
        -- apply list_elem_of_singleton in Hc'. subst c'.
           right. congruence.
    + apply dec_stable in Hz. rewrite Hq. split.
      * intros [?|(c' & ? & ? & ?)]; [by left|right].
        exists c'. set_solver.
      * intros [?|(c' & [Hc'|Hc']%elem_of_app & Hs & ?)]; [by left|..].
        -- right. by exists c'.
        -- apply list_elem_of_singleton in Hc'. subst c'. congruence.
  - exists q'. split; [done|]. intros r. rewrite Hspec.
    unfold successor. split.
    + intros [?|(c & Hc & ? & ?)]; [by left|right].
      exists c. split; [|done]. by apply (loop_cards_allowed n id c Hn).
    + intros [?|(c & Hc & ? & ?)]; [by left|right].
      exists c. split; [|done]. by apply (loop_cards_allowed n id c Hn).
Qed.

Lemma generation_ok st (n : nat) :
  (n ≤ 9)%nat →
  (∀ id, id ∈ st.2 → Inv id ∧ count_cards id = Z.of_nat n - 1) →
  ∃ q2, generation step st n = Some (st.1 ++ q2, q2) ∧
        StronglySorted Z.lt q2 ∧
        ∀ r, r ∈ q2 ↔ ∃ id, id ∈ st.2 ∧ successor id r.
Proof.
  intros H9 Hq. unfold generation.
  destruct (foldM_invariant (expand_id step n)
    (λ q pre, ∀ r, r ∈ q ↔ ∃ id, id ∈ pre ∧ successor id r) st.2 [])
    as (q & Hfold & Hspec).
  - intros r. set_solver.
  - intros q pre id Hpre Hid. destruct (Hq id Hid) as [HI Hn].
    destruct (expand_id_ok n q id HI Hn H9) as (q' & Hq' & Hs').
    exists q'. split; [done|]. intros r. rewrite Hs', Hpre. split.
    + intros [(id' & ? & ?)|?]; [exists id'|exists id]; set_solver.
    + intros (id' & [?|Hi]%elem_of_app & Hsucc); [left; by exists id'|].
      apply list_elem_of_singleton in Hi. subst id'. by right.
  - rewrite Hfold. cbn [mbind option_bind].
    destruct (sort_unique_spec q) as [Hsorted Hmem].
    eexists. split; [done|]. split; [done|].
    intros r. by rewrite Hmem, Hspec.
Qed.

Lemma generate_loop_S (n : nat) :
  generate_loop step (S n) =
  st ← generate_loop step n; generation step st (S n).
Proof.
  unfold generate_loop. rewrite seq_S, foldM_app.
  destruct (foldM _ _ (seq 1 n)) as [st|]; [|done].
  cbn [mbind option_bind foldM]. replace (1 + n)%nat with (S n) by lia.
  by destruct (generation step st (S n)).
Qed.

(** The state after [n] generations. *)
Let loop_inv (n : nat) (st : list Z * list Z) : Prop :=
  (∀ id, id ∈ st.2 → Inv id ∧ count_cards id = Z.of_nat n) ∧
  StronglySorted Z.lt st.2 ∧
  (∀ id, id ∈ st.1 → Inv id ∧ 0 ≤ count_cards id ≤ Z.of_nat n) ∧
  NoDup st.1 ∧
  (∀ id, id ∈ st.1 ↔
         ∃ k q, (k ≤ n)%nat ∧ generation_ids step k = Some q ∧ id ∈ q).

Lemma generate_loop_ok (n : nat) :
  (n ≤ 8)%nat → ∃ st, generate_loop step n = Some st ∧ loop_inv n st.
Proof.
  induction n as [|n IH]; intros H8.
  - exists ([0], [0]). split; [done|]. unfold loop_inv. cbn [fst snd].
    split_and!.
    + intros id ->%list_elem_of_singleton. by rewrite count_cards_zero.
    + repeat constructor.
    + intros id ->%list_elem_of_singleton. by rewrite count_cards_zero.
    + apply NoDup_singleton.
    + intros id. split.
      * intros Hid. exists 0%nat, [0]. done.
      * intros (k & q & Hk & Hq & Hid). assert (k = 0%nat) as -> by lia.
        cbn in Hq. by simplify_eq.
  - destruct IH as (st & Hst & Hq & Hsorted & Hl & Hnd & Hall); [lia|].
    destruct (generation_ok st (S n)) as (q2 & Hgen & Hs2 & Hm2); [lia|..].
    { intros id Hid. destruct (Hq id Hid). split; [done|lia]. }
    assert (Hq2 : ∀ r, r ∈ q2 → Inv r ∧ count_cards r = Z.of_nat (S n)).
    { intros r (id & Hid & c & Hc & Hstep & Hr0)%Hm2.
      destruct (Hq id Hid) as [HI Hcnt].
      destruct (step_ok id c HI ltac:(lia) Hc) as (r' & Hr' & Hgood).
      simplify_eq. destruct (Hgood Hr0). split; [done|lia]. }
    exists (st.1 ++ q2, q2). rewrite generate_loop_S, Hst.
    split; [exact Hgen|]. unfold loop_inv. cbn [fst snd].
    assert (Hgen_S : generation_ids step (S n) = Some q2).
    { unfold generation_ids. rewrite generate_loop_S, Hst.
      cbn [mbind option_bind]. by rewrite Hgen. }
    split_and!; [done|done|..].
    + intros id [Hid|Hid]%elem_of_app.
      * destruct (Hl id Hid). split; [done|lia].
      * destruct (Hq2 id Hid). split; [done|lia].
    + apply NoDup_app. split; [done|]. split.
      * intros id Hid1 Hid2. destruct (Hl id Hid1), (Hq2 id Hid2). lia.
      * by apply StronglySorted_lt_NoDup.
    + intros id. rewrite elem_of_app, Hall. split.
      * intros [(k & q & ? & ? & ?)|?].
        -- exists k, q. split_and!; [lia|done..].
        -- by exists (S n), q2.
      * intros (k & q & Hk & Hgq & Hid).
        destruct (decide (k = S n)) as [->|Hne].
        -- right. by simplify_eq.
        -- left. exists k, q. split_and!; [lia|done..].
Qed.

Lemma generation_ids_ok (n : nat) :
  (n ≤ 8)%nat →
  ∃ q, generation_ids step n = Some q ∧
       StronglySorted Z.lt q ∧
       ∀ id, id ∈ q → Inv id ∧ count_cards id = Z.of_nat n.
Proof.
  intros H8. destruct (generate_loop_ok n H8) as (st & Hst & Hq & Hs & _).
  exists st.2. unfold generation_ids. rewrite Hst. done.
Qed.

Lemma generation_ids_successor (n : nat) q q' id r :
  (S n ≤ 8)%nat →
  generation_ids step n = Some q → generation_ids step (S n) = Some q' →
  id ∈ q → successor id r → r ∈ q'.
Proof.
  intros H8 Hq Hq' Hid Hsucc.
  destruct (generate_loop_ok n) as (st & Hst & Hinv & _); [lia|].
  unfold generation_ids in Hq, Hq'.
  rewrite generate_loop_S in Hq'. rewrite Hst in Hq, Hq'.
  cbn [mbind option_bind] in Hq, Hq'. simplify_eq.
  destruct (generation_ok st (S n)) as (q2 & Hgen & _ & Hm2); [lia|..].
  { intros id' Hid'. destruct (Hinv id' Hid'). split; [done|lia]. }
  rewrite Hgen in Hq'. cbn in Hq'. simplify_eq. apply Hm2. by exists id.
Qed.

(** The final list: sorted, duplicate free, made of the generations, and
    closed under the transition. *)
Theorem generate_ids_ok :
  ∃ l, generate_ids step = Some l ∧
       StronglySorted Z.lt l ∧
       (∀ id, id ∈ l ↔
          ∃ k q, (k ≤ 8)%nat ∧ generation_ids step k = Some q ∧ id ∈ q) ∧
       (∀ id, id ∈ l → Inv id ∧ 0 ≤ count_cards id ≤ 8) ∧
       (∀ id c r, id ∈ l → count_cards id ≤ 7 → card_allowed id c →
                  step id c = Some r → r ≠ 0 → r ∈ l).
Proof.
  destruct (generate_loop_ok 8) as (st & Hst & Hq & Hs & Hl & Hnd & Hall);
    [lia|].
  exists (merge_sort Z.le st.1). unfold generate_ids. rewrite Hst.
  split; [done|]. split; [by apply sort_NoDup_sorted|].
  assert (Hmem : ∀ id, id ∈ merge_sort Z.le st.1 ↔ id ∈ st.1)
    by (intros id; by rewrite merge_sort_Permutation).
  split; [|split].
  - intros id. by rewrite Hmem, Hall.
  - intros id Hid%Hmem. by apply Hl.
  - intros id c r Hid H7 Hc Hstep Hr0.
    apply Hmem. apply Hmem, Hall in Hid as (k & q & Hk & Hgq & Hid).
    destruct (generation_ids_ok k Hk) as (q0 & Hq0 & _ & Hcnt).
    simplify_eq. destruct (Hcnt id Hid) as [_ Hk7].
    destruct (generation_ids_ok (S k)) as (q' & Hq' & _); [lia|].
    apply Hall. exists (S k), q'. split_and!; [lia|done|].
    eapply (generation_ids_successor k); [lia|done..|].
    by exists c.
Qed.

End Enumeration.


(** ** The three enumerations *)

(** The transition of an automaton is the source function of that name.
    These equations are used by rewriting. *)
Lemma transition_unfold a :
  transition a =
  match a with
  | FS => add_card_to_id_flush_suits
  | FR flush_suit => λ id new_card,
      add_card_to_id_flush_ranks id new_card flush_suit
  | NF => add_card_to_id_no_flush
  end.
Proof. reflexivity. Qed.

Lemma transition_FS : transition FS = add_card_to_id_flush_suits.
Proof. exact (transition_unfold FS). Qed.

Lemma transition_FR4 : transition (FR 4) = add_card_to_id_flush_ranks_4.
Proof. exact (transition_unfold (FR 4)). Qed.

Lemma transition_NF : transition NF = add_card_to_id_no_flush.
Proof. exact (transition_unfold NF). Qed.

Lemma valid_id_zero a : valid_id a 0.
Proof. split; constructor. Qed.

Lemma automaton_step_ok a id c :
  valid_id a id → count_cards id ≤ 8 → card_allowed id c →
  ∃ r, transition a id c = Some r ∧
       (r ≠ 0 → valid_id a r ∧ count_cards r = count_cards id + 1).
Proof.
  intros Hv H8 Hc.
  destruct (transition_spec a id c Hv H8 Hc) as (r & Hr & Hgood).
  exists r. split; [done|]. intros Hr0.
  destruct (Hgood Hr0) as (? & ? & _). done.
Qed.

Lemma enumeration_ok (a : automaton) :
  ∃ l, generate_ids (transition a) = Some l ∧
       StronglySorted Z.lt l ∧
       (∀ id, id ∈ l ↔
          ∃ k q, (k ≤ 8)%nat ∧
                 generation_ids (transition a) k = Some q ∧ id ∈ q) ∧
       (∀ id, id ∈ l → valid_id a id ∧ 0 ≤ count_cards id ≤ 8) ∧
       (∀ id c r, id ∈ l → count_cards id ≤ 7 → card_allowed id c →
                  transition a id c = Some r → r ≠ 0 → r ∈ l).
Proof.
  apply (generate_ids_ok (transition a) (valid_id a)).
  - apply automaton_step_ok.
  - apply valid_id_zero.
Qed.

Lemma zero_in_enumeration a l :
  generate_ids (transition a) = Some l → 0 ∈ l.
Proof.
  intros Hl. destruct (enumeration_ok a) as (l' & Hl' & _ & Hmem & _).
  simplify_eq. apply Hmem. exists 0%nat, [0]. split_and!; [lia|done|].
  apply list_elem_of_singleton. done.
Qed.

Lemma StronglySorted_lt_le (l : list Z) :
  StronglySorted Z.lt l → Sorted Z.le l.
Proof.
  intros Hs. apply StronglySorted_Sorted.
  induction Hs as [|x l _ IH Hx]; constructor; [done|].
  eapply Forall_impl; [exact Hx|]. cbn. lia.
Qed.

(** C7. For each of the three transition functions (flush suits, flush
    ranks for any target suit, no flush) the identifier list returned by
    [generate_ids] exists, is sorted in ascending order and has no
    duplicates; for every generation n = 1..8 the identifiers appended in
    that generation are part of the list and [count_cards] gives exactly n
    for each of them (the sentinel 53 is a non-zero slot). *)
Theorem generate_ids_sorted_nodup_counted (a : automaton) :
  ∃ id_list,
    generate_ids (transition a) = Some id_list ∧
    Sorted Z.le id_list ∧ NoDup id_list ∧
    Forall (λ n,
      ∃ appended,
        generation_ids (transition a) n = Some appended ∧
        Forall (λ id, id ∈ id_list ∧ count_cards id = Z.of_nat n) appended)
      (seq 1 8).
Proof.
  destruct (enumeration_ok a) as (l & Hl & Hs & Hmem & _).
  exists l. split; [done|]. split; [by apply StronglySorted_lt_le|].
  split; [by apply StronglySorted_lt_NoDup|].
  apply Forall_forall. intros n Hn. apply elem_of_seq in Hn.
  destruct (generation_ids_ok (transition a) (valid_id a)
              (automaton_step_ok a) (valid_id_zero a) n)
    as (q & Hq & _ & Hcnt); [lia|].
  exists q. split; [done|]. apply Forall_forall. intros id Hid. split.
  - apply Hmem. exists n, q. split_and!; [lia|done..].
  - by apply Hcnt.
Qed.


(** ** Packing round trip *)

(** C8. For a pocket array of 4 and a board array of 5 card values in
    0..53 (duplicates or not), [unpack64 (pack64 pocket board)] returns
    the same multisets: its board is a descending-sorted permutation of
    the board values and is what the low five 7-bit slots hold, its pocket
    is a descending-sorted permutation of the pocket values and is what
    the high four slots hold, and [n_pocket] and [n_board] count the
    non-zero values only. *)
Theorem unpack64_pack64_roundtrip (pocket0 board0 : list Z) :
  length pocket0 = 4%nat → length board0 = 5%nat →
  Forall (λ v, 0 ≤ v ≤ 53) pocket0 → Forall (λ v, 0 ≤ v ≤ 53) board0 →
  let id := pack64 pocket0 board0 in
  let h := unpack64 id in
  pocket h ≡ₚ pocket0 ∧ board h ≡ₚ board0 ∧
  Sorted (flip Z.le) (pocket h) ∧ Sorted (flip Z.le) (board h) ∧
  slot id <$> [0; 1; 2; 3; 4]%nat = board h ∧
  slot id <$> [5; 6; 7; 8]%nat = pocket h ∧
  n_pocket h = length (filter (λ v, v ≠ 0) pocket0) ∧
  n_board h = length (filter (λ v, v ≠ 0) board0).
Proof.
  intros Hlp Hlb Hp Hb id h.
  destruct (unpack64_pack64_gen pocket0 board0 Hlp Hlb) as (Hs & Hu & _).
  { eapply Forall_impl; [exact Hp|]. cbn. lia. }
  { eapply Forall_impl; [exact Hb|]. cbn. lia. }
  subst h id. rewrite Hu. cbn [pocket board n_pocket n_board].
  split_and!; try done.
  - apply sort_desc_perm.
  - apply sort_desc_perm.
  - apply sort_desc_sorted.
  - apply sort_desc_sorted.
  - change [0; 1; 2; 3; 4]%nat with (take 5 (seq 0 9)).
    rewrite fmap_take, Hs, take_app_length'; [done|].
    by rewrite sort_desc_length.
  - change [5; 6; 7; 8]%nat with (drop 5 (seq 0 9)).
    rewrite fmap_drop, Hs, drop_app_length'; [done|].
    by rewrite sort_desc_length.
Qed.

Lemma unpack64_pack64_roundtrip_witness :
  let id := pack64 [3; 0; 7; 0] [53; 0; 2; 53; 9] in
  let h := unpack64 id in
  pocket h ≡ₚ [3; 0; 7; 0] ∧ board h ≡ₚ [53; 0; 2; 53; 9] ∧
  Sorted (flip Z.le) (pocket h) ∧ Sorted (flip Z.le) (board h) ∧
  slot id <$> [0; 1; 2; 3; 4]%nat = board h ∧
  slot id <$> [5; 6; 7; 8]%nat = pocket h ∧
  n_pocket h = length (filter (λ v, v ≠ 0) [3; 0; 7; 0]) ∧
  n_board h = length (filter (λ v, v ≠ 0) [53; 0; 2; 53; 9]).
Proof.
  apply (unpack64_pack64_roundtrip [3; 0; 7; 0] [53; 0; 2; 53; 9]).
  - reflexivity.
  - reflexivity.
  - repeat constructor; lia.
  - repeat constructor; lia.
Defined.

(** ** The flush-suit transition never prunes *)

Lemma flush_suits_never_zero id new_card :
  count_cards id ≤ 8 → 0 ≤ new_card ≤ 52 →
  ∃ new_id, add_card_to_id_flush_suits id new_card = Some new_id ∧
            new_id ≠ 0 ∧ count_cards new_id = count_cards id + 1.
Proof.
  intros H8 Hc. destruct (cards_range id) as (_ & _ & Hlp & Hlb).
  rewrite count_cards_cards in H8.
  assert (is_Some (add_cards (fold_flush_suits new_card) (pocket_cards id)
                             (board_cards id))) as [[ps' bs'] Hadd]
    by (apply add_cards_Some; [lia|done|done]).
  destruct (pack64_after_add id _ ps' bs' (fold_card_range FS new_card Hc) Hadd)
    as (_ & _ & Hcnt & Hnz & _).
  rewrite flush_suits_cards, Hadd. cbn [mbind option_bind fst snd].
  eexists. split; [done|]. split; done.
Qed.

(** C9. The flush-suit transition never prunes: for every identifier with
    at most 8 occupied slots and every card 0..52,
    [add_card_to_id_flush_suits] returns a non-zero identifier, so the
    loop body of [process_ids] takes the terminal or the link branch and
    never the branch that stores the fan-in offset. *)
Theorem flush_suits_never_prunes (id new_card : Z) :
  count_cards id ≤ 8 → 0 ≤ new_card ≤ 52 →
  ∃ new_id, add_card_to_id_flush_suits id new_card = Some new_id ∧
            new_id ≠ 0 ∧
            transition_branch (count_cards id) new_id ≠ Prune.
Proof.
  intros H8 Hc.
  destruct (flush_suits_never_zero id new_card H8 Hc) as (r & Hr & Hnz & _).
  exists r. split; [done|]. split; [done|].
  unfold transition_branch. repeat case_decide; done.
Qed.

Lemma flush_suits_never_prunes_witness :
  ∃ new_id, add_card_to_id_flush_suits 6837 52 = Some new_id ∧
            new_id ≠ 0 ∧
            transition_branch (count_cards 6837) new_id ≠ Prune.
Proof.
  apply (flush_suits_never_prunes 6837 52).
  - vm_compute. discriminate.
  - lia.
Defined.

(** In the table assembly of the flush-suit automaton every identifier of
    the enumerated list meets the bound of C9. *)
Lemma flush_suits_assembly_never_prunes id_fs id new_card :
  generate_ids add_card_to_id_flush_suits = Some id_fs →
  id ∈ id_fs → 0 ≤ new_card ≤ 52 →
  ∃ new_id, add_card_to_id_flush_suits id new_card = Some new_id ∧
            transition_branch (count_cards id) new_id ≠ Prune.
Proof.
  intros Hl Hid Hc.
  destruct (enumeration_ok FS) as (l & Hl' & _ & _ & Hinv & _).
  rewrite <- transition_FS, Hl' in Hl. injection Hl as <-.
  destruct (Hinv id Hid) as [_ [_ H8]].
  clear Hl' Hinv.
  destruct (flush_suits_never_prunes id new_card H8 Hc) as (r & ? & _ & ?).
  exists r. split; assumption.
Qed.


(** ** Skipping board cards *)

Lemma lookup_total_pad_ge n (l : list Z) i :
  (length l ≤ i < n)%nat → pad n l !!! i = 0.
Proof.
  intros Hi. unfold pad. rewrite lookup_total_app_r by lia.
  apply list_lookup_total_correct, lookup_replicate_2. lia.
Qed.

Lemma fold_card_skip a : fold_card a 0 = SKIP_BOARD.
Proof. by destruct a. Qed.


(** ** Pruning in the flush-rank transition *)

Lemma count_if_from (cond : Z → bool) (l : list Z) (n : Z) :
  foldl (λ n v, if cond v then n + 1 else n) n l =
  n + Z.of_nat (length (filter (λ v, cond v = true) l)).
Proof.
  revert n. induction l as [|v l IH]; intros n; cbn [foldl].
  - cbn. lia.
  - rewrite IH, filter_cons. destruct (cond v); cbn [length].
    + rewrite decide_True by done. cbn [length]. lia.
    + rewrite decide_False by done. lia.
Qed.

Lemma count_if_filter (cond : Z → bool) (l : list Z) :
  count_if cond l = Z.of_nat (length (filter (λ v, cond v = true) l)).
Proof. unfold count_if. by rewrite count_if_from. Qed.

Lemma length_filter_ext (P Q : Z → Prop)
    `{∀ x, Decision (P x)} `{∀ x, Decision (Q x)} (l : list Z) :
  Forall (λ v, P v ↔ Q v) l → length (filter P l) = length (filter Q l).
Proof.
  induction 1 as [|v l Hv _ IH]; [done|].
  rewrite !filter_cons.
  destruct (decide (P v)), (decide (Q v)); cbn [length]; tauto || lia.
Qed.

Lemma count_suited_board s (l : list Z) :
  Forall (valid_board_value (FR s)) l →
  count_if suited_board l = count_suited l.
Proof.
  intros Hl. rewrite count_if_filter. unfold count_suited. f_equal.
  apply length_filter_ext. eapply Forall_impl; [exact Hl|].
  intros v Hv. unfold suited_board, ANY_CARD, SKIP_BOARD.
  rewrite !andb_true_iff, !negb_true_iff, !Z.eqb_neq.
  destruct Hv as [Hv| ->]; cbn in *; unfold SKIP_BOARD; lia.
Qed.

Lemma count_suited_pocket s (l : list Z) :
  Forall (valid_pocket_value (FR s)) l →
  count_if suited_pocket l = count_suited l.
Proof.
  intros Hl. rewrite count_if_filter. unfold count_suited. f_equal.
  apply length_filter_ext. eapply Forall_impl; [exact Hl|].
  intros v Hv. unfold suited_pocket, ANY_CARD.
  rewrite !andb_true_iff, !negb_true_iff, !Z.eqb_neq. cbn in Hv. lia.
Qed.

(** C6. On a flush-rank identifier, whenever the hand obtained by adding
    the folded card has a 4-card board with fewer than 2 cards of the
    target suit, or a 5-card board with fewer than 3, or a 5-card board
    and 4 pocket cards with fewer than 2 pocket cards of the target suit
    (a card of the target suit is a folded value in 2..14),
    [add_card_to_id_flush_ranks] returns 0. *)
Theorem flush_ranks_prunes_unreachable
    (id new_card flush_suit : Z) (h : hand) :
  valid_id (FR flush_suit) id → card_allowed id new_card →
  add_card (fold_flush_ranks new_card flush_suit) (unpack64 id) = Some h →
  let nsb := count_suited (take (n_board h) (board h)) in
  let nsp := count_suited (take (n_pocket h) (pocket h)) in
  (n_board h = 4%nat ∧ nsb < 2) ∨
  (n_board h = 5%nat ∧ nsb < 3) ∨
  (n_board h = 5%nat ∧ n_pocket h = 4%nat ∧ nsp < 2) →
  add_card_to_id_flush_ranks id new_card flush_suit = Some 0.
Proof.
  intros Hv Hc Hadd nsb nsp Hprune.
  rewrite flush_ranks_cards. cbv zeta.
  destruct (existsb _ (pocket_cards id)); [done|].
  destruct (existsb _ (board_cards id)); [done|].
  rewrite add_card_unpack in Hadd.
  destruct (add_cards _ _ _) as [[ps' bs']|] eqn:Hadds; [|done].
  cbn [mbind option_bind fst snd] in Hadd |- *. injection Hadd as <-.
  subst nsb nsp. cbn [n_board n_pocket board pocket] in Hprune.
  rewrite !take_pad in Hprune.
  destruct (packed_valid (FR flush_suit) id new_card ps' bs' Hv Hc Hadds)
    as [[Hvp Hvb] _].
  destruct (cards_range id) as (Hrp & Hrb & Hlp & Hlb).
  destruct (add_cards_inv _ _ _ _ _ Hadds Hlp Hlb) as (Hlp' & Hlb' & _ & Hcase).
  assert (Hps' : Forall (λ v, 0 < v < 128) ps' ∧ Forall (λ v, 0 < v < 128) bs').
  { destruct Hc as [Hc _].
    pose proof (fold_card_range (FR flush_suit) new_card Hc) as Hf.
    destruct Hcase as [(-> & -> & _)|(-> & -> & _)]; split; try done;
      apply Forall_app; split; try done; by constructor. }
  destruct Hps' as [Hrp' Hrb'].
  destruct (pack64_cards ps' bs' Hrp' Hrb' Hlp' Hlb') as (_ & Hp & Hb & _).
  rewrite Hp, Hb, !sort_desc_Forall in *.
  assert (flush_unreachable_cards ps' bs' = true) as ->; [|done].
  unfold flush_unreachable_cards. cbv zeta.
  rewrite (count_suited_board flush_suit bs' Hvb).
  rewrite (count_suited_pocket flush_suit ps' Hvp).
  rewrite !orb_true_iff, !andb_true_iff, !Nat.eqb_eq, !Z.leb_le, Z.eqb_eq.
  unfold count_suited in *. lia.
Qed.

Lemma flush_ranks_prunes_unreachable_witness :
  add_card_to_id_flush_ranks 16513 5 4 = Some 0.
Proof.
  apply (flush_ranks_prunes_unreachable 16513 5 4
           (Hand [0; 0; 0; 0] [1; 1; 1; 1; 0] 0 4)).
  - split.
    + replace (pocket_cards 16513) with (@nil Z) by reflexivity. constructor.
    + replace (board_cards 16513) with [1; 1; 1] by reflexivity.
      repeat (apply Forall_cons; split; [left; cbn; lia|]). constructor.
  - split; [lia|]. intros H. discriminate H.
  - reflexivity.
  - left. split; [reflexivity|]. vm_compute. reflexivity.
Defined.


(** ** The flush-suit evaluator *)

Lemma MIN_min a b : MIN a b = Z.min a b.
Proof. unfold MIN. destruct (a <? b) eqn:H; lia. Qed.

Lemma suit_count_cons s v l :
  suit_count s (v :: l) = (if decide (v = s) then 1 else 0) + suit_count s l.
Proof.
  unfold suit_count. rewrite filter_cons.
  destruct (decide (v = s)); cbn [length]; lia.
Qed.

Lemma suit_count_nonneg s l : 0 ≤ suit_count s l.
Proof. unfold suit_count. lia. Qed.

Lemma suit_count_two s t l :
  s ≠ t → suit_count s l + suit_count t l ≤ Z.of_nat (length l).
Proof.
  intros Hst. induction l as [|v l IH]; [done|].
  rewrite !suit_count_cons. cbn [length].
  destruct (decide (v = s)), (decide (v = t)); lia.
Qed.

(** The clamped histogram loop. *)
Lemma bump_suit_fold cap (l : list Z) :
  0 ≤ cap → Forall (λ v, 0 ≤ v < 5) l →
  ∀ hist, length hist = 5%nat →
    (∀ s, 0 ≤ s < 5 → hist !!! Z.to_nat s ≤ cap) →
    ∃ hist', foldM (bump_suit cap) hist l = Some hist' ∧
             length hist' = 5%nat ∧
             ∀ s, 0 ≤ s < 5 →
                  hist' !!! Z.to_nat s =
                  Z.min (hist !!! Z.to_nat s + suit_count s l) cap.
Proof.
  intros Hcap Hl. induction Hl as [|v l Hv _ IH]; intros hist Hlen Hle.
  - exists hist. split; [done|]. split; [done|]. intros s Hs.
    specialize (Hle s Hs). unfold suit_count. cbn. lia.
  - cbn [foldM].
    assert (bump_suit cap hist v =
            Some (<[Z.to_nat v := MIN (hist !!! Z.to_nat v + 1) cap]> hist))
      as -> by (unfold bump_suit; by rewrite decide_True).
    cbn [mbind option_bind].
    destruct (IH (<[Z.to_nat v := MIN (hist !!! Z.to_nat v + 1) cap]> hist))
      as (hist' & Hf & Hlen' & Hval).
    + by rewrite length_insert.
    + intros s Hs. destruct (decide (Z.to_nat v = Z.to_nat s)) as [Heq|Hne].
      * rewrite Heq, list_lookup_total_insert_eq by lia. rewrite MIN_min. lia.
      * rewrite list_lookup_total_insert_ne by done. by apply Hle.
    + exists hist'. split; [done|]. split; [done|]. intros s Hs.
      rewrite (Hval s Hs), suit_count_cons.
      destruct (decide (v = s)) as [->|Hne].
      * rewrite list_lookup_total_insert_eq by lia. rewrite MIN_min.
        specialize (Hle s Hs). pose proof (suit_count_nonneg s l). lia.
      * rewrite list_lookup_total_insert_ne by lia. f_equal; lia.
Qed.

Lemma foldM_skip_filter cap hist (l : list Z) :
  foldM (λ hist v, if decide (v ≠ SKIP_BOARD) then bump_suit cap hist v
                   else Some hist) hist l =
  foldM (bump_suit cap) hist (filter (λ v, v ≠ SKIP_BOARD) l).
Proof.
  revert hist. induction l as [|v l IH]; intros hist; [done|].
  cbn [foldM]. rewrite filter_cons.
  destruct (decide (v ≠ SKIP_BOARD)); cbn [foldM mbind option_bind].
  - destruct (bump_suit cap hist v); [apply IH|done].
  - apply IH.
Qed.

Lemma zeros_lookup_total n i : (i < n)%nat → replicate n 0 !!! i = 0.
Proof. intros. by apply list_lookup_total_correct, lookup_replicate_2. Qed.

(** The histograms of [eval_flush_suits] are the clamped suit counts. *)
Lemma suit_histograms_spec id :
  valid_id FS id →
  ∃ nsp nsb,
    suit_histograms id = Some (nsp, nsb) ∧
    ∀ s, 1 ≤ s ≤ 4 →
      nsp !!! Z.to_nat s = Z.min (suit_count s (pocket_cards id)) 2 ∧
      nsb !!! Z.to_nat s =
        Z.min (suit_count s (filter (λ v, v ≠ SKIP_BOARD) (board_cards id))) 3.
Proof.
  intros [Hvp Hvb]. unfold suit_histograms. cbv zeta.
  rewrite unpack64_cards. cbn [n_pocket n_board pocket board].
  rewrite !take_pad, foldM_skip_filter.
  destruct (bump_suit_fold 2 (pocket_cards id)) with (hist := replicate 5 0)
    as (nsp & Hp & _ & Hpv); [lia| |done| |].
  { eapply Forall_impl; [exact Hvp|]. cbn. lia. }
  { intros s Hs. rewrite zeros_lookup_total by lia. lia. }
  destruct (bump_suit_fold 3 (filter (λ v, v ≠ SKIP_BOARD) (board_cards id)))
    with (hist := replicate 5 0) as (nsb & Hb & _ & Hbv); [lia| |done| |].
  { apply Forall_forall. intros v [Hv1 Hv2]%list_elem_of_filter.
    rewrite Forall_forall in Hvb. destruct (Hvb v Hv2) as [H|H]; [|done].
    cbn in H. lia. }
  { intros s Hs. rewrite zeros_lookup_total by lia. lia. }
  exists nsp, nsb. rewrite Hp. cbn [mbind option_bind]. rewrite Hb.
  split; [done|]. intros s Hs.
  rewrite (Hpv s), (Hbv s), !zeros_lookup_total by lia. done.
Qed.

Lemma flush_total_unique id s t :
  5 ≤ flush_total id s → 5 ≤ flush_total id t → s = t.
Proof.
  unfold flush_total. intros Hs Ht.
  destruct (decide (s = t)) as [|Hne]; [done|exfalso].
  pose proof (suit_count_two s t
    (filter (λ v, v ≠ SKIP_BOARD) (board_cards id)) Hne) as H2.
  pose proof (length_filter (λ v, v ≠ SKIP_BOARD) (board_cards id)) as H3.
  destruct (cards_range id) as (_ & _ & _ & Hlb). lia.
Qed.

Lemma scan_suits_spec nsp nsb suits :
  (scan_suits nsp nsb suits = -1 ∧
   Forall (λ s, nsp !!! Z.to_nat s + nsb !!! Z.to_nat s < 5) suits) ∨
  (scan_suits nsp nsb suits ∈ suits ∧
   5 ≤ nsp !!! Z.to_nat (scan_suits nsp nsb suits) +
       nsb !!! Z.to_nat (scan_suits nsp nsb suits)).
Proof.
  induction suits as [|s suits IH]; cbn [scan_suits].
  - left. split; [done|constructor].
  - destruct (_ >=? 5) eqn:Hge.
    + right. split; [apply list_elem_of_here|]. lia.
    + destruct IH as [[H1 H2]|[H1 H2]].
      * left. split; [done|]. constructor; [lia|done].
      * right. split; [by apply list_elem_of_further|done].
Qed.

(** C10. For a flush-suit identifier with valid folded values (pocket
    slots 0 or a suit 1..4, board slots 0, a suit 1..4 or the sentinel 53)
    at most one suit s has
    min(pocket count of s, 2) + min(non-skip board count of s, 3) >= 5;
    [eval_flush_suits] returns that suit, or -1 when there is none, and
    scanning the four suits in any other order gives the same result. *)
Theorem eval_flush_suits_unique_suit (id : Z) :
  valid_id FS id →
  (∀ s t, 5 ≤ flush_total id s → 5 ≤ flush_total id t → s = t) ∧
  ∃ r, eval_flush_suits id = Some r ∧
       ((r = -1 ∧ ∀ s, 1 ≤ s ≤ 4 → flush_total id s < 5) ∨
        (1 ≤ r ≤ 4 ∧ 5 ≤ flush_total id r)) ∧
       ∀ order, order ≡ₚ [1; 2; 3; 4] →
                eval_flush_suits_scan order id = Some r.
Proof.
  intros Hv. split; [apply flush_total_unique|].
  destruct (suit_histograms_spec id Hv) as (nsp & nsb & Hh & Hval).
  assert (Htot : ∀ s, 1 ≤ s ≤ 4 →
            nsp !!! Z.to_nat s + nsb !!! Z.to_nat s = flush_total id s).
  { intros s Hs. destruct (Hval s Hs) as [-> ->]. done. }
  assert (Hscan : ∀ order, order ≡ₚ [1; 2; 3; 4] →
    (scan_suits nsp nsb order = -1 ∧ ∀ s, 1 ≤ s ≤ 4 → flush_total id s < 5) ∨
    (1 ≤ scan_suits nsp nsb order ≤ 4 ∧
     5 ≤ flush_total id (scan_suits nsp nsb order))).
  { intros order Hperm.
    assert (Hin : ∀ s, s ∈ order ↔ 1 ≤ s ≤ 4).
    { intros s. rewrite Hperm, !elem_of_cons, elem_of_nil. lia. }
    destruct (scan_suits_spec nsp nsb order) as [[H1 H2]|[H1 H2]].
    - left. split; [done|]. intros s Hs. rewrite <- Htot by done.
      rewrite Forall_forall in H2. apply H2. by apply Hin.
    - right. apply Hin in H1. split; [done|]. by rewrite <- Htot. }
  exists (scan_suits nsp nsb [1; 2; 3; 4]).
  unfold eval_flush_suits, eval_flush_suits_scan. rewrite Hh.
  cbn [mbind option_bind]. split; [done|]. split; [by apply Hscan|].
  intros order Hperm. f_equal.
  destruct (Hscan order Hperm) as [[H1 H2]|[H1 H2]],
           (Hscan [1; 2; 3; 4] (reflexivity _)) as [[H3 H4]|[H3 H4]].
  - congruence.
  - specialize (H2 _ H3). lia.
  - specialize (H4 _ H1). lia.
  - by apply (flush_total_unique id).
Qed.

Lemma eval_flush_suits_unique_suit_witness :
  (∀ s t, 5 ≤ flush_total 72624977479795204 s →
          5 ≤ flush_total 72624977479795204 t → s = t) ∧
  ∃ r, eval_flush_suits 72624977479795204 = Some r ∧
       ((r = -1 ∧ ∀ s, 1 ≤ s ≤ 4 → flush_total 72624977479795204 s < 5) ∨
        (1 ≤ r ≤ 4 ∧ 5 ≤ flush_total 72624977479795204 r)) ∧
       ∀ order, order ≡ₚ [1; 2; 3; 4] →
                eval_flush_suits_scan order 72624977479795204 = Some r.
Proof.
  apply (eval_flush_suits_unique_suit 72624977479795204).
  split.
  - replace (pocket_cards 72624977479795204) with [1; 1; 1; 1]
      by reflexivity.
    repeat (apply Forall_cons; split; [cbn; lia|]). constructor.
  - replace (board_cards 72624977479795204) with [4; 4; 4; 4; 4]
      by reflexivity.
    repeat (apply Forall_cons; split; [left; cbn; lia|]). constructor.
Defined.


(** ** Identifiers reached from the initial state *)

Lemma follow_in_enumeration a l cards : ∀ id r,
  generate_ids (transition a) = Some l →
  id ∈ l → Forall (λ c, 1 ≤ c ≤ 52) cards →
  count_cards id + Z.of_nat (length cards) ≤ 8 →
  follow (transition a) id cards = Some r →
  r ∈ l ∧ count_cards r = count_cards id + Z.of_nat (length cards).
Proof.
  intros id r Hl. revert id r.
  destruct (enumeration_ok a) as (l' & Hl' & _ & _ & Hinv & Hclosed).
  rewrite Hl in Hl'. injection Hl' as <-. clear Hl.
  induction cards as [|c cards IH]; intros id r Hid Hcs Hlen Hf.
  - cbn in Hf. injection Hf as <-. split; [done|]. cbn. lia.
  - apply Forall_cons in Hcs as [Hc Hcs]. cbn [follow length] in Hf, Hlen.
    destruct (Hinv id Hid) as [Hv Hcnt].
    assert (Hca : card_allowed id c) by (split; lia).
    destruct (automaton_step_ok a id c Hv ltac:(lia) Hca) as (r1 & Hr1 & Hgood).
    rewrite Hr1 in Hf. cbn [mbind option_bind] in Hf.
    destruct (decide (r1 = 0)) as [|Hnz]; [done|].
    destruct (Hgood Hnz) as [_ Hcnt1].
    destruct (IH r1 r) as [Hr Hcr]; try done.
    + by apply (Hclosed id c r1); [|lia|..].
    + lia.
    + split; [done|]. cbn [length]. lia.
Qed.

Lemma suit_count_perm s (l k : list Z) :
  l ≡ₚ k → suit_count s l = suit_count s k.
Proof. intros Hp. unfold suit_count. by rewrite Hp. Qed.

Lemma suit_count_app s (l k : list Z) :
  suit_count s (l ++ k) = suit_count s l + suit_count s k.
Proof. unfold suit_count. rewrite filter_app, length_app. lia. Qed.

Lemma suit_count_le_length s (l : list Z) :
  suit_count s l ≤ Z.of_nat (length l).
Proof. unfold suit_count. pose proof (length_filter (λ v, v = s) l). lia. Qed.

Lemma suit_count_no_skip s (l : list Z) :
  s ≠ SKIP_BOARD →
  suit_count s (filter (λ v, v ≠ SKIP_BOARD) l) = suit_count s l.
Proof.
  intros Hs. induction l as [|v l IH]; [done|].
  rewrite filter_cons. destruct (decide (v ≠ SKIP_BOARD)) as [Hv|Hv].
  - by rewrite !suit_count_cons, IH.
  - apply dec_stable in Hv. subst v.
    rewrite suit_count_cons, IH, decide_False by done. lia.
Qed.

(** ** Flush-suit identifiers are not clamped *)

(** The flush-suit transition stores the suit of the new card in one more
    slot, whatever the number of slots that hold this suit already. *)
Lemma flush_suits_adds_slot id new_card :
  count_cards id ≤ 8 → 0 ≤ new_card ≤ 52 →
  ∃ new_id,
    add_card_to_id_flush_suits id new_card = Some new_id ∧
    ∀ s, suit_count s (pocket_cards new_id) +
         suit_count s (board_cards new_id) =
         suit_count s (pocket_cards id) + suit_count s (board_cards id) +
         (if decide (fold_flush_suits new_card = s) then 1 else 0).
Proof.
  intros H8 Hc. destruct (cards_range id) as (_ & _ & Hlp & Hlb).
  rewrite count_cards_cards in H8.
  assert (is_Some (add_cards (fold_flush_suits new_card) (pocket_cards id)
                             (board_cards id))) as [[ps' bs'] Hadd]
    by (apply add_cards_Some; [lia|done|done]).
  destruct (pack64_after_add id _ ps' bs' (fold_card_range FS new_card Hc) Hadd)
    as (Hp & Hb & _).
  rewrite flush_suits_cards, Hadd. cbn [mbind option_bind fst snd].
  eexists. split; [done|]. intros s. rewrite Hp, Hb.
  rewrite (suit_count_perm s _ _ (sort_desc_perm ps')).
  rewrite (suit_count_perm s _ _ (sort_desc_perm bs')).
  destruct (add_cards_inv _ _ _ _ _ Hadd Hlp Hlb)
    as (_ & _ & _ & [(-> & -> & _)|(-> & -> & _)]);
    rewrite suit_count_app, suit_count_cons;
    change (suit_count s []) with 0; lia.
Qed.

(** C3, as stated, fails: the enumerated flush-suit list holds the
    identifier reached by the eight spades 4, 8, .., 32, whose board slots
    hold suit 4 five times (more than 3) and whose pocket slots hold it
    three times (more than 2). *)
Lemma flush_suit_ids_exceed_histogram_bounds :
  ∃ id_fs,
    generate_ids add_card_to_id_flush_suits = Some id_fs ∧
    2269530520879620 ∈ id_fs ∧
    suit_count 4 (pocket_cards 2269530520879620) = 3 ∧
    suit_count 4 (board_cards 2269530520879620) = 5.
Proof.
  destruct (enumeration_ok FS) as (l & Hl & _).
  exists l. split; [by rewrite <- transition_FS|].
  split; [|split; reflexivity].
  eapply (follow_in_enumeration FS l [4; 8; 12; 16; 20; 24; 28; 32] 0).
  - exact Hl.
  - by apply (zero_in_enumeration FS).
  - clear Hl. repeat (apply Forall_cons; split; [lia|]). constructor.
  - clear Hl. rewrite count_cards_zero. cbn. lia.
  - clear Hl. rewrite transition_FS. vm_compute. reflexivity.
Qed.

(** C3, amended. Every identifier of the enumerated flush-suit list
    stores the suit of each of its cards: the transition adds one slot
    holding the suit of the new card without clamping, so a suit occurs up
    to 4 times among the pocket slots and up to 5 times among the board
    slots.  The bounds 2 (pocket) and 3 (board) are applied by
    [eval_flush_suits]: the histograms it builds from the identifier are
    min(count, 2) and min(count, 3). *)
Theorem flush_suit_ids_clamped_by_evaluator_only :
  ∃ id_fs,
    generate_ids add_card_to_id_flush_suits = Some id_fs ∧
    ∀ id, id ∈ id_fs →
      (∀ new_card, 0 ≤ new_card ≤ 52 →
         ∃ new_id,
           add_card_to_id_flush_suits id new_card = Some new_id ∧
           ∀ s, suit_count s (pocket_cards new_id) +
                suit_count s (board_cards new_id) =
                suit_count s (pocket_cards id) + suit_count s (board_cards id) +
                (if decide (fold_flush_suits new_card = s) then 1 else 0)) ∧
      (∀ s, suit_count s (pocket_cards id) ≤ 4 ∧
            suit_count s (board_cards id) ≤ 5) ∧
      ∃ nsp nsb,
        suit_histograms id = Some (nsp, nsb) ∧
        ∀ s, 1 ≤ s ≤ 4 →
          nsp !!! Z.to_nat s = Z.min (suit_count s (pocket_cards id)) 2 ∧
          nsb !!! Z.to_nat s = Z.min (suit_count s (board_cards id)) 3.
Proof.
  destruct (enumeration_ok FS) as (l & Hl & _ & _ & Hinv & _).
  exists l. split; [by rewrite <- transition_FS|]. clear Hl.
  intros id Hid. destruct (Hinv id Hid) as [Hv [_ H8]]. clear Hinv.
  split; [|split].
  - intros c Hc. by apply flush_suits_adds_slot.
  - intros s. destruct (cards_range id) as (_ & _ & Hlp & Hlb).
    pose proof (suit_count_le_length s (pocket_cards id)).
    pose proof (suit_count_le_length s (board_cards id)). lia.
  - destruct (suit_histograms_spec id Hv) as (nsp & nsb & Hh & Hval).
    exists nsp, nsb. split; [done|]. intros s Hs.
    destruct (Hval s Hs) as [Hp Hb]. split; [done|].
    rewrite Hb, suit_count_no_skip; [done|]. unfold SKIP_BOARD. lia.
Qed.


(** ** Evaluators called on an identifier with too few cards *)

(** C4, as stated, fails: called on the empty identifier (no pocket and
    no board card) both evaluators return to their caller.
    [eval_no_flush] returns 0 and its message does not contain the
    identifier; [eval_flush_ranks] returns -1.  (The Cactus Kev tables
    play no role on this path; constant tables are used here.) *)
Lemma evaluators_return_on_empty_id :
  eval_no_flush (λ _, 0) (λ _, 0) (λ _, 0) (λ _, 0) 0 =
    Some (0, [Text nl;
              Text "eval_no_flush() encountered invalid # of cards, shouldn't happen...";
              Text nl]) ∧
  eval_flush_ranks (λ _, 0) (λ _, 0) 0 =
    (-1, [Text nl; Text "eval_flush_ranks(): "; Num 0;
          Text ": zero encountered."; Text nl]).
Proof. split; reflexivity. Qed.

(** C4, amended. When a terminal evaluator is called on an identifier
    that fails its card check, nothing is aborted: [eval_no_flush] (fewer
    than 4 pocket cards, or fewer than 3 board slots left after the skip
    sentinels are dropped) writes a message without the identifier and
    returns 0; [eval_flush_ranks] (one of the first two pocket slots or of
    the first three non-skip board slots is empty) writes a message with
    the identifier and returns -1; the table assembly stores the returned
    value, remapped like every terminal score. *)
Theorem evaluators_report_and_return
    (flushes unique5 values cactus_findit cactus_to_ray : Z → Z)
    (offset block_size : Z) (hash_table map : gmap Z Z) (id : Z) :
  let h := unpack64 id in
  let b := skip_board (board h) in
  ((n_pocket h < 4)%nat ∨ (b.2 < 3)%nat →
   eval_no_flush unique5 values cactus_findit cactus_to_ray id =
     Some (0, [Text nl;
               Text "eval_no_flush() encountered invalid # of cards, shouldn't happen...";
               Text nl]) ∧
   (id ≠ 0 →
    transition_value
      (λ id, fst <$> eval_no_flush unique5 values cactus_findit
                                   cactus_to_ray id)
      offset block_size hash_table map 8 id =
    Some (default 0 (map !! 0)))) ∧
  (pocket h !!! 0%nat = 0 ∨ pocket h !!! 1%nat = 0 ∨
   b.1 !!! 0%nat = 0 ∨ b.1 !!! 1%nat = 0 ∨ b.1 !!! 2%nat = 0 →
   eval_flush_ranks flushes cactus_to_ray id =
     (-1, [Text nl; Text "eval_flush_ranks(): "; Num id;
           Text ": zero encountered."; Text nl]) ∧
   (id ≠ 0 →
    transition_value
      (λ id, Some (eval_flush_ranks flushes cactus_to_ray id).1)
      offset block_size hash_table map 8 id =
    Some (default (-1) (map !! (-1))))).
Proof.
  intros h b. split.
  - intros Hshort.
    assert (Heval : eval_no_flush unique5 values cactus_findit cactus_to_ray id
              = Some (0, [Text nl;
                  Text "eval_no_flush() encountered invalid # of cards, shouldn't happen...";
                  Text nl])).
    { unfold eval_no_flush. fold h. cbv zeta. fold b.
      destruct b as [b1 nb] eqn:Hb. cbn [fst snd] in Hshort.
      assert ((n_pocket h <? 4)%nat || (nb <? 3)%nat = true) as ->; [|done].
      apply orb_true_iff. rewrite !Nat.ltb_lt. done. }
    split; [done|]. intros Hnz. unfold transition_value, transition_branch.
    rewrite decide_True by done. rewrite Heval. done.
  - intros Hzero.
    assert (Heval : eval_flush_ranks flushes cactus_to_ray id
              = (-1, [Text nl; Text "eval_flush_ranks(): "; Num id;
                      Text ": zero encountered."; Text nl])).
    { unfold eval_flush_ranks. fold h. cbv zeta. fold b.
      destruct b as [b1 nb] eqn:Hb. cbn [fst snd] in Hzero.
      assert ((pocket h !!! 0%nat =? 0) || (pocket h !!! 1%nat =? 0) ||
              (b1 !!! 0%nat =? 0) || (b1 !!! 1%nat =? 0) ||
              (b1 !!! 2%nat =? 0) = true) as ->; [|done].
      rewrite !orb_true_iff, !Z.eqb_eq. tauto. }
    split; [done|]. intros Hnz. unfold transition_value, transition_branch.
    rewrite decide_True by done. rewrite Heval. done.
Qed.

Lemma evaluators_report_and_return_witness :
  eval_no_flush (λ _, 0) (λ _, 0) (λ _, 0) (λ _, 0) 129 =
    Some (0, [Text nl;
              Text "eval_no_flush() encountered invalid # of cards, shouldn't happen...";
              Text nl]) ∧
  eval_flush_ranks (λ _, 0) (λ _, 0) 129 =
    (-1, [Text nl; Text "eval_flush_ranks(): "; Num 129;
          Text ": zero encountered."; Text nl]).
Proof.
  pose proof (evaluators_report_and_return
                (λ _, 0) (λ _, 0) (λ _, 0) (λ _, 0) (λ _, 0) 0 53 ∅ ∅ 129)
    as [Hnf Hfr].
  split.
  - apply Hnf. left. vm_compute. lia.
  - apply Hfr. left. reflexivity.
Defined.


(** ** Identifiers stay inside the signed 64-bit range *)

Lemma zero_in_range : 0 ≤ 0 < 2 ^ 63.
Proof. split; [lia|reflexivity]. Qed.

Lemma automaton_step_range a id c :
  valid_id a id ∧ 0 ≤ id < 2 ^ 63 → count_cards id ≤ 8 → card_allowed id c →
  ∃ r, transition a id c = Some r ∧
       (r ≠ 0 → (valid_id a r ∧ 0 ≤ r < 2 ^ 63) ∧
                count_cards r = count_cards id + 1).
Proof.
  intros [Hv _] H8 Hc.
  destruct (transition_spec a id c Hv H8 Hc) as (r & Hr & Hgood).
  exists r. split; [done|]. intros Hr0.
  destruct (Hgood Hr0) as (? & ? & ? & _). split; [|done]. split; [done|lia].
Qed.

Lemma enumeration_range_ok (a : automaton) :
  ∃ l, generate_ids (transition a) = Some l ∧
       StronglySorted Z.lt l ∧
       (∀ id, id ∈ l ↔
          ∃ k q, (k ≤ 8)%nat ∧
                 generation_ids (transition a) k = Some q ∧ id ∈ q) ∧
       (∀ id, id ∈ l → (valid_id a id ∧ 0 ≤ id < 2 ^ 63) ∧
                       0 ≤ count_cards id ≤ 8) ∧
       (∀ id c r, id ∈ l → count_cards id ≤ 7 → card_allowed id c →
                  transition a id c = Some r → r ≠ 0 → r ∈ l).
Proof.
  apply (generate_ids_ok (transition a)
           (λ id, valid_id a id ∧ 0 ≤ id < 2 ^ 63)).
  - apply automaton_step_range.
  - split; [apply valid_id_zero|apply zero_in_range].
Qed.

(** ** Reading and writing the vector of hand ranks *)

Lemma vset_Some hr i v :
  0 ≤ i < Z.of_nat (length hr) → vset hr i v = Some (<[Z.to_nat i := v]> hr).
Proof. intros Hi. unfold vset. by rewrite decide_True. Qed.

Lemma vset_inv hr i v hr' :
  vset hr i v = Some hr' →
  0 ≤ i < Z.of_nat (length hr) ∧ hr' = <[Z.to_nat i := v]> hr.
Proof. unfold vset. case_decide; [|done]. intros [= <-]. done. Qed.

Lemma vset_length hr i v hr' : vset hr i v = Some hr' → length hr' = length hr.
Proof. intros [_ ->]%vset_inv. apply length_insert. Qed.

Lemma vget_vset_eq hr i v hr' : vset hr i v = Some hr' → vget hr' i = Some v.
Proof.
  intros [Hi ->]%vset_inv. unfold vget. rewrite decide_True by lia.
  apply list_lookup_insert_eq. lia.
Qed.

Lemma vget_vset_ne hr i v hr' j :
  vset hr i v = Some hr' → j ≠ i → vget hr' j = vget hr j.
Proof.
  intros [Hi ->]%vset_inv Hne. unfold vget. case_decide; [|done].
  apply list_lookup_insert_ne. lia.
Qed.

Lemma vget_is_Some hr i : 0 ≤ i < Z.of_nat (length hr) → is_Some (vget hr i).
Proof.
  intros Hi. unfold vget. rewrite decide_True by lia.
  apply lookup_lt_is_Some. lia.
Qed.

Lemma vget_replicate n i : 0 ≤ i < Z.of_nat n → vget (replicate n 0) i = Some 0.
Proof.
  intros Hi. unfold vget. rewrite decide_True by lia.
  apply lookup_replicate_2. lia.
Qed.

(** A loop of writes [hr[index x] = value x] at distinct indices. *)
Lemma foldM_vset {A : Type} (index value : A → Z) (l : list A) : ∀ hr,
  NoDup (index <$> l) →
  (∀ x, x ∈ l → 0 ≤ index x < Z.of_nat (length hr)) →
  ∃ hr', foldM (λ hr x, vset hr (index x) (value x)) hr l = Some hr' ∧
         length hr' = length hr ∧
         (∀ x, x ∈ l → vget hr' (index x) = Some (value x)) ∧
         (∀ j, (∀ x, x ∈ l → j ≠ index x) → vget hr' j = vget hr j).
Proof.
  induction l as [|x l IH]; intros hr Hnd Hin.
  - exists hr. split; [done|]. split; [done|]. split; [|done].
    intros x Hx. by apply elem_of_nil in Hx.
  - rewrite fmap_cons in Hnd. apply NoDup_cons in Hnd as [Hx Hnd].
    cbn [foldM]. rewrite vset_Some by (apply Hin; left).
    cbn [mbind option_bind].
    destruct (IH (<[Z.to_nat (index x) := value x]> hr) Hnd)
      as (hr' & Hf & Hlen & Hval & Hframe).
    { intros y Hy. rewrite length_insert. apply Hin. by right. }
    exists hr'. split; [done|]. rewrite length_insert in Hlen.
    split; [done|]. split.
    + intros y [->|Hy]%elem_of_cons; [|by apply Hval].
      rewrite Hframe.
      * apply (vget_vset_eq hr). apply vset_Some, Hin. left.
      * intros z Hz Heq. apply Hx. rewrite Heq. by apply list_elem_of_fmap_2.
    + intros j Hj. rewrite Hframe by (intros y Hy; apply Hj; by right).
      apply (vget_vset_ne hr (index x) (value x)).
      * apply vset_Some, Hin. left.
      * apply Hj. left.
Qed.

(** ** One block of the table *)

Section Block.

Context (add_card_to_id : Z → Z → option Z) (eval_id : Z → option Z).
Context (offset block_size dummy_card : Z) (hash_table map : gmap Z Z).

Let cell := cell_value add_card_to_id eval_id offset block_size hash_table map.

Lemma process_cards_spec id id_index (cards : list Z) : ∀ hr d,
  NoDup cards →
  (∀ c, c ∈ cards → 0 ≤ id_index + c < Z.of_nat (length hr)) →
  (∀ c, c ∈ cards → is_Some (cell id c)) →
  ∃ hr' d',
    foldM (process_card add_card_to_id eval_id offset block_size dummy_card
                        hash_table map id id_index (count_cards id))
          (hr, d) cards = Some (hr', d') ∧
    length hr' = length hr ∧
    (∀ c, c ∈ cards → vget hr' (id_index + c) = cell id c) ∧
    (∀ j, (∀ c, c ∈ cards → j ≠ id_index + c) → vget hr' j = vget hr j) ∧
    (dummy_card ∈ cards → Some d' = cell id dummy_card) ∧
    (dummy_card ∉ cards → d' = d).
Proof.
  induction cards as [|c cards IH]; intros hr d Hnd Hin Hcell.
  - exists hr, d. split; [done|]. split; [done|].
    split; [intros c Hc; by apply elem_of_nil in Hc|]. split; [done|].
    split; [intros Hc; by apply elem_of_nil in Hc|done].
  - apply NoDup_cons in Hnd as [Hc Hnd].
    destruct (Hcell c) as [v Hv]; [left|].
    pose proof Hv as Hv'. unfold cell, cell_value in Hv'.
    destruct (add_card_to_id id c) as [new_id|] eqn:Hstep; [|done].
    cbn [mbind option_bind] in Hv'.
    assert (Hset : vset hr (id_index + c) v
                   = Some (<[Z.to_nat (id_index + c) := v]> hr))
      by (apply vset_Some, Hin; left).
    set (hr1 := <[Z.to_nat (id_index + c) := v]> hr) in *.
    set (d1 := if decide (c = dummy_card) then v else d).
    assert (Hbody : process_card add_card_to_id eval_id offset block_size
                      dummy_card hash_table map id id_index (count_cards id)
                      (hr, d) c = Some (hr1, d1)).
    { unfold process_card. rewrite Hstep. cbn [mbind option_bind fst snd].
      rewrite Hv'. cbn [mbind option_bind]. rewrite Hset.
      cbn [mbind option_bind]. unfold d1. case_decide; [|done].
      by rewrite (vget_vset_eq _ _ _ _ Hset). }
    destruct (IH hr1 d1 Hnd) as (hr' & d' & Hf & Hlen & Hval & Hframe & Hd1 & Hd2).
    { intros c' Hc'. unfold hr1. rewrite length_insert. apply Hin. by right. }
    { intros c' Hc'. apply Hcell. by right. }
    exists hr', d'. cbn [foldM]. rewrite Hbody. cbn [mbind option_bind].
    split; [done|]. unfold hr1 in Hlen. rewrite length_insert in Hlen.
    split; [done|]. split; [|split; [|split]].
    + intros c' [->|Hc']%elem_of_cons; [|by apply Hval].
      rewrite Hframe, Hv; [by apply (vget_vset_eq hr (id_index + c))|].
      intros c' Hc' Heq. apply Hc. by replace c with c' by lia.
    + intros j Hj. rewrite Hframe by (intros c' Hc'; apply Hj; by right).
      apply (vget_vset_ne hr (id_index + c) v); [done|]. apply Hj. left.
    + intros [<-|Hdc]%elem_of_cons; [|by apply Hd1].
      rewrite Hd2 by done. unfold d1. by rewrite decide_True.
    + intros Hdc. apply not_elem_of_cons in Hdc as [Hne Hdc].
      rewrite Hd2 by done. unfold d1. by rewrite decide_False.
Qed.

Lemma process_id_spec hr (i : nat) id :
  53 ≤ block_size → 0 ≤ block_start offset block_size i →
  block_start offset block_size i + block_size ≤ Z.of_nat (length hr) →
  (∀ c, process_min_card (count_cards id) ≤ c ≤ 52 → is_Some (cell id c)) →
  ∃ hr',
    process_id add_card_to_id eval_id offset block_size dummy_card
               hash_table map hr i id = Some hr' ∧
    length hr' = length hr ∧
    (∀ c, process_min_card (count_cards id) ≤ c ≤ 52 →
          vget hr' (block_start offset block_size i + c) = cell id c) ∧
    (process_min_card (count_cards id) = 1 →
     vget hr' (block_start offset block_size i) = Some offset) ∧
    (∀ d k, process_min_card (count_cards id) ≤ dummy_card ≤ 52 →
            cell id dummy_card = Some d → d ≠ -1 → 53 ≤ k < block_size →
            vget hr' (block_start offset block_size i + k) = Some d) ∧
    (∀ j, ¬ (block_start offset block_size i ≤ j <
             block_start offset block_size i + block_size) →
          vget hr' j = vget hr j).
Proof.
  intros HB Hlo Hhi Hcell. unfold process_id. fold (block_start offset block_size i).
  set (id_index := block_start offset block_size i) in *.
  set (m := process_min_card (count_cards id)) in *.
  assert (Hm : m = 0 ∨ m = 1).
  { unfold m, process_min_card. destruct (_ <=? _); auto. }
  assert (Hset : vset hr id_index offset
                 = Some (<[Z.to_nat id_index := offset]> hr))
    by (apply vset_Some; lia).
  rewrite Hset. cbn [mbind option_bind].
  set (hr0 := <[Z.to_nat id_index := offset]> hr) in *.
  destruct (process_cards_spec id id_index (seqZ m (53 - m)) hr0 (-1))
    as (hr1 & d1 & Hf & Hlen1 & Hval1 & Hframe1 & Hd1 & Hd2).
  { apply NoDup_seqZ. }
  { intros c Hc%elem_of_seqZ. unfold hr0. rewrite length_insert. lia. }
  { intros c Hc%elem_of_seqZ. apply Hcell. lia. }
  rewrite Hf. cbn [mbind option_bind fst snd].
  unfold hr0 in Hlen1. rewrite length_insert in Hlen1.
  assert (Hbackup : m = 1 → vget hr1 id_index = Some offset).
  { intros Hm1. rewrite Hframe1; [by apply (vget_vset_eq hr id_index)|].
    intros c Hc%elem_of_seqZ. lia. }
  assert (Hframe0 : ∀ j, ¬ (id_index ≤ j < id_index + block_size) →
                         vget hr1 j = vget hr j).
  { intros j Hj. rewrite Hframe1.
    - apply (vget_vset_ne hr id_index offset); [done|lia].
    - intros c Hc%elem_of_seqZ. lia. }
  destruct (decide (d1 ≠ -1)) as [Hd|Hd].
  - destruct (foldM_vset (λ new_card, id_index + new_card) (λ _, d1)
                (seqZ 53 (block_size - 53)) hr1)
      as (hr2 & Hf2 & Hlen2 & Hval2 & Hframe2).
    { apply NoDup_fmap_2; [|apply NoDup_seqZ]. intros x y. lia. }
    { intros k Hk%elem_of_seqZ. lia. }
    exists hr2. split; [exact Hf2|]. split; [lia|].
    split; [|split; [|split]].
    + intros c Hc. rewrite Hframe2; [apply Hval1, elem_of_seqZ; lia|].
      intros k Hk%elem_of_seqZ. lia.
    + intros Hm1. rewrite Hframe2; [by apply Hbackup|].
      intros k Hk%elem_of_seqZ. lia.
    + intros d k Hdc Hcd Hdne Hk.
      rewrite (Hval2 k) by (apply elem_of_seqZ; lia).
      rewrite <- Hcd. apply Hd1, elem_of_seqZ. lia.
    + intros j Hj. rewrite Hframe2; [by apply Hframe0|].
      intros k Hk%elem_of_seqZ. lia.
  - apply dec_stable in Hd. exists hr1. split; [done|]. split; [done|].
    split; [|split; [|split]].
    + intros c Hc. apply Hval1, elem_of_seqZ. lia.
    + done.
    + intros d k Hdc Hcd Hdne Hk. exfalso.
      assert (Some d1 = Some d) as [= <-]; [|done].
      rewrite <- Hcd. apply Hd1, elem_of_seqZ. lia.
    + done.
Qed.

End Block.


(** ** The map from identifiers to positions *)

Lemma build_hash_table_not_in (ids : list Z) : ∀ first (m : gmap Z Z) id,
  id ∉ ids → build_hash_table first ids m !! id = m !! id.
Proof.
  induction ids as [|x ids IH]; intros first m id Hid; [done|].
  apply not_elem_of_cons in Hid as [Hne Hid]. cbn [build_hash_table].
  rewrite IH by done. destruct (m !! x); [done|].
  by rewrite lookup_insert_ne.
Qed.

Lemma build_hash_table_lookup (ids : list Z) : ∀ first (m : gmap Z Z) k id,
  NoDup ids → (∀ x, x ∈ ids → m !! x = None) → ids !! k = Some id →
  build_hash_table first ids m !! id = Some (Z.of_nat (first + k)).
Proof.
  induction ids as [|x ids IH]; intros first m k id Hnd Hm Hk; [done|].
  apply NoDup_cons in Hnd as [Hx Hnd]. cbn [build_hash_table].
  rewrite (Hm x) by left. destruct k as [|k]; cbn in Hk.
  - injection Hk as ->. rewrite build_hash_table_not_in by done.
    rewrite lookup_insert_eq. do 2 f_equal. lia.
  - rewrite (IH (S first) _ k id Hnd); [do 2 f_equal; lia| |done].
    intros y Hy. rewrite lookup_insert_ne; [apply Hm; by right|].
    intros ->. done.
Qed.

(** ** All blocks of an automaton *)

Lemma block_start_S offset block_size i :
  block_start offset block_size (S i) =
  block_start offset block_size i + block_size.
Proof. unfold block_start. lia. Qed.

Lemma block_start_mono offset block_size i j :
  0 ≤ block_size → (i ≤ j)%nat →
  block_start offset block_size i ≤ block_start offset block_size j.
Proof. intros. unfold block_start. nia. Qed.

Section Blocks.

Context (add_card_to_id : Z → Z → option Z) (eval_id : Z → option Z).
Context (offset block_size dummy_card : Z) (hash_table map : gmap Z Z).

Let cell := cell_value add_card_to_id eval_id offset block_size hash_table map.
Let start := block_start offset block_size.

Lemma process_from_spec (ids : list Z) : ∀ (i : nat) hr,
  53 ≤ block_size → 0 ≤ offset →
  start (i + length ids) ≤ Z.of_nat (length hr) →
  (∀ id c, id ∈ ids → process_min_card (count_cards id) ≤ c ≤ 52 →
           is_Some (cell id c)) →
  ∃ hr',
    process_from add_card_to_id eval_id offset block_size dummy_card
                 hash_table map i ids hr = Some hr' ∧
    length hr' = length hr ∧
    (∀ k id c, ids !! k = Some id →
               process_min_card (count_cards id) ≤ c ≤ 52 →
               vget hr' (start (i + k) + c) = cell id c) ∧
    (∀ k id, ids !! k = Some id → process_min_card (count_cards id) = 1 →
             vget hr' (start (i + k)) = Some offset) ∧
    (∀ k id d j, ids !! k = Some id →
                 process_min_card (count_cards id) ≤ dummy_card ≤ 52 →
                 cell id dummy_card = Some d → d ≠ -1 → 53 ≤ j < block_size →
                 vget hr' (start (i + k) + j) = Some d) ∧
    (∀ j, ¬ (start i ≤ j < start (i + length ids)) → vget hr' j = vget hr j).
Proof.
  induction ids as [|id ids IH]; intros i hr HB Hoff Hlen Hcell.
  - exists hr. split; [done|]. split; [done|]. split_and!; try done.
  - cbn [length] in Hlen.
    assert (Hstart_i : 0 ≤ start i) by (unfold start, block_start; nia).
    assert (Hmono : start (S i) ≤ start (i + S (length ids)))
      by (apply block_start_mono; lia).
    pose proof (block_start_S offset block_size i) as HS. fold start in HS.
    destruct (process_id_spec add_card_to_id eval_id offset block_size
                dummy_card hash_table map hr i id HB Hstart_i)
      as (hr1 & Hp & Hlen1 & Hval1 & Hback1 & Hdum1 & Hframe1).
    { fold start. lia. }
    { intros c Hc. apply Hcell; [left|done]. }
    fold start in Hval1, Hback1, Hdum1, Hframe1. fold cell in Hval1, Hdum1.
    destruct (IH (S i) hr1 HB Hoff) as (hr' & Hf & Hlen' & Hval & Hback & Hdum & Hframe).
    { rewrite Hlen1. replace (S i + length ids)%nat
        with (i + S (length ids))%nat by lia. done. }
    { intros id' c Hid' Hc. apply Hcell; [by right|done]. }
    replace (S i + length ids)%nat with (i + S (length ids))%nat
      in Hframe by lia.
    exists hr'. cbn [process_from]. rewrite Hp. cbn [mbind option_bind].
    split; [done|]. split; [lia|]. split_and!.
    + intros [|k] id' c Hk Hc; cbn in Hk.
      * injection Hk as <-. rewrite Nat.add_0_r.
        rewrite Hframe by lia. by apply Hval1.
      * replace (i + S k)%nat with (S i + k)%nat by lia. by apply (Hval k id').
    + intros [|k] id' Hk Hm; cbn in Hk.
      * injection Hk as <-. rewrite Nat.add_0_r.
        rewrite Hframe by lia. by apply Hback1.
      * replace (i + S k)%nat with (S i + k)%nat by lia. by apply (Hback k id').
    + intros [|k] id' d j Hk Hdc Hcd Hd Hj; cbn in Hk.
      * injection Hk as <-. rewrite Nat.add_0_r.
        rewrite Hframe by lia. by apply Hdum1.
      * replace (i + S k)%nat with (S i + k)%nat by lia. by apply (Hdum k id').
    + intros j Hj. cbn [length] in Hj. rewrite Hframe by lia. apply Hframe1. lia.
Qed.

End Blocks.

(** ** The region of an automaton after [process_ids] *)

Lemma process_ids_spec (ids : list Z) (offset offset_value : Z) (hr : list Z)
    (add_card_to_id : Z → Z → option Z) (eval_id : Z → option Z)
    (n_dummy dummy_card : Z) (map : gmap Z Z) :
  let block_size := 53 + n_dummy in
  let cell := cell_value add_card_to_id eval_id offset block_size
                         (build_hash_table 0 ids ∅) map in
  let start := block_start offset block_size in
  0 ≤ offset → 0 ≤ n_dummy →
  start (length ids) ≤ Z.of_nat (length hr) →
  (∀ id c, id ∈ ids → process_min_card (count_cards id) ≤ c ≤ 52 →
           is_Some (cell id c)) →
  ∃ hr',
    process_ids ids offset offset_value hr add_card_to_id eval_id
                n_dummy dummy_card map = Some hr' ∧
    length hr' = length hr ∧
    vget hr' offset = Some offset_value ∧
    (∀ k, 1 ≤ k < block_size → vget hr' (offset + k) = Some offset) ∧
    (∀ k id c, ids !! k = Some id →
               process_min_card (count_cards id) ≤ c ≤ 52 →
               vget hr' (start k + c) = cell id c) ∧
    (∀ k id, ids !! k = Some id → process_min_card (count_cards id) = 1 →
             vget hr' (start k) = Some offset) ∧
    (∀ k id d j, ids !! k = Some id →
                 process_min_card (count_cards id) ≤ dummy_card ≤ 52 →
                 cell id dummy_card = Some d → d ≠ -1 → 53 ≤ j < block_size →
                 vget hr' (start k + j) = Some d) ∧
    (∀ j, ¬ (offset ≤ j < start (length ids)) → vget hr' j = vget hr j).
Proof.
  intros block_size cell start Hoff Hnd Hlen Hcell.
  assert (HB : 53 ≤ block_size) by (unfold block_size; lia).
  assert (Hstart0 : start 0%nat = offset + block_size)
    by (unfold start, block_start; lia).
  assert (Hmono : start 0%nat ≤ start (length ids))
    by (apply block_start_mono; lia).
  unfold process_ids. fold block_size.
  rewrite (vset_Some hr offset offset_value) by lia.
  cbn [mbind option_bind].
  set (hr0 := <[Z.to_nat offset := offset_value]> hr).
  assert (Hlen0 : length hr0 = length hr) by apply length_insert.
  destruct (foldM_vset (λ i, offset + i) (λ _, offset) (seqZ 1 52) hr0)
    as (hr1 & Hf1 & Hlen1 & Hval1 & Hframe1).
  { apply NoDup_fmap_2; [|apply NoDup_seqZ]. intros x y. lia. }
  { intros k Hk%elem_of_seqZ. lia. }
  rewrite Hf1. cbn [mbind option_bind].
  destruct (foldM_vset (λ i, offset + i) (λ _, offset)
              (seqZ 53 (block_size - 53)) hr1)
    as (hr2 & Hf2 & Hlen2 & Hval2 & Hframe2).
  { apply NoDup_fmap_2; [|apply NoDup_seqZ]. intros x y. lia. }
  { intros k Hk%elem_of_seqZ. lia. }
  rewrite Hf2. cbn [mbind option_bind].
  destruct (process_from_spec add_card_to_id eval_id offset block_size
              dummy_card (build_hash_table 0 ids ∅) map ids 0%nat hr2 HB Hoff)
    as (hr' & Hp & Hlen' & Hval & Hback & Hdum & Hframe).
  { cbn [Nat.add]. fold start. lia. }
  { exact Hcell. }
  cbn [Nat.add] in Hval, Hback, Hdum, Hframe.
  fold start in Hval, Hback, Hdum, Hframe. fold cell in Hval, Hdum.
  exists hr'. split; [exact Hp|]. split; [lia|]. split_and!.
  - rewrite Hframe by lia.
    rewrite Hframe2 by (intros k Hk%elem_of_seqZ; lia).
    rewrite Hframe1 by (intros k Hk%elem_of_seqZ; lia).
    apply (vget_vset_eq hr). apply vset_Some. lia.
  - intros k Hk. rewrite Hframe by lia.
    destruct (decide (k < 53)) as [Hlt|Hge].
    + rewrite Hframe2 by (intros k' Hk'%elem_of_seqZ; lia).
      apply (Hval1 k), elem_of_seqZ. lia.
    + apply (Hval2 k), elem_of_seqZ. lia.
  - exact Hval.
  - exact Hback.
  - exact Hdum.
  - intros j Hj. rewrite Hframe by lia.
    rewrite Hframe2 by (intros k Hk%elem_of_seqZ; lia).
    rewrite Hframe1 by (intros k Hk%elem_of_seqZ; lia).
    apply (vget_vset_ne hr offset offset_value); [apply vset_Some|]; lia.
Qed.


(** ** The terminal evaluators are defined on nine-card identifiers *)

Lemma skip_board_five b0 b1 b2 b3 b4 :
  skip_board [b0; b1; b2; b3; b4] =
  (pad 5 (filter (λ v, v ≠ SKIP_BOARD) [b0; b1; b2; b3; b4]),
   length (filter (λ v, v ≠ SKIP_BOARD) [b0; b1; b2; b3; b4])).
Proof.
  unfold skip_board, skip_board_step.
  cbn [seq foldl lookup_total list_lookup_total fst snd].
  rewrite !filter_cons, filter_nil.
  destruct (decide (b0 ≠ SKIP_BOARD)); destruct (decide (b1 ≠ SKIP_BOARD));
    destruct (decide (b2 ≠ SKIP_BOARD)); destruct (decide (b3 ≠ SKIP_BOARD));
    destruct (decide (b4 ≠ SKIP_BOARD)); reflexivity.
Qed.

Lemma skip_board_spec (b : list Z) :
  length b = 5%nat →
  skip_board b = (pad 5 (filter (λ v, v ≠ SKIP_BOARD) b),
                  length (filter (λ v, v ≠ SKIP_BOARD) b)).
Proof.
  intros Hb. destruct b as [|b0 [|b1 [|b2 [|b3 [|b4 [|]]]]]]; try done.
  apply skip_board_five.
Qed.

Lemma card_to_cactus_Some rank suit :
  0 ≤ rank < 14 → 0 ≤ suit → is_Some (card_to_cactus rank (Z.rem suit 4 + 1)).
Proof.
  intros Hr Hs. unfold card_to_cactus. rewrite decide_True.
  - by destruct (_ || _).
  - pose proof (Z.rem_bound_pos suit 4 Hs). lia.
Qed.

Lemma resuit_Some (n : nat) : ∀ (k : nat) arr suit,
  0 ≤ suit →
  (∀ i, (k ≤ i < k + n)%nat → 0 ≤ arr !!! i < 14) →
  is_Some (foldM resuit_step (arr, suit) (seq k n)).
Proof.
  induction n as [|n IH]; intros k arr suit Hs Harr; [done|].
  cbn [seq foldM].
  destruct (card_to_cactus_Some (arr !!! k) suit) as [c Hc];
    [apply Harr; lia|done|].
  assert (resuit_step (arr, suit) k = Some (<[k := c]> arr, suit + 1)) as ->
    by (unfold resuit_step; cbn [fst snd]; by rewrite Hc).
  cbn [mbind option_bind]. apply IH; [lia|].
  intros i Hi. rewrite list_lookup_total_insert_ne by lia. apply Harr. lia.
Qed.

Lemma resuit_suit (l : list nat) : ∀ arr suit arr' suit',
  foldM resuit_step (arr, suit) l = Some (arr', suit') →
  suit' = suit + Z.of_nat (length l).
Proof.
  induction l as [|i l IH]; intros arr suit arr' suit' Hf; cbn in Hf.
  - injection Hf as _ <-. cbn. lia.
  - destruct (resuit_step (arr, suit) i) as [[arr1 suit1]|] eqn:Hstep;
      [|done].
    cbn [mbind option_bind] in Hf. apply IH in Hf.
    unfold resuit_step in Hstep. cbn [fst snd] in Hstep.
    destruct (card_to_cactus _ _); [|done]. injection Hstep as _ <-.
    cbn [length]. lia.
Qed.

Lemma lookup_total_pad_lt n (l : list Z) i :
  (i < length l)%nat → pad n l !!! i ∈ l.
Proof.
  intros Hi. unfold pad. rewrite lookup_total_app_l by done.
  apply list_elem_of_lookup_total_2. done.
Qed.

Lemma pad_full n (l : list Z) : length l = n → pad n l = l.
Proof.
  intros <-. unfold pad. rewrite Nat.sub_diag. cbn. apply app_nil_r.
Qed.

Lemma eval_no_flush_defined unique5 values cactus_findit cactus_to_ray id :
  valid_id NF id → count_cards id = 9 →
  is_Some (eval_no_flush unique5 values cactus_findit cactus_to_ray id).
Proof.
  intros [Hvp Hvb] H9. unfold eval_no_flush.
  destruct (cards_range id) as (_ & _ & Hlp & Hlb).
  rewrite count_cards_cards in H9.
  assert (Hlp4 : length (pocket_cards id) = 4%nat) by lia.
  assert (Hlb5 : length (board_cards id) = 5%nat) by lia.
  rewrite unpack64_cards. cbn [n_pocket n_board pocket board].
  rewrite (pad_full 5 (board_cards id)) by done.
  rewrite skip_board_spec by done.
  set (bs := filter (λ v, v ≠ SKIP_BOARD) (board_cards id)).
  cbv zeta. destruct (_ || _); [done|].
  assert (Hp : is_Some (foldM resuit_step (pad 4 (pocket_cards id), 0)
                              (seq 0 (length (pocket_cards id))))).
  { apply resuit_Some; [lia|]. intros i Hi.
    pose proof (lookup_total_pad_lt 4 (pocket_cards id) i ltac:(lia)) as Hin.
    rewrite Forall_forall in Hvp. specialize (Hvp _ Hin).
    unfold valid_pocket_value in Hvp. lia. }
  destruct Hp as [[pk suit] Hp]. rewrite Hp. cbn [mbind option_bind].
  pose proof (resuit_suit _ _ _ _ _ Hp) as Hsuit.
  assert (Hb : is_Some (foldM resuit_step (pad 5 bs, suit)
                              (seq 0 (length bs)))).
  { apply resuit_Some; [lia|]. intros i Hi.
    pose proof (lookup_total_pad_lt 5 bs i ltac:(lia)) as Hin.
    apply list_elem_of_filter in Hin as [Hns Hin].
    rewrite Forall_forall in Hvb. destruct (Hvb _ Hin) as [H|H]; [|done].
    unfold valid_pocket_value in H. lia. }
  destruct Hb as [[bd suit'] Hb]. rewrite Hb. done.
Qed.

(** ** Every cell of the three automata is defined *)

Lemma transition_value_Some eval_id offset block_size hash_table map
    num_cards new_id :
  (new_id ≠ 0 → num_cards + 1 = 9 → is_Some (eval_id new_id)) →
  is_Some (transition_value eval_id offset block_size hash_table map
                            num_cards new_id).
Proof.
  intros He. unfold transition_value, transition_branch.
  repeat case_decide; try done.
  destruct He as [v ->]; [tauto..|]. done.
Qed.

Lemma cell_value_Some a eval_id offset block_size hash_table map id c :
  (∀ new_id, valid_id a new_id → count_cards new_id = 9 →
             is_Some (eval_id new_id)) →
  valid_id a id ∧ 0 ≤ id < 2 ^ 63 → count_cards id ≤ 8 → card_allowed id c →
  is_Some (cell_value (transition a) eval_id offset block_size hash_table map
                      id c).
Proof.
  intros He Hv H8 Hc. unfold cell_value.
  destruct (automaton_step_range a id c Hv H8 Hc) as (r & -> & Hgood).
  cbn [mbind option_bind]. apply transition_value_Some.
  intros Hr H9. destruct (Hgood Hr) as [[Hvr _] Hcnt]. apply He; [done|lia].
Qed.

Lemma process_min_card_allowed id c :
  process_min_card (count_cards id) ≤ c ≤ 52 ↔ card_allowed id c.
Proof.
  unfold process_min_card, card_allowed.
  destruct (count_cards id <=? 1) eqn:H;
    [apply Z.leb_le in H|apply Z.leb_gt in H]; lia.
Qed.

Lemma eval_flush_suits_defined id : valid_id FS id → is_Some (eval_flush_suits id).
Proof.
  intros Hv. destruct (suit_histograms_spec id Hv) as (nsp & nsb & Hh & _).
  unfold eval_flush_suits, eval_flush_suits_scan. rewrite Hh. done.
Qed.


(** ** The assembled table *)

Lemma block_arith a n B j :
  0 ≤ a → a + 1 ≤ n → 0 ≤ B → 0 ≤ j < B → 0 ≤ a * B ∧ a * B + j < n * B.
Proof. intros. nia. Qed.

Lemma region_ok_frame HR HR' ids offset offset_value add_card_to_id eval_id
    n_dummy dummy_card map :
  0 ≤ n_dummy →
  region_ok HR ids offset offset_value add_card_to_id eval_id
            n_dummy dummy_card map →
  (∀ j, offset ≤ j < block_start offset (53 + n_dummy) (length ids) →
        vget HR' j = vget HR j) →
  region_ok HR' ids offset offset_value add_card_to_id eval_id
            n_dummy dummy_card map.
Proof.
  intros Hnd (H0 & Hfan & Hcell & Hback & Hdum) Hsame.
  assert (Hin : ∀ k (id : Z) j, ids !! k = Some id → 0 ≤ j < 53 + n_dummy →
    offset ≤ block_start offset (53 + n_dummy) k + j <
    block_start offset (53 + n_dummy) (length ids)).
  { intros k id j Hk Hj. apply lookup_lt_Some in Hk.
    pose proof (block_arith (Z.of_nat k) (Z.of_nat (length ids))
                  (53 + n_dummy) j).
    unfold block_start. lia. }
  assert (Hfirst : offset + (53 + n_dummy) ≤
                   block_start offset (53 + n_dummy) (length ids)).
  { etrans; [|apply (block_start_mono _ _ 0%nat); lia].
    unfold block_start. lia. }
  unfold region_ok. cbv zeta. split_and!.
  - rewrite Hsame; [done|]. lia.
  - intros k Hk. rewrite Hsame; [by apply Hfan|]. lia.
  - intros k id c Hk Hc. rewrite Hsame; [by apply Hcell|].
    apply (Hin k id); [done|].
    unfold process_min_card in Hc. destruct (_ <=? _); lia.
  - intros k id Hk Hm. rewrite Hsame; [by apply (Hback k id)|].
    pose proof (Hin k id 0 Hk). lia.
  - intros k id d j Hk Hdc Hcd Hd Hj.
    rewrite Hsame; [by apply (Hdum k id)|]. apply (Hin k id); [done|lia].
Qed.

Lemma process_ids_region (a : automaton) ids offset offset_value hr eval_id
    n_dummy dummy_card map :
  generate_ids (transition a) = Some ids →
  (∀ new_id, valid_id a new_id → count_cards new_id = 9 →
             is_Some (eval_id new_id)) →
  0 ≤ offset → 0 ≤ n_dummy →
  block_start offset (53 + n_dummy) (length ids) ≤ Z.of_nat (length hr) →
  ∃ hr',
    process_ids ids offset offset_value hr (transition a) eval_id
                n_dummy dummy_card map = Some hr' ∧
    length hr' = length hr ∧
    region_ok hr' ids offset offset_value (transition a) eval_id
              n_dummy dummy_card map ∧
    (∀ j, ¬ (offset ≤ j < block_start offset (53 + n_dummy) (length ids)) →
          vget hr' j = vget hr j).
Proof.
  intros Hids He Hoff Hnd Hlen.
  destruct (enumeration_range_ok a) as (l & Hl & _ & _ & Hinv & _).
  rewrite Hids in Hl. injection Hl as <-. clear Hids.
  destruct (process_ids_spec ids offset offset_value hr (transition a)
              eval_id n_dummy dummy_card map Hoff Hnd Hlen)
    as (hr' & Hp & Hlen' & H0 & Hfan & Hcell & Hback & Hdum & Hframe).
  { intros id c Hid Hc. destruct (Hinv id Hid) as [Hv [_ H8]].
    apply (cell_value_Some a); [done|done|done|].
    by apply process_min_card_allowed. }
  exists hr'. split; [done|]. split; [done|]. split; [|done].
  unfold region_ok. cbv zeta. split_and!; done.
Qed.


(** [generate_handranks] with its three enumerations named by the automaton
    they run. *)
Lemma generate_handranks_eq
    (flushes unique5 values cactus_findit cactus_to_ray : Z → Z) :
  (id_fs ← generate_ids (transition FS);
   id_fr4 ← generate_ids (transition (FR 4));
   id_nf ← generate_ids (transition NF);
   let offset_fr4 := 53 + 53 + Z.of_nat (length id_fs) * 53 in
   let offset_nf :=
     offset_fr4 + (53 + 3) + Z.of_nat (length id_fr4) * (53 + 3) in
   let max_rank := offset_nf + 53 + Z.of_nat (length id_nf) * 53 in
   hr ← vset (replicate (Z.to_nat max_rank) 0) 0 offset_nf;
   hr ← vset hr 1 offset_fr4;
   hr ← process_ids id_fs 53 offset_nf hr (transition FS) eval_flush_suits
          0 0 {[ -1 := 0 ]};
   hr ← process_ids id_fr4 offset_fr4 0 hr (transition (FR 4))
          (λ id, Some (eval_flush_ranks flushes cactus_to_ray id).1)
          3 1 {[ -1 := offset_fr4 ]};
   hr ← process_ids id_nf offset_nf 0 hr (transition NF)
          (λ id, fst <$> eval_no_flush unique5 values cactus_findit
                                       cactus_to_ray id)
          0 0 {[ -1 := offset_nf ]};
   Some (max_rank, hr)) =
  generate_handranks flushes unique5 values cactus_findit cactus_to_ray.
Proof.
  unfold generate_handranks.
  rewrite transition_FS, transition_FR4, transition_NF.
  reflexivity.
Qed.

(** [generate_handranks] once the three identifier lists are known. *)
Lemma generate_handranks_unfold
    (flushes unique5 values cactus_findit cactus_to_ray : Z → Z)
    (id_fs id_fr4 id_nf : list Z) :
  generate_ids (transition FS) = Some id_fs →
  generate_ids (transition (FR 4)) = Some id_fr4 →
  generate_ids (transition NF) = Some id_nf →
  generate_handranks flushes unique5 values cactus_findit cactus_to_ray =
  let offset_fr4 := 53 + 53 + Z.of_nat (length id_fs) * 53 in
  let offset_nf :=
    offset_fr4 + (53 + 3) + Z.of_nat (length id_fr4) * (53 + 3) in
  let max_rank := offset_nf + 53 + Z.of_nat (length id_nf) * 53 in
  hr ← vset (replicate (Z.to_nat max_rank) 0) 0 offset_nf;
  hr ← vset hr 1 offset_fr4;
  hr ← process_ids id_fs 53 offset_nf hr (transition FS) eval_flush_suits
         0 0 {[ -1 := 0 ]};
  hr ← process_ids id_fr4 offset_fr4 0 hr (transition (FR 4))
         (λ id, Some (eval_flush_ranks flushes cactus_to_ray id).1)
         3 1 {[ -1 := offset_fr4 ]};
  hr ← process_ids id_nf offset_nf 0 hr (transition NF)
         (λ id, fst <$> eval_no_flush unique5 values cactus_findit
                                      cactus_to_ray id)
         0 0 {[ -1 := offset_nf ]};
  Some (max_rank, hr).
Proof.
  intros Hfs Hfr Hnf. rewrite <- generate_handranks_eq.
  rewrite Hfs, Hfr, Hnf. reflexivity.
Qed.


(** The table returned by [generate_handranks]: the header and the three
    regions, each as [process_ids] left it. *)
Lemma generate_handranks_regions
    (flushes unique5 values cactus_findit cactus_to_ray : Z → Z) :
  ∃ id_fs id_fr4 id_nf HR,
    generate_ids (transition FS) = Some id_fs ∧
    generate_ids (transition (FR 4)) = Some id_fr4 ∧
    generate_ids (transition NF) = Some id_nf ∧
    let offset_fr4 := 53 + 53 + Z.of_nat (length id_fs) * 53 in
    let offset_nf :=
      offset_fr4 + (53 + 3) + Z.of_nat (length id_fr4) * (53 + 3) in
    let max_rank := offset_nf + 53 + Z.of_nat (length id_nf) * 53 in
    generate_handranks flushes unique5 values cactus_findit cactus_to_ray
      = Some (max_rank, HR) ∧
    Z.of_nat (length HR) = max_rank ∧
    vget HR 0 = Some offset_nf ∧ vget HR 1 = Some offset_fr4 ∧
    (∀ j, 2 ≤ j < 53 → vget HR j = Some 0) ∧
    region_ok HR id_fs 53 offset_nf (transition FS) eval_flush_suits
              0 0 {[ -1 := 0 ]} ∧
    region_ok HR id_fr4 offset_fr4 0 (transition (FR 4))
              (λ id, Some (eval_flush_ranks flushes cactus_to_ray id).1)
              3 1 {[ -1 := offset_fr4 ]} ∧
    region_ok HR id_nf offset_nf 0 (transition NF)
              (λ id, fst <$> eval_no_flush unique5 values cactus_findit
                                           cactus_to_ray id)
              0 0 {[ -1 := offset_nf ]}.
Proof.
  destruct (enumeration_range_ok FS) as (id_fs & Hfs & _).
  destruct (enumeration_range_ok (FR 4)) as (id_fr4 & Hfr & _).
  destruct (enumeration_range_ok NF) as (id_nf & Hnf & _).
  pose proof (λ o ov hr e nd dc m,
                process_ids_region FS id_fs o ov hr e nd dc m Hfs) as RFS.
  pose proof (λ o ov hr e nd dc m,
                process_ids_region (FR 4) id_fr4 o ov hr e nd dc m Hfr) as RFR.
  pose proof (λ o ov hr e nd dc m,
                process_ids_region NF id_nf o ov hr e nd dc m Hnf) as RNF.
  pose proof (generate_handranks_unfold flushes unique5 values cactus_findit
                cactus_to_ray id_fs id_fr4 id_nf Hfs Hfr Hnf) as Hunf.
  exists id_fs, id_fr4, id_nf. cbv zeta in Hunf |- *.
  revert Hfs Hfr Hnf Hunf.
  set (offset_fr4 := 53 + 53 + Z.of_nat (length id_fs) * 53).
  set (offset_nf := offset_fr4 + (53 + 3) + Z.of_nat (length id_fr4) * (53 + 3)).
  set (max_rank := offset_nf + 53 + Z.of_nat (length id_nf) * 53).
  assert (Hfr4_lo : 106 ≤ offset_fr4) by (unfold offset_fr4; lia).
  assert (Hnf_lo : offset_fr4 + 56 ≤ offset_nf) by (unfold offset_nf; lia).
  assert (Hmax_lo : offset_nf + 53 ≤ max_rank) by (unfold max_rank; lia).
  set (hr0 := replicate (Z.to_nat max_rank) 0).
  assert (Hlen0 : Z.of_nat (length hr0) = max_rank)
    by (unfold hr0; rewrite length_replicate; lia).
  set (hr1 := <[Z.to_nat 0 := offset_nf]> hr0).
  set (hr2 := <[Z.to_nat 1 := offset_fr4]> hr1).
  assert (Hlen1 : length hr1 = length hr0) by apply length_insert.
  assert (Hlen2 : length hr2 = length hr0)
    by (unfold hr2; by rewrite length_insert).
  assert (Hset1 : vset hr0 0 offset_nf = Some hr1) by (apply vset_Some; lia).
  assert (Hset2 : vset hr1 1 offset_fr4 = Some hr2) by (apply vset_Some; lia).
  destruct (RFS 53 offset_nf hr2 eval_flush_suits 0 0 {[ -1 := 0 ]})
    as (hr3 & Hp3 & Hlen3 & Hreg3 & Hframe3).
  { intros new_id Hv _. by apply eval_flush_suits_defined. }
  { lia. } { lia. } { unfold block_start. lia. }
  destruct (RFR offset_fr4 0 hr3
              (λ id, Some (eval_flush_ranks flushes cactus_to_ray id).1)
              3 1 {[ -1 := offset_fr4 ]})
    as (hr4 & Hp4 & Hlen4 & Hreg4 & Hframe4).
  { intros new_id _ _. done. }
  { lia. } { lia. } { unfold block_start. lia. }
  destruct (RNF offset_nf 0 hr4
              (λ id, fst <$> eval_no_flush unique5 values cactus_findit
                                           cactus_to_ray id)
              0 0 {[ -1 := offset_nf ]})
    as (hr5 & Hp5 & Hlen5 & Hreg5 & Hframe5).
  { intros new_id Hv H9.
    destruct (eval_no_flush_defined unique5 values cactus_findit cactus_to_ray
                new_id Hv H9) as [v ->]. done. }
  { lia. } { lia. } { unfold block_start. lia. }
  clear RFS RFR RNF.
  assert (Hb3 : block_start 53 (53 + 0) (length id_fs) = offset_fr4)
    by (unfold block_start, offset_fr4; lia).
  assert (Hb4 : block_start offset_fr4 (53 + 3) (length id_fr4) = offset_nf)
    by (unfold block_start, offset_nf; lia).
  assert (Hb5 : block_start offset_nf (53 + 0) (length id_nf) = max_rank)
    by (unfold block_start, max_rank; lia).
  rewrite Hb3 in Hframe3. rewrite Hb4 in Hframe4. rewrite Hb5 in Hframe5.
  intros Hfs Hfr Hnf Hunf. exists hr5.
  split; [exact Hfs|]. split; [exact Hfr|]. split; [exact Hnf|].
  clear Hfs Hfr Hnf. split.
  { rewrite Hunf. clear Hunf. rewrite Hset1. cbn [mbind option_bind].
    rewrite Hset2. cbn [mbind option_bind]. rewrite Hp3.
    cbn [mbind option_bind]. rewrite Hp4. cbn [mbind option_bind].
    rewrite Hp5. reflexivity. }
  clear Hunf Hp3 Hp4 Hp5.
  split; [lia|]. split; [|split; [|split; [|split; [|split]]]].
  - rewrite Hframe5, Hframe4, Hframe3 by lia.
    rewrite (vget_vset_ne hr1 1 offset_fr4 hr2 0 Hset2) by lia.
    by apply (vget_vset_eq hr0).
  - rewrite Hframe5, Hframe4, Hframe3 by lia.
    by apply (vget_vset_eq hr1).
  - intros j Hj. rewrite Hframe5, Hframe4, Hframe3 by lia.
    rewrite (vget_vset_ne hr1 1 offset_fr4 hr2 j Hset2) by lia.
    rewrite (vget_vset_ne hr0 0 offset_nf hr1 j Hset1) by lia.
    apply vget_replicate. lia.
  - apply (region_ok_frame hr3); [lia|done|]. rewrite Hb3.
    intros j Hj. rewrite Hframe5, Hframe4 by lia. done.
  - apply (region_ok_frame hr4); [lia|done|]. rewrite Hb4.
    intros j Hj. rewrite Hframe5 by lia. done.
  - done.
Qed.


(** * Further properties of the generator *)

(** ** Identifier packing *)

(** X1. Two pairs of arrays (4 pocket and 5 board values of 7 bits) are
    packed to the same identifier exactly when their pockets hold the same
    values up to order and their boards hold the same values up to order:
    [pack64] does not depend on the order inside an array and loses
    nothing else. *)
Theorem pack64_eq_iff_same_cards (p p' b b' : list Z) :
  length p = 4%nat → length p' = 4%nat →
  length b = 5%nat → length b' = 5%nat →
  Forall (λ v, 0 ≤ v < 128) p → Forall (λ v, 0 ≤ v < 128) p' →
  Forall (λ v, 0 ≤ v < 128) b → Forall (λ v, 0 ≤ v < 128) b' →
  pack64 p b = pack64 p' b' ↔ p ≡ₚ p' ∧ b ≡ₚ b'.
Proof.
  intros Hlp Hlp' Hlb Hlb' Hp Hp' Hb Hb'. split.
  - intros Heq.
    destruct (unpack64_pack64_gen p b Hlp Hlb Hp Hb) as (Hs & _ & _).
    destruct (unpack64_pack64_gen p' b' Hlp' Hlb' Hp' Hb') as (Hs' & _ & _).
    rewrite Heq, Hs' in Hs.
    apply app_inj_1 in Hs as [Hsb Hsp];
      [|by rewrite !sort_desc_length, Hlb, Hlb'].
    split.
    + rewrite <- (sort_desc_perm p), <- (sort_desc_perm p'). by rewrite Hsp.
    + rewrite <- (sort_desc_perm b), <- (sort_desc_perm b'). by rewrite Hsb.
  - intros [Hpp Hbb]. by apply pack64_perm.
Qed.

Lemma pack64_eq_iff_same_cards_witness :
  pack64 [3; 0; 7; 0] [53; 0; 2; 53; 9] = pack64 [0; 7; 0; 3] [9; 53; 53; 2; 0]
  ↔ [3; 0; 7; 0] ≡ₚ [0; 7; 0; 3] ∧ [53; 0; 2; 53; 9] ≡ₚ [9; 53; 53; 2; 0].
Proof.
  apply (pack64_eq_iff_same_cards [3; 0; 7; 0] [0; 7; 0; 3]
           [53; 0; 2; 53; 9] [9; 53; 53; 2; 0]);
    try reflexivity;
    repeat (apply Forall_cons; split; [lia|]); apply Forall_nil_2.
Defined.

(** X2. Packing what [unpack64] returns for a packed identifier gives the
    identifier back, and a packed identifier of 7-bit values lies in
    [0, 2^63): it fits a signed 64-bit integer. *)
Theorem pack64_unpack64_fixpoint (p b : list Z) :
  length p = 4%nat → length b = 5%nat →
  Forall (λ v, 0 ≤ v < 128) p → Forall (λ v, 0 ≤ v < 128) b →
  let id := pack64 p b in
  pack64 (pocket (unpack64 id)) (board (unpack64 id)) = id ∧
  0 ≤ id < 2 ^ 63.
Proof.
  intros Hlp Hlb Hp Hb id.
  destruct (unpack64_pack64_gen p b Hlp Hlb Hp Hb) as (_ & Hu & Hr).
  split; [|exact Hr]. subst id. rewrite Hu. cbn [pocket board].
  apply pack64_perm; apply sort_desc_perm.
Qed.

Lemma pack64_unpack64_fixpoint_witness :
  let id := pack64 [3; 0; 7; 0] [53; 0; 2; 53; 9] in
  pack64 (pocket (unpack64 id)) (board (unpack64 id)) = id ∧
  0 ≤ id < 2 ^ 63.
Proof.
  apply (pack64_unpack64_fixpoint [3; 0; 7; 0] [53; 0; 2; 53; 9]);
    try reflexivity;
    repeat (apply Forall_cons; split; [lia|]); apply Forall_nil_2.
Defined.

(** X3. [count_cards] and [unpack64] agree on every 64-bit pattern: the
    number of non-zero slots is [n_pocket + n_board], at most 4 of them in
    the pocket and at most 5 on the board. *)
Theorem count_cards_unpack64 (id : Z) :
  count_cards id =
    Z.of_nat (n_pocket (unpack64 id) + n_board (unpack64 id)) ∧
  (n_pocket (unpack64 id) ≤ 4)%nat ∧ (n_board (unpack64 id) ≤ 5)%nat ∧
  0 ≤ count_cards id ≤ 9.
Proof.
  destruct (cards_range id) as (_ & _ & Hp & Hb).
  rewrite unpack64_cards, count_cards_cards. cbn [n_pocket n_board].
  split; [done|]. split; [done|]. split; [done|]. lia.
Qed.

(** X4. [unpack64] compacts: the arrays have 4 and 5 entries, the first
    [n_board] board entries are the non-zero values of the slots 0..4 in
    slot order, the first [n_pocket] pocket entries those of the slots
    5..8, and every further entry is zero. *)
Theorem unpack64_compacts (id : Z) :
  let h := unpack64 id in
  length (pocket h) = 4%nat ∧ length (board h) = 5%nat ∧
  take (n_board h) (board h) =
    filter (λ v, v ≠ 0) (slot id <$> [0; 1; 2; 3; 4]%nat) ∧
  drop (n_board h) (board h) = replicate (5 - n_board h) 0 ∧
  take (n_pocket h) (pocket h) =
    filter (λ v, v ≠ 0) (slot id <$> [5; 6; 7; 8]%nat) ∧
  drop (n_pocket h) (pocket h) = replicate (4 - n_pocket h) 0.
Proof.
  destruct (cards_range id) as (_ & _ & Hp & Hb).
  cbv zeta. rewrite unpack64_cards. cbn [pocket board n_pocket n_board].
  rewrite !pad_length, !take_pad by done.
  unfold pad. rewrite !drop_app_length. done.
Qed.

(** X5. [add_card] on an unpacked identifier stays inside the arrays
    exactly when fewer than nine slots are occupied (with nine it writes
    [pocket[4]]); the card goes to the board while the board has a free
    entry, to the pocket otherwise, and one more entry is counted. *)
Theorem add_card_in_bounds_iff (id new_card : Z) :
  let h := unpack64 id in
  (is_Some (add_card new_card h) ↔ count_cards id ≤ 8) ∧
  ∀ h', add_card new_card h = Some h' →
    ((n_board h < 5)%nat ∧ pocket h' = pocket h ∧
     board h' = <[n_board h := new_card]> (board h) ∧
     n_pocket h' = n_pocket h ∧ n_board h' = S (n_board h)) ∨
    (n_board h = 5%nat ∧ (n_pocket h < 4)%nat ∧ board h' = board h ∧
     pocket h' = <[n_pocket h := new_card]> (pocket h) ∧
     n_pocket h' = S (n_pocket h) ∧ n_board h' = n_board h).
Proof.
  destruct (cards_range id) as (_ & _ & Hp & Hb).
  cbv zeta. rewrite count_cards_cards, unpack64_cards.
  unfold add_card. cbn [pocket board n_pocket n_board].
  destruct (Nat.ltb_spec (length (board_cards id)) 5) as [H5|H5].
  - split; [split; [lia|by eexists]|].
    intros h' Hh. apply (inj Some) in Hh. subst h'. left. done.
  - destruct (Nat.ltb_spec (length (pocket_cards id)) 4) as [H4|H4].
    + split; [split; [lia|by eexists]|].
      intros h' Hh. apply (inj Some) in Hh. subst h'. right.
      cbn [pocket board n_pocket n_board].
      split_and!; try done. lia.
    + split; [|done]. split; [by intros [? ?]|lia].
Qed.

(** X6. [skip_board] on an unpacked board removes the skip sentinels 53,
    keeps the other occupied entries in order and fills up with zeros;
    the [n_board] it returns is 5 minus the number of sentinels: the
    empty entries are counted as well. *)
Theorem skip_board_unpacked (id : Z) :
  let b := board_cards id in
  let kept := filter (λ v, v ≠ SKIP_BOARD) b in
  skip_board (board (unpack64 id)) =
    (pad 5 kept, (5 - (length b - length kept))%nat).
Proof.
  destruct (cards_range id) as (_ & _ & _ & Hb).
  cbv zeta. rewrite unpack64_cards. cbn [board].
  rewrite skip_board_spec by by apply pad_length.
  pose proof (length_filter (λ v : Z, v ≠ SKIP_BOARD) (board_cards id)) as Hf.
  assert (Hz : ∀ n, filter (λ v : Z, v ≠ SKIP_BOARD) (replicate n 0)
                    = replicate n 0).
  { intros n. apply filter_all. apply Forall_replicate.
    unfold SKIP_BOARD. lia. }
  unfold pad at 2 4. rewrite filter_app, Hz.
  unfold pad. rewrite length_app, !length_replicate, <- app_assoc.
  rewrite <- replicate_add. f_equal; [f_equal; f_equal; lia|].
  rewrite filter_app, Hz, length_app, length_replicate. lia.
Qed.


(** ** Folding of cards *)

Lemma land_3_mod x : Z.land x 3 = x mod 4.
Proof. change 3 with (Z.ones 2). by rewrite Z.land_ones. Qed.

Lemma land_15_mod x : Z.land x 15 = x mod 16.
Proof. change 15 with (Z.ones 4). by rewrite Z.land_ones. Qed.

(** X7. For a card 1..52 the bit operations of the three transitions are
    plain arithmetic: the suit is [(c - 1) mod 4 + 1], the rank stored
    without flush is [(c - 1) / 4 + 1] in 1..13, the rank stored for a
    card of the flush suit is [(c - 1) / 4 + 2] in 2..14 and any other
    card is stored as [ANY_CARD]; the masks [& 0xF], which bind weaker
    than [+] in the source, never change the value.  Card 0 is stored
    as [SKIP_BOARD] by all three. *)
Theorem fold_card_arithmetic (c flush_suit : Z) :
  1 ≤ c ≤ 52 →
  fold_flush_suits c = (c - 1) mod 4 + 1 ∧
  fold_no_flush c = (c - 1) / 4 + 1 ∧
  fold_flush_ranks c flush_suit =
    (if decide ((c - 1) mod 4 + 1 = flush_suit) then (c - 1) / 4 + 2
     else ANY_CARD) ∧
  1 ≤ (c - 1) mod 4 + 1 ≤ 4 ∧ 1 ≤ (c - 1) / 4 + 1 ≤ 13 ∧
  fold_flush_suits 0 = SKIP_BOARD ∧ fold_no_flush 0 = SKIP_BOARD ∧
  fold_flush_ranks 0 flush_suit = SKIP_BOARD.
Proof.
  intros Hc.
  assert (Hq : 0 ≤ (c - 1) / 4 ≤ 12).
  { split; [apply Z.div_pos; lia|].
    apply Z.lt_succ_r, Z.div_lt_upper_bound; lia. }
  pose proof (Z.mod_pos_bound (c - 1) 4 ltac:(lia)) as Hm.
  unfold fold_flush_suits, fold_no_flush, fold_flush_ranks.
  destruct (Z.eqb_spec c 0) as [->|_]; [lia|].
  rewrite land_3_mod, !land_15_mod, Z.shiftr_div_pow2 by lia.
  change (2 ^ 2) with 4.
  rewrite (Z.mod_small (1 + _) 16), (Z.mod_small (2 + _) 16) by lia.
  split; [done|]. split; [lia|]. split.
  { destruct (Z.eqb_spec ((c - 1) mod 4 + 1) flush_suit) as [He|He].
    - rewrite decide_True by done. lia.
    - by rewrite decide_False by done. }
  split; [lia|]. split; [lia|]. done.
Qed.

Lemma fold_card_arithmetic_witness :
  fold_flush_suits 52 = (52 - 1) mod 4 + 1 ∧
  fold_no_flush 52 = (52 - 1) / 4 + 1 ∧
  fold_flush_ranks 52 4 =
    (if decide ((52 - 1) mod 4 + 1 = 4) then (52 - 1) / 4 + 2
     else ANY_CARD) ∧
  1 ≤ (52 - 1) mod 4 + 1 ≤ 4 ∧ 1 ≤ (52 - 1) / 4 + 1 ≤ 13 ∧
  fold_flush_suits 0 = SKIP_BOARD ∧ fold_no_flush 0 = SKIP_BOARD ∧
  fold_flush_ranks 0 4 = SKIP_BOARD.
Proof. apply (fold_card_arithmetic 52 4). lia. Defined.

Lemma fold_flush_ranks_shifted (flush_suit c : Z) :
  1 ≤ flush_suit ≤ 4 → 1 ≤ c ≤ 52 →
  fold_flush_ranks c flush_suit =
  fold_flush_ranks (shifted_card flush_suit c) 4.
Proof.
  intros Hs Hc.
  assert (Hall : forallb (λ s, forallb (λ c,
            fold_flush_ranks c s =? fold_flush_ranks (shifted_card s c) 4)
            (seqZ 1 52)) (seqZ 1 4) = true) by (vm_compute; reflexivity).
  apply Is_true_true, forallb_True in Hall.
  rewrite Forall_forall in Hall.
  specialize (Hall flush_suit). 
  assert (Hin : flush_suit ∈ seqZ 1 4) by (apply elem_of_seqZ; lia).
  specialize (Hall Hin). apply forallb_True in Hall.
  rewrite Forall_forall in Hall.
  assert (Hin' : c ∈ seqZ 1 52) by (apply elem_of_seqZ; lia).
  specialize (Hall c Hin'). apply Is_true_true in Hall. lia.
Qed.

(** X8. One flush-rank automaton serves the four suits: for a card 1..52
    the transition for the flush suit [s] is the transition for suit 4 on
    the card read through the pointer shifted by [4 - s], where a shifted
    card beyond 52 falls on a dummy slot and is read as card 1. *)
Theorem flush_ranks_suit_shift (id c flush_suit : Z) :
  1 ≤ flush_suit ≤ 4 → 1 ≤ c ≤ 52 →
  add_card_to_id_flush_ranks id c flush_suit =
  add_card_to_id_flush_ranks_4 id (shifted_card flush_suit c).
Proof.
  intros Hs Hc.
  unfold add_card_to_id_flush_ranks_4, add_card_to_id_flush_ranks.
  by rewrite (fold_flush_ranks_shifted flush_suit c Hs Hc).
Qed.

Lemma flush_ranks_suit_shift_witness :
  add_card_to_id_flush_ranks 16513 50 2 =
  add_card_to_id_flush_ranks_4 16513 (shifted_card 2 50).
Proof. apply (flush_ranks_suit_shift 16513 50 2); lia. Defined.


(** ** The enumerated identifiers *)

(** The occupied slots after a transition that is not pruned. *)
Lemma transition_cards a id c r :
  valid_id a id → count_cards id ≤ 8 → card_allowed id c →
  transition a id c = Some r → r ≠ 0 →
  ∃ ps' bs',
    r = pack64 (pad 4 ps') (pad 5 bs') ∧
    pocket_cards r = sort_desc ps' ∧ board_cards r = sort_desc bs' ∧
    (length ps' ≤ 4)%nat ∧ (length bs' ≤ 5)%nat ∧
    ((ps' = pocket_cards id ∧ bs' = board_cards id ++ [fold_card a c] ∧
      (length (board_cards id) < 5)%nat) ∨
     (ps' = pocket_cards id ++ [fold_card a c] ∧ bs' = board_cards id ∧
      length (board_cards id) = 5%nat)).
Proof.
  intros Hv H8 Hc Hr Hr0.
  destruct (transition_spec a id c Hv H8 Hc) as (r' & Hr' & Hgood).
  rewrite Hr in Hr'. injection Hr' as <-.
  destruct (Hgood Hr0) as (_ & _ & _ & ps' & bs' & Hadd & ->).
  destruct Hc as [Hc _].
  destruct (pack64_after_add id _ ps' bs' (fold_card_range a c Hc) Hadd)
    as (Hp & Hb & _).
  destruct (cards_range id) as (_ & _ & Hlp & Hlb).
  destruct (add_cards_inv _ _ _ _ _ Hadd Hlp Hlb) as (Hlp' & Hlb' & _ & Hcase).
  exists ps', bs'. done.
Qed.

(** Induction over the enumeration: a property of the empty identifier
    that every transition of the enumerator preserves holds for every
    enumerated identifier. *)
Lemma enumeration_ind a (P : Z → Prop) :
  P 0 →
  (∀ id c r, valid_id a id → P id → count_cards id ≤ 7 →
             card_allowed id c → transition a id c = Some r → r ≠ 0 →
             P r) →
  ∀ l id, generate_ids (transition a) = Some l → id ∈ l → P id.
Proof.
  intros H0 Hstep l id Hl Hid.
  destruct (generate_ids_ok (transition a)
              (λ id, (valid_id a id ∧ 0 ≤ id < 2 ^ 63) ∧
                     (count_cards id ≤ 8 → P id)))
    as (l' & Hl' & _ & _ & Hinv & _).
  - intros id0 c [Hv HP] H8 Hc.
    destruct (automaton_step_range a id0 c Hv H8 Hc) as (r & Hr & Hgood).
    exists r. split; [done|]. intros Hr0.
    destruct (Hgood Hr0) as [Hvr Hcnt]. split; [|done]. split; [done|].
    intros H8r. destruct Hv as [Hv _].
    apply (Hstep id0 c r); [done|apply HP; lia|lia|done..].
  - split; [split; [apply valid_id_zero|apply zero_in_range]|done].
  - rewrite Hl in Hl'. injection Hl' as <-.
    destruct (Hinv id Hid) as [[_ HP] Hcnt]. apply HP. lia.
Qed.

(** A sorted list of non-negative numbers that holds 0 starts with 0. *)
Lemma sorted_head_zero (l : list Z) :
  StronglySorted Z.lt l → Forall (λ x, 0 ≤ x) l → 0 ∈ l →
  l !! 0%nat = Some 0.
Proof.
  intros Hs Hl H0. destruct l as [|x l]; [by apply elem_of_nil in H0|].
  apply StronglySorted_inv in Hs as [_ Hx].
  apply Forall_cons in Hl as [Hx0 _].
  apply elem_of_cons in H0 as [->|H0]; [done|].
  rewrite Forall_forall in Hx. specialize (Hx 0 H0). lia.
Qed.

Lemma enumeration_head a l :
  generate_ids (transition a) = Some l → l !! 0%nat = Some 0.
Proof.
  intros Hl. pose proof (zero_in_enumeration a l Hl) as H0.
  destruct (enumeration_range_ok a) as (l' & Hl' & Hs & _ & Hinv & _).
  rewrite Hl in Hl'. injection Hl' as <-.
  apply sorted_head_zero; [done| |done].
  apply Forall_forall. intros id Hid. destruct (Hinv id Hid) as [[_ ?] _]. lia.
Qed.

(** X9. [generate_ids] returns exactly the identifiers that are reached
    from the empty hand by transitions that are not pruned, with the
    skip card offered only to identifiers of at most one card and at most
    eight cards in all; the empty identifier 0 is the first entry. *)
Theorem generate_ids_reachable (a : automaton) :
  ∃ id_list,
    generate_ids (transition a) = Some id_list ∧
    id_list !! 0%nat = Some 0 ∧
    ∀ id, id ∈ id_list ↔ reachable (transition a) id.
Proof.
  destruct (enumeration_range_ok a) as (l & Hl & _ & _ & _ & Hclosed).
  exists l. split; [done|]. split; [by apply (enumeration_head a)|].
  intros id. split.
  - intros Hid. clear Hclosed. revert l id Hl Hid.
    apply (enumeration_ind a (reachable (transition a))).
    + constructor.
    + intros id c r _ Hreach H7 Hc Hr Hr0. by eapply reachable_step.
  - induction 1 as [|id c r _ IH H7 Hc Hr Hr0].
    + by apply (zero_in_enumeration a).
    + by apply (Hclosed id c r).
Qed.

Lemma occurrences_suit_count v l : occurrences v l = suit_count v l.
Proof. done. Qed.

Lemma occurrences_perm v (l k : list Z) :
  l ≡ₚ k → occurrences v l = occurrences v k.
Proof. apply suit_count_perm. Qed.

Lemma occurrences_app v (l k : list Z) :
  occurrences v (l ++ k) = occurrences v l + occurrences v k.
Proof. apply suit_count_app. Qed.

Lemma occurrences_singleton v x :
  occurrences v [x] = if decide (x = v) then 1 else 0.
Proof.
  unfold occurrences. rewrite filter_cons, filter_nil.
  by destruct (decide (x = v)).
Qed.

Lemma occurrences_nonneg v l : 0 ≤ occurrences v l.
Proof. unfold occurrences. lia. Qed.

Lemma unpack64_zero : unpack64 0 = Hand (replicate 4 0) (replicate 5 0) 0 0.
Proof. reflexivity. Qed.

Lemma pack64_canonical_after_add ps' bs' :
  Forall (λ v, 0 < v < 128) ps' → Forall (λ v, 0 < v < 128) bs' →
  (length ps' ≤ 4)%nat → (length bs' ≤ 5)%nat →
  let r := pack64 (pad 4 ps') (pad 5 bs') in
  pack64 (pocket (unpack64 r)) (board (unpack64 r)) = r.
Proof.
  intros Hp Hb Hlp Hlb r.
  assert (Hz : ∀ n l, Forall (λ v, 0 < v < 128) l →
                 Forall (λ v, 0 ≤ v < 128) (pad n l)).
  { intros n l Hl. apply pad_Forall; [lia|].
    eapply Forall_impl; [exact Hl|]. cbn. lia. }
  destruct (unpack64_pack64_gen (pad 4 ps') (pad 5 bs')) as (_ & Hu & _);
    [by apply pad_length|by apply pad_length|by apply Hz|by apply Hz|].
  subst r. rewrite Hu. cbn [pocket board].
  apply pack64_perm; apply sort_desc_perm.
Qed.

(** X10. Every enumerated identifier of any of the three automata fits a
    signed 64-bit integer, holds at most eight cards, has its board
    filled before its pocket, holds at most two skip sentinels (on the
    board, never more than it has cards), and is in packed form: packing
    what [unpack64] returns gives the identifier back. *)
Theorem enumerated_ids_invariants (a : automaton) :
  ∃ id_list,
    generate_ids (transition a) = Some id_list ∧
    ∀ id, id ∈ id_list →
      0 ≤ id < 2 ^ 63 ∧ count_cards id ≤ 8 ∧
      (pocket_cards id = [] ∨ length (board_cards id) = 5%nat) ∧
      occurrences SKIP_BOARD (pocket_cards id) = 0 ∧
      occurrences SKIP_BOARD (board_cards id) ≤ Z.min (count_cards id) 2 ∧
      pack64 (pocket (unpack64 id)) (board (unpack64 id)) = id.
Proof.
  destruct (enumeration_range_ok a) as (l & Hl & _ & _ & Hinv & _).
  exists l. split; [done|]. intros id Hid.
  destruct (Hinv id Hid) as [[_ Hr] [_ H8]].
  split; [done|]. split; [done|].
  clear Hinv Hr H8. revert l id Hl Hid.
  apply (enumeration_ind a (λ id,
    (pocket_cards id = [] ∨ length (board_cards id) = 5%nat) ∧
    occurrences SKIP_BOARD (pocket_cards id) = 0 ∧
    occurrences SKIP_BOARD (board_cards id) ≤ Z.min (count_cards id) 2 ∧
    pack64 (pocket (unpack64 id)) (board (unpack64 id)) = id)).
  - split; [by left|]. split; [done|]. split; [done|]. reflexivity.
  - intros id c r Hv (Hfirst & Hsp & Hsb & _) H7 Hc Hr Hr0.
    destruct (transition_cards a id c r Hv ltac:(lia) Hc Hr Hr0)
      as (ps' & bs' & Hpack & Hp & Hb & Hlp & Hlb & Hcase).
    destruct (transition_spec a id c Hv ltac:(lia) Hc) as (r' & Hr' & Hgood).
    rewrite Hr in Hr'. injection Hr' as <-.
    destruct (Hgood Hr0) as ([Hvp Hvb] & Hcnt & _).
    rewrite Hp in Hvp. rewrite Hb in Hvb.
    rewrite sort_desc_Forall in Hvp, Hvb.
    pose proof Hc as [Hc52 Hc0].
    assert (Hskip : occurrences SKIP_BOARD [fold_card a c] =
                    if decide (c = 0) then 1 else 0).
    { rewrite occurrences_singleton.
      destruct (fold_card_valid a c Hc52) as [[-> ->]|[Hne Hf]]; [done|].
      rewrite decide_False, decide_False; [done..|].
      apply valid_pocket_value_range in Hf as Hf'. intros Heq.
      rewrite Heq in Hf. destruct a; cbn in Hf; unfold SKIP_BOARD in Hf; lia. }
    rewrite Hp, Hb, (occurrences_perm _ _ _ (sort_desc_perm ps')),
      (occurrences_perm _ _ _ (sort_desc_perm bs')), !sort_desc_length.
    split_and!.
    + destruct Hcase as [(-> & -> & Hlt)|(-> & -> & Hfull)].
      * left. destruct Hfirst as [->|Hfull]; [done|lia].
      * right. done.
    + destruct Hcase as [(-> & -> & Hlt)|(-> & -> & Hfull)]; [done|].
      rewrite occurrences_app, Hsp, Hskip.
      destruct (decide (c = 0)) as [->|]; [|done].
      specialize (Hc0 eq_refl). rewrite count_cards_cards in Hc0. lia.
    + destruct Hcase as [(-> & -> & Hlt)|(-> & -> & Hfull)].
      * rewrite occurrences_app, Hskip.
        destruct (decide (c = 0)) as [->|]; [|lia].
        specialize (Hc0 eq_refl). lia.
      * lia.
    + rewrite Hpack. apply pack64_canonical_after_add; [| |done..].
      * eapply Forall_impl; [exact Hvp|]. apply valid_pocket_value_range.
      * eapply Forall_impl; [exact Hvb|]. apply valid_board_value_range.
Qed.


(** ** The transition without flush *)

Lemma occurrences_cons v x l :
  occurrences v (x :: l) = (if decide (x = v) then 1 else 0) + occurrences v l.
Proof. apply suit_count_cons. Qed.

(** The rank histogram loop. *)
Lemma incr_rank_fold (l : list Z) :
  Forall (λ v, 0 ≤ v < 14) l →
  ∀ hist, length hist = 14%nat →
    ∃ hist', foldM incr_rank hist l = Some hist' ∧
             length hist' = 14%nat ∧
             ∀ s, 0 ≤ s < 14 →
                  hist' !!! Z.to_nat s = hist !!! Z.to_nat s + occurrences s l.
Proof.
  intros Hl. induction Hl as [|v l Hv _ IH]; intros hist Hlen.
  - exists hist. split; [done|]. split; [done|]. intros s Hs.
    unfold occurrences. cbn. lia.
  - cbn [foldM].
    assert (incr_rank hist v =
            Some (<[Z.to_nat v := hist !!! Z.to_nat v + 1]> hist))
      as -> by (unfold incr_rank; by rewrite decide_True).
    cbn [mbind option_bind].
    destruct (IH (<[Z.to_nat v := hist !!! Z.to_nat v + 1]> hist))
      as (hist' & Hf & Hlen' & Hval); [by rewrite length_insert|].
    exists hist'. split; [done|]. split; [done|]. intros s Hs.
    rewrite (Hval s Hs), occurrences_cons.
    destruct (decide (v = s)) as [->|Hne].
    + rewrite list_lookup_total_insert_eq by lia. lia.
    + rewrite list_lookup_total_insert_ne by lia. lia.
Qed.

Lemma foldM_skip_filter_rank hist (l : list Z) :
  foldM (λ hist v, if decide (v ≠ SKIP_BOARD) then incr_rank hist v
                   else Some hist) hist l =
  foldM incr_rank hist (filter (λ v, v ≠ SKIP_BOARD) l).
Proof.
  revert hist. induction l as [|v l IH]; intros hist; [done|].
  cbn [foldM]. rewrite filter_cons.
  destruct (decide (v ≠ SKIP_BOARD)); cbn [foldM mbind option_bind].
  - destruct (incr_rank hist v); [apply IH|done].
  - apply IH.
Qed.

Lemma occurrences_no_skip s (l : list Z) :
  s ≠ SKIP_BOARD →
  occurrences s (filter (λ v, v ≠ SKIP_BOARD) l) = occurrences s l.
Proof. apply suit_count_no_skip. Qed.

(** The histogram [n_rank] at the final test of the transition. *)
Lemma no_flush_histogram id c :
  valid_id NF id → count_cards id ≤ 8 → card_allowed id c →
  ∃ (n_rank : list Z) st,
    add_cards (fold_no_flush c) (pocket_cards id) (board_cards id) = Some st ∧
    add_card_to_id_no_flush id c =
      (if existsb (λ i, n_rank !!! i >? 4) (seq 1 13) then Some 0
       else Some (pack64 (pad 4 st.1) (pad 5 st.2))) ∧
    pack64 (pad 4 st.1) (pad 5 st.2) ≠ 0 ∧
    ∀ rank, 1 ≤ rank ≤ 13 →
      n_rank !!! Z.to_nat rank =
      occurrences rank (pocket_cards id) + occurrences rank (board_cards id) +
      occurrences rank [fold_no_flush c].
Proof.
  intros Hv H8 Hc. pose proof Hv as [Hvp Hvb]. pose proof Hc as [Hc52 _].
  rewrite no_flush_cards. cbv zeta.
  destruct (incr_rank_fold (pocket_cards id)) with (hist := replicate 14 0)
    as (h1 & Hh1 & Hl1 & Hv1); [|done|].
  { eapply Forall_impl; [exact Hvp|]. cbn. lia. }
  destruct (incr_rank_fold (filter (λ v, v ≠ SKIP_BOARD) (board_cards id)))
    with (hist := h1) as (h2 & Hh2 & Hl2 & Hv2); [|done|].
  { apply Forall_forall. intros v [Hv1' Hv2']%list_elem_of_filter.
    rewrite Forall_forall in Hvb. destruct (Hvb v Hv2') as [H|H]; [|done].
    cbn in H. lia. }
  destruct (cards_range id) as (_ & _ & Hlp & Hlb).
  destruct (add_cards_Some (fold_no_flush c) (pocket_cards id) (board_cards id))
    as [[ps' bs'] Hadd]; [rewrite count_cards_cards in H8; lia|done..|].
  destruct (packed_valid NF id c ps' bs' Hv Hc Hadd) as (_ & _ & Hpos).
  rewrite Hh1. cbn [mbind option_bind].
  rewrite foldM_skip_filter_rank, Hh2. cbn [mbind option_bind].
  rewrite Hadd. cbn [mbind option_bind fst snd].
  assert (Hbase : ∀ rank, 1 ≤ rank ≤ 13 →
            h2 !!! Z.to_nat rank =
            occurrences rank (pocket_cards id) +
            occurrences rank (board_cards id)).
  { intros rank Hrank.
    rewrite (Hv2 rank), (Hv1 rank), zeros_lookup_total by lia.
    rewrite occurrences_no_skip by (unfold SKIP_BOARD; lia). lia. }
  destruct (fold_card_valid NF c Hc52) as [[_ Hf]|[Hne Hf]];
    change (fold_card NF c) with (fold_no_flush c) in Hf;
    unfold valid_pocket_value in Hf.
  - exists h2, (ps', bs'). rewrite Hf. rewrite decide_False by (by intros []).
    cbn [mbind option_bind fst snd]. rewrite Hf in Hadd.
    split; [done|]. split; [done|]. split; [lia|].
    intros rank Hrank. rewrite Hbase, occurrences_singleton by done.
    rewrite decide_False by (unfold SKIP_BOARD; lia). lia.
  - rewrite decide_True by (unfold SKIP_BOARD; lia).
    assert (incr_rank h2 (fold_no_flush c) =
            Some (<[Z.to_nat (fold_no_flush c) :=
                     h2 !!! Z.to_nat (fold_no_flush c) + 1]> h2))
      as -> by (unfold incr_rank; rewrite decide_True; [done|lia]).
    cbn [mbind option_bind].
    eexists _, (ps', bs'). split; [done|]. split; [done|].
    split; [cbn [fst snd]; lia|].
    intros rank Hrank. rewrite occurrences_singleton.
    destruct (decide (fold_no_flush c = rank)) as [->|Hne'].
    + rewrite list_lookup_total_insert_eq by lia. rewrite Hbase by done. lia.
    + rewrite list_lookup_total_insert_ne by lia. rewrite Hbase by done. lia.
Qed.

Lemma existsb_ranks (hist : list Z) :
  existsb (λ i, hist !!! i >? 4) (seq 1 13) = true ↔
  ∃ rank, 1 ≤ rank ≤ 13 ∧ 4 < hist !!! Z.to_nat rank.
Proof.
  rewrite existsb_exists. split.
  - intros (i & Hi%in_seq & Hgt). exists (Z.of_nat i).
    rewrite Nat2Z.id. split; lia.
  - intros (rank & Hrank & Hgt). exists (Z.to_nat rank).
    split; [apply in_seq; lia|lia].
Qed.

(** A rank held five times prunes the transition. *)
Lemma no_flush_prunes_fifth_rank_aux (id new_card : Z) :
  valid_id NF id → count_cards id ≤ 8 → card_allowed id new_card →
  (∃ rank, 1 ≤ rank ≤ 13 ∧
     4 < occurrences rank (pocket_cards id) +
         occurrences rank (board_cards id) +
         occurrences rank [fold_no_flush new_card]) →
  add_card_to_id_no_flush id new_card = Some 0.
Proof.
  intros Hv H8 Hc (rank & Hrank & Hgt).
  destruct (no_flush_histogram id new_card Hv H8 Hc)
    as (n_rank & st & _ & -> & Hnz & Hval).
  rewrite <- Hval in Hgt by done.
  assert (existsb (λ i, n_rank !!! i >? 4) (seq 1 13) = true) as ->
    by (apply existsb_ranks; eauto).
  done.
Qed.

(** X11. The transition without flush is pruned (returns 0) exactly
    when, with the new card, some rank 1..13 would be held more than four
    times in pocket and board together; skip sentinels count for no
    rank. *)
Theorem no_flush_prunes_fifth_of_a_rank (id new_card : Z) :
  valid_id NF id → count_cards id ≤ 8 → card_allowed id new_card →
  add_card_to_id_no_flush id new_card = Some 0 ↔
  ∃ rank, 1 ≤ rank ≤ 13 ∧
    4 < occurrences rank (pocket_cards id) +
        occurrences rank (board_cards id) +
        occurrences rank [fold_no_flush new_card].
Proof.
  intros Hv H8 Hc.
  destruct (no_flush_histogram id new_card Hv H8 Hc)
    as (n_rank & st & _ & -> & Hnz & Hval).
  destruct (existsb _ (seq 1 13)) eqn:E.
  - split; [intros _|done]. apply existsb_ranks in E as (rank & Hrank & Hgt).
    exists rank. split; [done|]. by rewrite <- Hval.
  - split; [intros [= ?]; done|]. intros (rank & Hrank & Hgt).
    rewrite <- Hval in Hgt by done.
    assert (existsb (λ i, n_rank !!! i >? 4) (seq 1 13) = true) as E'
      by (apply existsb_ranks; eauto).
    congruence.
Qed.

Lemma no_flush_prunes_fifth_of_a_rank_witness :
  add_card_to_id_no_flush 270549122 4 = Some 0 ↔
  ∃ rank, 1 ≤ rank ≤ 13 ∧
    4 < occurrences rank (pocket_cards 270549122) +
        occurrences rank (board_cards 270549122) +
        occurrences rank [fold_no_flush 4].
Proof.
  apply (no_flush_prunes_fifth_of_a_rank 270549122 4).
  - split; [vm_compute; constructor|].
    replace (board_cards 270549122) with [2; 1; 1; 1; 1] by reflexivity.
    repeat (apply Forall_cons; split; [left; cbn; lia|]). apply Forall_nil_2.
  - vm_compute. discriminate.
  - split; [lia|]. discriminate.
Defined.


(** The occupied slots of the successor, as one multiset. *)
Lemma transition_all_cards a id c r :
  valid_id a id → count_cards id ≤ 8 → card_allowed id c →
  transition a id c = Some r → r ≠ 0 →
  pocket_cards r ++ board_cards r ≡ₚ
  fold_card a c :: (pocket_cards id ++ board_cards id).
Proof.
  intros Hv H8 Hc Hr Hr0.
  destruct (transition_cards a id c r Hv H8 Hc Hr Hr0)
    as (ps' & bs' & _ & -> & -> & _ & _ & Hcase).
  rewrite !sort_desc_perm.
  destruct Hcase as [(-> & -> & _)|(-> & -> & _)].
  - by rewrite app_assoc, <- Permutation_cons_append.
  - rewrite <- app_assoc, (Permutation_app_comm [_]), app_assoc.
    by rewrite <- Permutation_cons_append.
Qed.

(** X12. In every identifier enumerated for the automaton without flush,
    no rank 1..13 is held more than four times in pocket and board
    together. *)
Theorem no_flush_ids_hold_four_of_a_rank :
  ∃ id_nf,
    generate_ids (transition NF) = Some id_nf ∧
    ∀ id rank, id ∈ id_nf → 1 ≤ rank ≤ 13 →
      occurrences rank (pocket_cards id ++ board_cards id) ≤ 4.
Proof.
  destruct (enumeration_range_ok NF) as (l & Hl & _).
  exists l. split; [exact Hl|]. intros id rank Hid Hrank.
  revert rank Hrank. revert l id Hl Hid.
  apply (enumeration_ind NF (λ id, ∀ rank, 1 ≤ rank ≤ 13 →
           occurrences rank (pocket_cards id ++ board_cards id) ≤ 4)).
  - intros rank _. by vm_compute.
  - intros id c r Hv IH H7 Hc Hr Hr0 rank Hrank.
    rewrite (occurrences_perm _ _ _
               (transition_all_cards NF id c r Hv ltac:(lia) Hc Hr Hr0)).
    rewrite transition_NF in Hr.
    change (fold_card NF c) with (fold_no_flush c).
    destruct (decide (4 < occurrences rank
                (fold_no_flush c :: pocket_cards id ++ board_cards id)))
      as [Hgt|]; [exfalso|lia].
    assert (add_card_to_id_no_flush id c = Some 0) as Hz.
    { apply no_flush_prunes_fifth_rank_aux; [done|lia|done|].
      exists rank. split; [done|].
      rewrite occurrences_cons, occurrences_app in Hgt.
      rewrite occurrences_singleton. lia. }
    congruence.
Qed.

Lemma is_duplicate_false (f : Z) (l : list Z) :
  2 ≤ f ≤ 14 → existsb (is_duplicate f) l = false → f ∉ l.
Proof.
  intros Hf Hex Hin. apply not_true_iff_false in Hex. apply Hex.
  apply existsb_exists. exists f. split; [by apply list_elem_of_In|].
  unfold is_duplicate, ANY_CARD, SKIP_BOARD.
  destruct (Z.eqb_spec f 1), (Z.eqb_spec f 53), (Z.eqb_spec f f); lia || done.
Qed.

(** X13. In every identifier enumerated for a flush-rank automaton, the
    ranks 2..14 of the cards of the flush suit are pairwise distinct over
    pocket and board together: a second card of the same suited rank is
    never stored. *)
Theorem flush_rank_ids_hold_distinct_ranks (flush_suit : Z) :
  ∃ id_fr,
    generate_ids (transition (FR flush_suit)) = Some id_fr ∧
    ∀ id, id ∈ id_fr →
      NoDup (filter (λ v, 2 ≤ v ≤ 14) (pocket_cards id ++ board_cards id)).
Proof.
  destruct (enumeration_range_ok (FR flush_suit)) as (l & Hl & _).
  exists l. split; [exact Hl|]. intros id Hid. revert l id Hl Hid.
  apply (enumeration_ind (FR flush_suit) (λ id,
           NoDup (filter (λ v, 2 ≤ v ≤ 14)
                         (pocket_cards id ++ board_cards id)))).
  - vm_compute. constructor.
  - intros id c r Hv IH H7 Hc Hr Hr0.
    rewrite (transition_all_cards _ id c r Hv ltac:(lia) Hc Hr Hr0).
    rewrite filter_cons. destruct (decide _) as [Hf|]; [|done].
    apply NoDup_cons. split; [|done].
    rewrite (transition_unfold (FR flush_suit)) in Hr.
    change (fold_card (FR flush_suit) c)
      with (fold_flush_ranks c flush_suit) in Hf |- *.
    rewrite flush_ranks_cards in Hr. cbv zeta in Hr.
    destruct (existsb _ (pocket_cards id)) eqn:Ep; [congruence|].
    destruct (existsb _ (board_cards id)) eqn:Eb; [congruence|].
    intros [_ Hin]%list_elem_of_filter.
    apply elem_of_app in Hin as [Hin|Hin].
    + by apply (is_duplicate_false _ _ Hf Ep).
    + by apply (is_duplicate_false _ _ Hf Eb).
Qed.


(** ** The terminal evaluators *)

(** A loop that keeps the smallest score. *)
Lemma fold_min_spec {A : Type} (f : A → option Z) (l : list A) : ∀ b,
  let r := foldl (λ best x, match f x with
                            | Some q => if q <? best then q else best
                            | None => best
                            end) b l in
  r ≤ b ∧
  (∀ x q, x ∈ l → f x = Some q → r ≤ q) ∧
  (r = b ∨ ∃ x, x ∈ l ∧ f x = Some r).
Proof.
  induction l as [|x l IH]; intros b; cbn [foldl].
  - split; [done|]. split; [|by left]. by intros x q ?%elem_of_nil.
  - specialize (IH (match f x with
                    | Some q => if q <? b then q else b
                    | None => b
                    end)).
    cbv zeta in IH |- *. destruct IH as (Hle & Hall & Hex).
    destruct (f x) as [q|] eqn:E.
    + destruct (Z.ltb_spec q b) as [Hlt|Hge].
      * split; [lia|]. split.
        -- intros y q' [->|Hy]%elem_of_cons Hq'; [|by eapply Hall].
           rewrite E in Hq'. injection Hq' as <-. done.
        -- right. destruct Hex as [->|(y & Hy & Hfy)].
           ++ exists x. split; [left|done].
           ++ exists y. split; [by right|done].
      * split; [lia|]. split.
        -- intros y q' [->|Hy]%elem_of_cons Hq'; [|by eapply Hall].
           rewrite E in Hq'. injection Hq' as <-. lia.
        -- destruct Hex as [->|(y & Hy & Hfy)]; [by left|].
           right. exists y. split; [by right|done].
    + split; [done|]. split.
      * intros y q' [->|Hy]%elem_of_cons Hq'; [congruence|by eapply Hall].
      * destruct Hex as [->|(y & Hy & Hfy)]; [by left|].
        right. exists y. split; [by right|done].
Qed.

Lemma fold_min_nested_spec (score : nat → nat → option Z) (nbs nps : list nat) :
  ∀ b,
  let r := foldl (λ best np,
             foldl (λ best nb, match score np nb with
                               | Some q => if q <? best then q else best
                               | None => best
                               end) best nbs) b nps in
  r ≤ b ∧
  (∀ np nb q, np ∈ nps → nb ∈ nbs → score np nb = Some q → r ≤ q) ∧
  (r = b ∨ ∃ np nb, np ∈ nps ∧ nb ∈ nbs ∧ score np nb = Some r).
Proof.
  induction nps as [|np nps IH]; intros b; cbn [foldl].
  - split; [done|]. split; [|by left]. by intros np nb q ?%elem_of_nil.
  - destruct (fold_min_spec (score np) nbs b) as (Hle1 & Hall1 & Hex1).
    cbv zeta in Hle1, Hall1, Hex1.
    set (b1 := foldl _ b nbs) in *.
    specialize (IH b1). cbv zeta in IH |- *.
    destruct IH as (Hle & Hall & Hex).
    split; [lia|]. split.
    + intros np' nb q [->|Hnp]%elem_of_cons Hnb Hq; [|by eapply Hall].
      specialize (Hall1 nb q Hnb Hq). lia.
    + destruct Hex as [Hex|(np' & nb & Hnp & Hnb & Hq)].
      * destruct Hex1 as [Hex1|(nb & Hnb & Hq)].
        -- left. congruence.
        -- right. exists np, nb. rewrite Hex. split; [left|done].
      * right. exists np', nb. split; [by right|done].
Qed.

(** X14. The double loop over the 6 pocket pairs and the first
    [n_board_perms] board triples returns the smallest score met, or the
    initial 8191 when no score is below it; with [n_board_perms = -1]
    (a card count other than 7, 8 or 9) the inner loop is never entered
    and the result is 8191. *)
Theorem best_score_is_minimum (n_board_perms : Z)
    (score : nat → nat → option Z) :
  let best := best_score n_board_perms score in
  best ≤ 8191 ∧
  (∀ np nb q, (np < 6)%nat → Z.of_nat nb < n_board_perms →
              score np nb = Some q → best ≤ q) ∧
  (best = 8191 ∨
   ∃ np nb, (np < 6)%nat ∧ Z.of_nat nb < n_board_perms ∧
            score np nb = Some best) ∧
  (n_board_perms ≤ 0 → best = 8191).
Proof.
  unfold best_score, n_pocket_perms.
  destruct (fold_min_nested_spec score (seq 0 (Z.to_nat n_board_perms))
              (seq 0 6) 8191) as (Hle & Hall & Hex).
  cbv zeta in Hle, Hall, Hex |- *.
  set (best := foldl _ 8191 (seq 0 6)) in *.
  assert (Hex' : best = 8191 ∨
            ∃ np nb, (np < 6)%nat ∧ Z.of_nat nb < n_board_perms ∧
                     score np nb = Some best).
  { destruct Hex as [?|(np & nb & Hnp%elem_of_seq & Hnb%elem_of_seq & Hq)];
      [by left|].
    right. exists np, nb. split; [lia|]. split; [lia|done]. }
  split; [done|]. split; [|split; [done|]].
  - intros np nb q Hnp Hnb Hq. apply (Hall np nb); [| |done].
    + apply elem_of_seq. lia.
    + apply elem_of_seq. lia.
  - intros Hn. destruct Hex' as [?|(np & nb & _ & Hnb & _)]; [done|lia].
Qed.

(** The rank bit and the prime of a Cactus Kev card. *)
Lemma card_to_cactus_bits (rank suit c : Z) :
  1 ≤ rank ≤ 13 → 1 ≤ suit ≤ 4 → card_to_cactus rank suit = Some c →
  Z.shiftr c 16 = Z.shiftl 1 (rank - 1) ∧
  Z.land c 255 = prime_of_rank !!! Z.to_nat (rank - 1).
Proof.
  intros Hr Hs Hc.
  assert (Hall : forallb (λ rank, forallb (λ suit,
            match card_to_cactus rank suit with
            | Some c => (Z.shiftr c 16 =? Z.shiftl 1 (rank - 1)) &&
                        (Z.land c 255 =? prime_of_rank !!! Z.to_nat (rank - 1))
            | None => false
            end) (seqZ 1 4)) (seqZ 1 13) = true) by (vm_compute; reflexivity).
  apply Is_true_true, forallb_True in Hall. rewrite Forall_forall in Hall.
  assert (Hin : rank ∈ seqZ 1 13) by (apply elem_of_seqZ; lia).
  specialize (Hall rank Hin). apply forallb_True in Hall.
  rewrite Forall_forall in Hall.
  assert (Hin' : suit ∈ seqZ 1 4) by (apply elem_of_seqZ; lia).
  specialize (Hall suit Hin'). rewrite Hc in Hall.
  apply Is_true_true, andb_true_iff in Hall as [H1 H2]. lia.
Qed.

(** X15. The score [eval_cactus_no_flush] gives to five cards built by
    [card_to_cactus] from ranks 1..13 and suits 1..4 does not depend on
    the suits: the index of [unique5] is the union of the rank bits and
    the argument of [cactus_findit] is the product of the rank primes. *)
Theorem eval_cactus_no_flush_ignores_suits
    (unique5 values cactus_findit : Z → Z)
    (r1 r2 r3 r4 r5 s1 s2 s3 s4 s5 c1 c2 c3 c4 c5 : Z) :
  Forall (λ r, 1 ≤ r ≤ 13) [r1; r2; r3; r4; r5] →
  Forall (λ s, 1 ≤ s ≤ 4) [s1; s2; s3; s4; s5] →
  card_to_cactus r1 s1 = Some c1 → card_to_cactus r2 s2 = Some c2 →
  card_to_cactus r3 s3 = Some c3 → card_to_cactus r4 s4 = Some c4 →
  card_to_cactus r5 s5 = Some c5 →
  eval_cactus_no_flush unique5 values cactus_findit c1 c2 c3 c4 c5 =
  let bits := Z.lor (Z.lor (Z.lor (Z.lor
                (Z.shiftl 1 (r1 - 1)) (Z.shiftl 1 (r2 - 1)))
                (Z.shiftl 1 (r3 - 1))) (Z.shiftl 1 (r4 - 1)))
                (Z.shiftl 1 (r5 - 1)) in
  let prime r := prime_of_rank !!! Z.to_nat (r - 1) in
  if unique5 bits =? 0
  then values (cactus_findit
                 (prime r1 * prime r2 * prime r3 * prime r4 * prime r5))
  else unique5 bits.
Proof.
  intros Hr Hs H1 H2 H3 H4 H5.
  apply Forall_cons in Hr as [Hr1 Hr]. apply Forall_cons in Hr as [Hr2 Hr].
  apply Forall_cons in Hr as [Hr3 Hr]. apply Forall_cons in Hr as [Hr4 Hr].
  apply Forall_cons in Hr as [Hr5 _].
  apply Forall_cons in Hs as [Hs1 Hs]. apply Forall_cons in Hs as [Hs2 Hs].
  apply Forall_cons in Hs as [Hs3 Hs]. apply Forall_cons in Hs as [Hs4 Hs].
  apply Forall_cons in Hs as [Hs5 _].
  destruct (card_to_cactus_bits r1 s1 c1 Hr1 Hs1 H1) as [Hb1 Hp1].
  destruct (card_to_cactus_bits r2 s2 c2 Hr2 Hs2 H2) as [Hb2 Hp2].
  destruct (card_to_cactus_bits r3 s3 c3 Hr3 Hs3 H3) as [Hb3 Hp3].
  destruct (card_to_cactus_bits r4 s4 c4 Hr4 Hs4 H4) as [Hb4 Hp4].
  destruct (card_to_cactus_bits r5 s5 c5 Hr5 Hs5 H5) as [Hb5 Hp5].
  unfold eval_cactus_no_flush. cbv zeta.
  rewrite !Z.shiftr_lor, Hb1, Hb2, Hb3, Hb4, Hb5, Hp1, Hp2, Hp3, Hp4, Hp5.
  by destruct (unique5 _ =? 0).
Qed.

Lemma eval_cactus_no_flush_ignores_suits_witness :
  eval_cactus_no_flush (λ _, 0) (λ x, x) (λ x, x)
    98306 81922 139523 266757 529159 =
  let bits := Z.lor (Z.lor (Z.lor (Z.lor
                (Z.shiftl 1 (1 - 1)) (Z.shiftl 1 (1 - 1)))
                (Z.shiftl 1 (2 - 1))) (Z.shiftl 1 (3 - 1)))
                (Z.shiftl 1 (4 - 1)) in
  let prime r := prime_of_rank !!! Z.to_nat (r - 1) in
  if (λ _ : Z, 0) bits =? 0
  then (λ x : Z, x) ((λ x : Z, x)
         (prime 1 * prime 1 * prime 2 * prime 3 * prime 4))
  else (λ _ : Z, 0) bits.
Proof.
  apply (eval_cactus_no_flush_ignores_suits (λ _, 0) (λ x, x) (λ x, x)
           1 1 2 3 4 4 3 2 1 1);
    try reflexivity;
    repeat (apply Forall_cons; split; [lia|]); apply Forall_nil_2.
Defined.


(** ** Look-up chains in the region of an automaton *)

(** The first card of a hand is never pruned. *)
Lemma first_card_not_pruned a c :
  0 ≤ c ≤ 52 → ∃ r, transition a 0 c = Some r ∧ r ≠ 0.
Proof.
  intros Hc.
  assert (Hca : card_allowed 0 c) by (split; [done|by intros _]).
  destruct a as [|s|].
  - rewrite transition_FS.
    destruct (flush_suits_never_zero 0 c) as (r & Hr & Hr0 & _); [done..|].
    by exists r.
  - rewrite (transition_unfold (FR s)), flush_ranks_cards. cbv zeta.
    change (pocket_cards 0) with (@nil Z). change (board_cards 0) with (@nil Z).
    cbn [existsb add_cards length Nat.ltb Nat.leb mbind option_bind fst snd app].
    assert (flush_unreachable_cards [] [fold_flush_ranks c s] = false) as ->
      by done.
    eexists. split; [done|].
    destruct (packed_valid (FR s) 0 c [] [fold_flush_ranks c s]
                (valid_id_zero _) Hca) as (_ & _ & Hpos); [done|].
    cbv zeta in Hpos. lia.
  - rewrite transition_NF.
    destruct (no_flush_histogram 0 c (valid_id_zero _) ltac:(done) Hca)
      as (n_rank & st & _ & -> & Hnz & Hval).
    destruct (existsb _ (seq 1 13)) eqn:E; [|by eexists].
    apply existsb_ranks in E as (rank & Hrank & Hgt).
    rewrite Hval in Hgt by done.
    change (pocket_cards 0) with (@nil Z) in Hgt.
    change (board_cards 0) with (@nil Z) in Hgt.
    rewrite occurrences_singleton in Hgt.
    change (occurrences rank []) with 0 in Hgt.
    destruct (decide _); lia.
Qed.

(** Only the empty identifier holds no card. *)
Lemma enumerated_nonempty a l id :
  generate_ids (transition a) = Some l → id ∈ l → id = 0 ∨ 1 ≤ count_cards id.
Proof.
  revert l id. apply (enumeration_ind a (λ id, id = 0 ∨ 1 ≤ count_cards id)).
  - by left.
  - intros id c r Hv _ H7 Hc Hr Hr0. right.
    destruct (transition_spec a id c Hv ltac:(lia) Hc) as (r' & Hr' & Hgood).
    rewrite Hr in Hr'. injection Hr' as <-.
    destruct (Hgood Hr0) as (_ & Hcnt & _).
    pose proof (count_cards_cards id). lia.
Qed.

Lemma cards_allowed_from_nonzero (cards : list Z) : ∀ n,
  2 ≤ n → cards_allowed_from n cards → Forall (λ c, 1 ≤ c ≤ 52) cards.
Proof.
  induction cards as [|c cards IH]; intros n Hn Hall; [done|].
  destruct Hall as (Hc & Hc0 & Hrest). constructor.
  - destruct (decide (c = 0)) as [Hz|]; [specialize (Hc0 Hz)|]; lia.
  - apply (IH (n + 1)); [lia|done].
Qed.

Lemma chain_cons HR sh x c cards :
  chain HR sh x (c :: cards) =
  y ← vget HR (sh + (x + c)); chain HR sh y cards.
Proof. done. Qed.

Section Region.

Context (a : automaton) (ids HR : list Z) (offset offset_value : Z).
Context (eval_id : Z → option Z) (n_dummy dummy_card : Z) (map : gmap Z Z).

Hypothesis Hgen : generate_ids (transition a) = Some ids.
Hypothesis Hreg : region_ok HR ids offset offset_value (transition a) eval_id
                            n_dummy dummy_card map.
Hypothesis Hnd : 0 ≤ n_dummy.
Hypothesis Hoff : 0 ≤ offset.
Hypothesis Heval : ∀ r, valid_id a r → count_cards r = 9 → is_Some (eval_id r).
Hypothesis Hmap : ∀ e, default e (map !! e) ≠ -1.

Local Abbreviation start := (block_start offset (53 + n_dummy)).
Local Abbreviation alias sh := (aliased_card sh dummy_card).

(** The three kinds of cells. *)
Lemma region_cell k id c :
  ids !! k = Some id → card_allowed id c →
  ∃ r v,
    transition a id c = Some r ∧
    vget HR (start k + c) = Some v ∧ v ≠ -1 ∧
    ((r = 0 ∧ v = offset) ∨
     (r ≠ 0 ∧ count_cards id = 8 ∧
      ∃ e, eval_id r = Some e ∧ v = default e (map !! e)) ∨
     (r ≠ 0 ∧ count_cards id ≤ 7 ∧ count_cards r = count_cards id + 1 ∧
      ∃ k', ids !! k' = Some r ∧ v = start k')).
Proof.
  intros Hk Hc.
  destruct (enumeration_range_ok a) as (l & Hl & Hs & _ & Hinv & Hclosed).
  rewrite Hgen in Hl. injection Hl as <-.
  assert (Hid : id ∈ ids) by (by eapply list_elem_of_lookup_2).
  destruct (Hinv id Hid) as [Hv [_ H8]].
  destruct (automaton_step_range a id c Hv H8 Hc) as (r & Hr & Hgood).
  destruct Hreg as (_ & _ & Hcell & _).
  specialize (Hcell k id c Hk (proj2 (process_min_card_allowed id c) Hc)).
  unfold cell_value in Hcell. rewrite Hr in Hcell.
  cbn [mbind option_bind] in Hcell.
  unfold transition_value, transition_branch in Hcell.
  exists r. destruct (decide (r = 0)) as [Hr0|Hr0].
  - exists offset. rewrite decide_False in Hcell by tauto.
    rewrite decide_False in Hcell by tauto.
    split; [done|]. split; [done|]. split; [lia|]. by left.
  - destruct (Hgood Hr0) as [[Hvr Hrr] Hcnt].
    destruct (decide (count_cards id = 8)) as [H8'|H8'].
    + rewrite decide_True in Hcell by (split; [done|lia]).
      destruct (Heval r Hvr ltac:(lia)) as [e He].
      rewrite He in Hcell. cbn [mbind option_bind] in Hcell.
      exists (default e (map !! e)).
      split; [done|]. split; [done|]. split; [apply Hmap|].
      right. left. split; [done|]. split; [done|]. by exists e.
    + rewrite decide_False in Hcell by lia.
      rewrite decide_True in Hcell by done.
      assert (Hrin : r ∈ ids) by (apply (Hclosed id c r); [done|lia|done..]).
      apply list_elem_of_lookup_1 in Hrin as [k' Hk'].
      rewrite (build_hash_table_lookup ids 0 ∅ k' r) in Hcell;
        [|by apply StronglySorted_lt_NoDup|done|done].
      exists (start k'). split; [done|].
      split; [rewrite Hcell; cbn; unfold block_start; f_equal; lia|].
      split; [unfold block_start; lia|].
      right. right. split; [done|]. split; [lia|]. split; [done|].
      by exists k'.
Qed.

(** A shifted read falls on the cell of the aliased card. *)
Lemma region_read sh k id c :
  ids !! k = Some id → 0 ≤ c ≤ 52 → 0 ≤ sh ≤ n_dummy →
  sh = 0 ∨ 1 ≤ dummy_card ≤ 52 → card_allowed id (alias sh c) →
  vget HR (sh + (start k + c)) = vget HR (start k + alias sh c).
Proof.
  intros Hk Hc Hsh Hd Ha. unfold aliased_card in *.
  destruct (Z.leb_spec (c + sh) 52) as [Hle|Hgt]; [f_equal; lia|].
  destruct Hd as [->|Hd]; [lia|].
  destruct (region_cell k id dummy_card Hk Ha) as (r & v & _ & Hv & Hv1 & _).
  destruct Hreg as (_ & _ & Hcell & _ & Hdum).
  rewrite Hv. replace (sh + (start k + c)) with (start k + (c + sh)) by lia.
  apply (Hdum k id v (c + sh) Hk); [| |done|lia].
  - unfold process_min_card. destruct (_ <=? _); lia.
  - rewrite <- Hv. symmetry. apply Hcell; [done|].
    by apply process_min_card_allowed.
Qed.

(** The fan-in block is absorbing. *)
Lemma fanin_absorbing sh cards :
  Forall (λ c, 1 ≤ c + sh < 53 + n_dummy) cards →
  chain HR sh offset cards = Some offset.
Proof.
  destruct Hreg as (_ & Hfan & _).
  induction 1 as [|c cards Hc _ IH]; [done|].
  rewrite chain_cons.
  replace (sh + (offset + c)) with (offset + (c + sh)) by lia.
  rewrite (Hfan (c + sh) Hc). done.
Qed.

(** Nine look-ups from a block end on the value of the path followed. *)
Lemma chain_follow sh cards : ∀ k id,
  0 ≤ sh ≤ n_dummy → sh = 0 ∨ 1 ≤ dummy_card ≤ 52 →
  ids !! k = Some id →
  count_cards id + Z.of_nat (length cards) = 9 →
  Forall (λ c, 0 ≤ c ≤ 52) cards →
  cards_allowed_from (count_cards id) (alias sh <$> cards) →
  chain HR sh (start k) cards =
  chain_value eval_id map offset
              (follow (transition a) id (alias sh <$> cards)).
Proof.
  destruct (enumeration_range_ok a) as (l & Hl & _ & _ & Hinv & _).
  rewrite Hgen in Hl. injection Hl as <-.
  induction cards as [|c cards IH]; intros k id Hsh Hd Hk Hlen Hr Hall.
  - apply list_elem_of_lookup_2 in Hk. destruct (Hinv id Hk) as [_ [_ H8]].
    cbn [length] in Hlen. lia.
  - apply Forall_cons in Hr as [Hc Hr]. cbn [fmap list_fmap] in Hall |- *.
    destruct Hall as (Hac & Hac0 & Hall). cbn [length] in Hlen.
    assert (Hca : card_allowed id (alias sh c)) by done.
    rewrite chain_cons, (region_read sh k id c Hk Hc Hsh Hd Hca).
    destruct (region_cell k id (alias sh c) Hk Hca)
      as (r & v & Hstep & Hv & _ & Hcase).
    rewrite Hv. cbn [mbind option_bind follow]. rewrite Hstep.
    cbn [mbind option_bind].
    destruct Hcase as [[-> ->]|[(Hr0 & H8 & e & He & ->)|
                                (Hr0 & H7 & Hcnt & k' & Hk' & ->)]].
    + rewrite decide_True by done. cbn [chain_value].
      apply fanin_absorbing.
      assert (Hpos : 1 ≤ count_cards id).
      { assert (Hid : id ∈ ids) by (by eapply list_elem_of_lookup_2).
        destruct (enumerated_nonempty a ids id Hgen Hid) as [->|?]; [|done].
        destruct (first_card_not_pruned a (alias sh c)) as (r & Hr' & Hr0);
          [done|]. congruence. }
      apply (cards_allowed_from_nonzero _ (count_cards id + 1)) in Hall;
        [|lia].
      rewrite Forall_fmap in Hall. rewrite Forall_forall in Hall, Hr |- *.
      intros c' Hc'. specialize (Hall c' Hc'). specialize (Hr c' Hc').
      cbn in Hall. unfold aliased_card in Hall.
      destruct (Z.leb_spec (c' + sh) 52); lia.
    + rewrite decide_False by done.
      destruct cards as [|c' cards]; [|cbn [length] in Hlen; lia].
      cbn [fmap list_fmap follow chain_value]. rewrite He. done.
    + rewrite decide_False by done.
      apply (IH k' r); [done|done|done|lia|done|].
      by rewrite Hcnt.
Qed.

End Region.


(** ** Look-up chains in the generated table *)

Lemma cards_allowed_from_any (cards : list Z) : ∀ n,
  Forall (λ c, 1 ≤ c ≤ 52) cards → cards_allowed_from n cards.
Proof.
  induction cards as [|c cards IH]; intros n Hc; [done|].
  apply Forall_cons in Hc as [Hc Hcs]. cbn. split; [lia|].
  split; [lia|by apply IH].
Qed.

Lemma cards_in_order_allowed (cards : list Z) :
  cards_in_order cards → cards_allowed_from 0 cards.
Proof.
  intros [Hr Hnz].
  assert (Hrest : ∀ l : list Z, Forall (λ c, 0 ≤ c ≤ 52) l →
            Forall (λ c, c ≠ 0) l → Forall (λ c, 1 ≤ c ≤ 52) l).
  { intros l H1 H2. rewrite Forall_forall in H1, H2 |- *.
    intros c Hc. specialize (H1 c Hc). specialize (H2 c Hc). lia. }
  destruct cards as [|c0 [|c1 cards]].
  - done.
  - apply Forall_cons in Hr as [Hc0 _]. cbn. split; [done|]. split; [lia|done].
  - apply Forall_cons in Hr as [Hc0 Hr]. apply Forall_cons in Hr as [Hc1 Hr].
    cbn [drop] in Hnz. cbn. split; [done|]. split; [lia|].
    split; [done|]. split; [lia|].
    apply cards_allowed_from_any. by apply Hrest.
Qed.

Lemma aliased_card_zero_shift d (cards : list Z) :
  Forall (λ c, 0 ≤ c ≤ 52) cards → aliased_card 0 d <$> cards = cards.
Proof.
  induction 1 as [|c cards Hc _ IH]; [done|]. cbn [fmap list_fmap].
  rewrite IH. unfold aliased_card. rewrite Z.add_0_r.
  destruct (Z.leb_spec c 52); [done|lia].
Qed.

Lemma default_singleton_ne (x e : Z) :
  x ≠ -1 → default e (({[ -1 := x ]} : gmap Z Z) !! e) ≠ -1.
Proof.
  intros Hx. destruct (decide (e = -1)) as [->|He].
  - by rewrite lookup_singleton_eq.
  - by rewrite lookup_singleton_ne.
Qed.

Lemma default_singleton (x e : Z) :
  default e (({[ -1 := x ]} : gmap Z Z) !! e) = if decide (e = -1) then x else e.
Proof.
  destruct (decide (e = -1)) as [->|He].
  - by rewrite lookup_singleton_eq.
  - by rewrite lookup_singleton_ne.
Qed.

(** Following allowed cards keeps identifiers valid and counts them. *)
Lemma follow_valid a (cards : list Z) : ∀ id r,
  valid_id a id ∧ 0 ≤ id < 2 ^ 63 →
  cards_allowed_from (count_cards id) cards →
  count_cards id + Z.of_nat (length cards) ≤ 9 →
  follow (transition a) id cards = Some r →
  (valid_id a r ∧ 0 ≤ r < 2 ^ 63) ∧
  count_cards r = count_cards id + Z.of_nat (length cards).
Proof.
  induction cards as [|c cards IH]; intros id r Hv Hall Hlen Hf.
  - cbn in Hf. injection Hf as <-. split; [done|]. cbn. lia.
  - destruct Hall as (Hc & Hc0 & Hall). cbn [length] in Hlen.
    cbn [follow] in Hf.
    destruct (automaton_step_range a id c Hv ltac:(lia) (conj Hc Hc0))
      as (r1 & Hr1 & Hgood).
    rewrite Hr1 in Hf. cbn [mbind option_bind] in Hf.
    destruct (decide (r1 = 0)) as [|Hnz]; [done|].
    destruct (Hgood Hnz) as [Hv1 Hcnt1].
    destruct (IH r1 r Hv1) as [Hvr Hcr]; [by rewrite Hcnt1|lia|done|].
    split; [done|]. cbn [length]. lia.
Qed.

(** The three chains of the query protocol on the generated table. *)
Lemma generate_handranks_chains
    (flushes unique5 values cactus_findit cactus_to_ray : Z → Z) :
  ∃ max_rank HR offset_fr4 offset_nf,
    generate_handranks flushes unique5 values cactus_findit cactus_to_ray
      = Some (max_rank, HR) ∧
    vget HR 0 = Some offset_nf ∧ vget HR 1 = Some offset_fr4 ∧
    0 ≤ offset_fr4 ∧ 0 ≤ offset_nf ∧
    (∀ cards, length cards = 9%nat → Forall (λ c, 0 ≤ c ≤ 52) cards →
       cards_allowed_from 0 cards →
       chain HR 0 106 cards =
       chain_value eval_flush_suits {[ -1 := 0 ]} 53
                   (follow (transition FS) 0 cards)) ∧
    (∀ sh cards, 0 ≤ sh ≤ 3 → length cards = 9%nat →
       Forall (λ c, 0 ≤ c ≤ 52) cards →
       cards_allowed_from 0 (aliased_card sh 1 <$> cards) →
       chain HR sh (offset_fr4 + 56) cards =
       chain_value (λ id, Some (eval_flush_ranks flushes cactus_to_ray id).1)
                   {[ -1 := offset_fr4 ]} offset_fr4
                   (follow (transition (FR 4)) 0
                           (aliased_card sh 1 <$> cards))) ∧
    (∀ cards, length cards = 9%nat → Forall (λ c, 0 ≤ c ≤ 52) cards →
       cards_allowed_from 0 cards →
       chain HR 0 (offset_nf + 53) cards =
       chain_value (λ id, fst <$> eval_no_flush unique5 values cactus_findit
                                                cactus_to_ray id)
                   {[ -1 := offset_nf ]} offset_nf
                   (follow (transition NF) 0 cards)).
Proof.
  destruct (generate_handranks_regions flushes unique5 values cactus_findit
              cactus_to_ray)
    as (id_fs & id_fr4 & id_nf & HR & Hfs & Hfr & Hnf & Hrest).
  cbv zeta in Hrest.
  destruct Hrest as (Hgen & _ & H0 & H1 & _ & Rfs & Rfr & Rnf).
  set (offset_fr4 := 53 + 53 + Z.of_nat (length id_fs) * 53) in *.
  set (offset_nf :=
         offset_fr4 + (53 + 3) + Z.of_nat (length id_fr4) * (53 + 3)) in *.
  assert (Hfr0 : 0 ≤ offset_fr4) by (unfold offset_fr4; lia).
  assert (Hnf0 : 0 ≤ offset_nf) by (unfold offset_nf; lia).
  pose proof (enumeration_head FS id_fs Hfs) as Zfs.
  pose proof (enumeration_head (FR 4) id_fr4 Hfr) as Zfr.
  pose proof (enumeration_head NF id_nf Hnf) as Znf.
  pose proof (λ He Hm, chain_follow FS id_fs HR 53 offset_nf eval_flush_suits
                0 0 {[ -1 := 0 ]} Hfs Rfs (Z.le_refl 0) ltac:(lia) He Hm)
    as Cfs.
  pose proof (λ He Hm, chain_follow (FR 4) id_fr4 HR offset_fr4 0
                (λ id, Some (eval_flush_ranks flushes cactus_to_ray id).1)
                3 1 {[ -1 := offset_fr4 ]} Hfr Rfr ltac:(lia) Hfr0 He Hm)
    as Cfr.
  pose proof (λ He Hm, chain_follow NF id_nf HR offset_nf 0
                (λ id, fst <$> eval_no_flush unique5 values cactus_findit
                                             cactus_to_ray id)
                0 0 {[ -1 := offset_nf ]} Hnf Rnf (Z.le_refl 0) Hnf0 He Hm)
    as Cnf.
  clear Hfs Hfr Hnf Rfs Rfr Rnf.
  eexists _, HR, offset_fr4, offset_nf.
  split; [exact Hgen|]. clear Hgen.
  split; [done|]. split; [done|]. split; [done|]. split; [done|].
  split; [|split].
  - intros cards Hlen Hr Hall.
    assert (He : ∀ r, valid_id FS r → count_cards r = 9 →
                      is_Some (eval_flush_suits r))
      by (intros r Hv _; by apply eval_flush_suits_defined).
    assert (Hm : ∀ e, default e (({[ -1 := 0 ]} : gmap Z Z) !! e) ≠ -1)
      by (intros e; apply default_singleton_ne; lia).
    pose proof (Cfs He Hm 0 cards 0%nat 0 ltac:(lia) (or_introl eq_refl) Zfs)
      as C.
    rewrite count_cards_zero, Hlen, (aliased_card_zero_shift 0 cards Hr) in C.
    change (block_start 53 (53 + 0) 0) with 106 in C.
    by apply C.
  - intros sh cards Hsh Hlen Hr Hall.
    assert (He : ∀ r, valid_id (FR 4) r → count_cards r = 9 →
              is_Some (Some (eval_flush_ranks flushes cactus_to_ray r).1))
      by done.
    assert (Hd : sh = 0 ∨ 1 ≤ 1 ≤ 52) by (right; lia).
    assert (Hm : ∀ e, default e (({[ -1 := offset_fr4 ]} : gmap Z Z) !! e)
                      ≠ -1)
      by (intros e; apply default_singleton_ne; lia).
    pose proof (Cfr He Hm sh cards 0%nat 0 Hsh Hd Zfr) as C.
    rewrite count_cards_zero, Hlen in C.
    replace (block_start offset_fr4 (53 + 3) 0) with (offset_fr4 + 56) in C
      by (unfold block_start; lia).
    by apply C.
  - intros cards Hlen Hr Hall.
    assert (He : ∀ r, valid_id NF r → count_cards r = 9 →
              is_Some (fst <$> eval_no_flush unique5 values cactus_findit
                                             cactus_to_ray r)).
    { intros r Hv H9.
      destruct (eval_no_flush_defined unique5 values cactus_findit
                  cactus_to_ray r Hv H9) as [v ->]. done. }
    assert (Hm : ∀ e, default e (({[ -1 := offset_nf ]} : gmap Z Z) !! e)
                      ≠ -1)
      by (intros e; apply default_singleton_ne; lia).
    pose proof (Cnf He Hm 0 cards 0%nat 0 ltac:(lia) (or_introl eq_refl) Znf)
      as C.
    rewrite count_cards_zero, Hlen, (aliased_card_zero_shift 0 cards Hr) in C.
    replace (block_start offset_nf (53 + 0) 0) with (offset_nf + 53) in C
      by (unfold block_start; lia).
    by apply C.
Qed.


(** ** The generated table *)

(** X16. [generate_handranks] performs no access outside the vector and
    returns its size: 53 header entries and, for each automaton, one
    fan-in block and one block per identifier (53 entries, 56 for the
    flush ranks).  [HR[0]] and [HR[1]] hold the offsets of the regions
    without flush and of the flush ranks, the other header entries are 0;
    the first entry of a fan-in block holds the offset value passed to
    [process_ids] and every other entry of the block points back to the
    block. *)
Theorem generate_handranks_layout
    (flushes unique5 values cactus_findit cactus_to_ray : Z → Z) :
  ∃ id_fs id_fr4 id_nf max_rank HR,
    generate_ids (transition FS) = Some id_fs ∧
    generate_ids (transition (FR 4)) = Some id_fr4 ∧
    generate_ids (transition NF) = Some id_nf ∧
    generate_handranks flushes unique5 values cactus_findit cactus_to_ray
      = Some (max_rank, HR) ∧
    let offset_fr4 := 106 + 53 * Z.of_nat (length id_fs) in
    let offset_nf := offset_fr4 + 56 + 56 * Z.of_nat (length id_fr4) in
    max_rank = offset_nf + 53 + 53 * Z.of_nat (length id_nf) ∧
    Z.of_nat (length HR) = max_rank ∧
    vget HR 0 = Some offset_nf ∧ vget HR 1 = Some offset_fr4 ∧
    (∀ j, 2 ≤ j < 53 → vget HR j = Some 0) ∧
    vget HR 53 = Some offset_nf ∧
    (∀ c, 1 ≤ c ≤ 52 → vget HR (53 + c) = Some 53) ∧
    vget HR offset_fr4 = Some 0 ∧
    (∀ c, 1 ≤ c ≤ 55 → vget HR (offset_fr4 + c) = Some offset_fr4) ∧
    vget HR offset_nf = Some 0 ∧
    (∀ c, 1 ≤ c ≤ 52 → vget HR (offset_nf + c) = Some offset_nf).
Proof.
  destruct (generate_handranks_regions flushes unique5 values cactus_findit
              cactus_to_ray)
    as (id_fs & id_fr4 & id_nf & HR & Hfs & Hfr & Hnf & Hrest).
  cbv zeta in Hrest.
  destruct Hrest as (Hgen & Hlen & H0 & H1 & Hhead & Rfs & Rfr & Rnf).
  exists id_fs, id_fr4, id_nf. eexists _, HR.
  split; [exact Hfs|]. split; [exact Hfr|]. split; [exact Hnf|].
  split; [exact Hgen|]. clear Hfs Hfr Hnf Hgen. cbv zeta.
  replace (106 + 53 * Z.of_nat (length id_fs))
    with (53 + 53 + Z.of_nat (length id_fs) * 53) by lia.
  set (offset_fr4 := 53 + 53 + Z.of_nat (length id_fs) * 53) in *.
  replace (offset_fr4 + 56 + 56 * Z.of_nat (length id_fr4))
    with (offset_fr4 + (53 + 3) + Z.of_nat (length id_fr4) * (53 + 3)) by lia.
  set (offset_nf :=
         offset_fr4 + (53 + 3) + Z.of_nat (length id_fr4) * (53 + 3)) in *.
  destruct Rfs as (Hfs0 & Hfsfan & _). destruct Rfr as (Hfr0 & Hfrfan & _).
  destruct Rnf as (Hnf0 & Hnffan & _).
  split; [lia|]. split; [lia|]. split; [done|]. split; [done|].
  split; [done|]. split; [done|].
  split; [intros c Hc; apply Hfsfan; lia|]. split; [done|].
  split; [intros c Hc; apply Hfrfan; lia|]. split; [done|].
  intros c Hc. apply Hnffan. lia.
Qed.

Lemma follow_flush_suits_total (cards : list Z) : ∀ id,
  count_cards id + Z.of_nat (length cards) ≤ 9 →
  Forall (λ c, 0 ≤ c ≤ 52) cards →
  is_Some (follow (transition FS) id cards).
Proof.
  induction cards as [|c cards IH]; intros id Hlen Hc; [done|].
  apply Forall_cons in Hc as [Hc Hcs]. cbn [length] in Hlen.
  cbn [follow]. rewrite transition_FS.
  destruct (flush_suits_never_zero id c) as (r & -> & Hr0 & Hcnt);
    [lia|done|].
  cbn [mbind option_bind]. rewrite decide_False by done.
  rewrite <- transition_FS. apply IH; [lia|done].
Qed.

Lemma eval_flush_suits_range id suit :
  eval_flush_suits id = Some suit → suit = -1 ∨ 1 ≤ suit ≤ 4.
Proof.
  unfold eval_flush_suits, eval_flush_suits_scan.
  destruct (suit_histograms id) as [[nsp nsb]|]; [|done].
  cbn [mbind option_bind]. intros Heq. apply (inj Some) in Heq.
  destruct (scan_suits_spec nsp nsb [1; 2; 3; 4]) as [[H1 _]|[Hin _]];
    rewrite Heq in *; [by left|right].
  repeat (apply elem_of_cons in Hin as [->|Hin]; [lia|]).
  by apply elem_of_nil in Hin.
Qed.

(** X17. Indexing the generated table nine times from entry 106 with the
    cards of a hand (0 for a skipped board card in the first two places)
    ends on the flush suit of the folded hand: the value of
    [eval_flush_suits] on the identifier reached by the nine transitions,
    with -1 stored as 0.  No transition on the way is pruned. *)
Theorem flush_suit_chain
    (flushes unique5 values cactus_findit cactus_to_ray : Z → Z) :
  ∃ max_rank HR,
    generate_handranks flushes unique5 values cactus_findit cactus_to_ray
      = Some (max_rank, HR) ∧
    ∀ cards, length cards = 9%nat → cards_in_order cards →
      ∃ new_id suit,
        follow (transition FS) 0 cards = Some new_id ∧
        eval_flush_suits new_id = Some suit ∧
        (suit = -1 ∨ 1 ≤ suit ≤ 4) ∧
        chain HR 0 106 cards = Some (if decide (suit = -1) then 0 else suit).
Proof.
  destruct (generate_handranks_chains flushes unique5 values cactus_findit
              cactus_to_ray)
    as (max_rank & HR & offset_fr4 & offset_nf & Hgen & _ & _ & _ & _ &
        Cfs & _ & _).
  exists max_rank, HR. split; [exact Hgen|]. clear Hgen.
  intros cards Hlen Hord. pose proof Hord as [Hr _].
  pose proof (cards_in_order_allowed cards Hord) as Hall.
  destruct (follow_flush_suits_total cards 0) as [r Hf];
    [rewrite count_cards_zero, Hlen; lia|done|].
  destruct (follow_valid FS cards 0 r) as [[Hv _] _]; 
    [split; [apply valid_id_zero|apply zero_in_range]
    |by rewrite count_cards_zero
    |rewrite count_cards_zero, Hlen; lia|done|].
  destruct (eval_flush_suits_defined r Hv) as [suit Hs].
  exists r, suit. split; [done|]. split; [done|].
  split; [by apply eval_flush_suits_range in Hs|].
  rewrite (Cfs cards Hlen Hr Hall), Hf. cbn [chain_value]. rewrite Hs.
  cbn [mbind option_bind]. by rewrite default_singleton.
Qed.

(** X18. Indexing the table nine times from entry [HR[0] + 53] ends on
    the score [eval_no_flush] gives to the identifier reached by the nine
    transitions without flush (a score -1 is stored as the offset
    [HR[0]]), or on [HR[0]] itself when one of the transitions was
    pruned. *)
Theorem no_flush_chain
    (flushes unique5 values cactus_findit cactus_to_ray : Z → Z) :
  ∃ max_rank HR nf_base,
    generate_handranks flushes unique5 values cactus_findit cactus_to_ray
      = Some (max_rank, HR) ∧
    vget HR 0 = Some nf_base ∧
    ∀ cards, length cards = 9%nat → cards_in_order cards →
      match follow (transition NF) 0 cards with
      | Some new_id =>
          ∃ score,
            fst <$> eval_no_flush unique5 values cactus_findit cactus_to_ray
                                  new_id = Some score ∧
            chain HR 0 (nf_base + 53) cards =
              Some (if decide (score = -1) then nf_base else score)
      | None => chain HR 0 (nf_base + 53) cards = Some nf_base
      end.
Proof.
  destruct (generate_handranks_chains flushes unique5 values cactus_findit
              cactus_to_ray)
    as (max_rank & HR & offset_fr4 & offset_nf & Hgen & H0 & _ & _ & _ &
        _ & _ & Cnf).
  exists max_rank, HR, offset_nf. split; [exact Hgen|]. clear Hgen.
  split; [done|].
  intros cards Hlen Hord. pose proof Hord as [Hr _].
  pose proof (cards_in_order_allowed cards Hord) as Hall.
  rewrite (Cnf cards Hlen Hr Hall).
  destruct (follow (transition NF) 0 cards) as [r|] eqn:Hf; [|done].
  destruct (follow_valid NF cards 0 r) as [[Hv _] H9];
    [split; [apply valid_id_zero|apply zero_in_range]
    |by rewrite count_cards_zero
    |rewrite count_cards_zero, Hlen; lia|done|].
  rewrite count_cards_zero, Hlen in H9.
  destruct (eval_no_flush_defined unique5 values cactus_findit cactus_to_ray
              r Hv H9) as [[score out] He].
  exists score. cbn [chain_value]. rewrite He. cbn.
  split; [done|]. by rewrite default_singleton.
Qed.

Lemma transition_flush_ranks_shifted (flush_suit id c : Z) :
  1 ≤ flush_suit ≤ 4 → 1 ≤ c ≤ 52 →
  transition (FR 4) id (shifted_card flush_suit c) =
  transition (FR flush_suit) id c.
Proof.
  intros Hs Hc.
  rewrite (transition_unfold (FR 4)), (transition_unfold (FR flush_suit)).
  unfold add_card_to_id_flush_ranks.
  by rewrite (fold_flush_ranks_shifted flush_suit c Hs Hc).
Qed.

Lemma follow_flush_ranks_shifted (flush_suit : Z) (cards : list Z) : ∀ id,
  1 ≤ flush_suit ≤ 4 → Forall (λ c, 1 ≤ c ≤ 52) cards →
  follow (transition (FR 4)) id (shifted_card flush_suit <$> cards) =
  follow (transition (FR flush_suit)) id cards.
Proof.
  induction cards as [|c cards IH]; intros id Hs Hc;
    cbn [fmap list_fmap follow]; [reflexivity|].
  apply Forall_cons in Hc as [Hc Hcs].
  rewrite (transition_flush_ranks_shifted flush_suit id c Hs Hc).
  destruct (transition (FR flush_suit) id c) as [r|]; [|reflexivity].
  cbn [mbind option_bind]. destruct (decide (r = 0)); [reflexivity|].
  apply IH; assumption.
Qed.

Lemma cards_in_order_aliased sh (cards : list Z) :
  0 ≤ sh ≤ 3 → cards_in_order cards →
  cards_in_order (aliased_card sh 1 <$> cards).
Proof.
  intros Hsh [Hr Hnz]. split.
  - rewrite Forall_fmap. eapply Forall_impl; [exact Hr|].
    intros c Hc. cbn beta in Hc. unfold compose, aliased_card.
    destruct (Z.leb_spec (c + sh) 52); lia.
  - rewrite <- fmap_drop, Forall_fmap.
    rewrite Forall_forall in Hr, Hnz |- *. intros c Hc.
    specialize (Hnz c Hc).
    assert (Hin : c ∈ cards).
    { rewrite <- (take_drop 2 cards). apply elem_of_app. by right. }
    specialize (Hr c Hin). unfold compose, aliased_card.
    destruct (Z.leb_spec (c + sh) 52); lia.
Qed.

(** X19. The flush-rank region serves the four suits through the shifted
    pointer [HR + (4 - flush_suit)]: nine look-ups from [HR[1] + 56] end
    on the value of the path of the shifted cards in the automaton of
    suit 4, where a card shifted beyond 52 is read from a dummy slot as
    card 1; for nine cards 1..52 this is the path of the cards themselves
    in the automaton of the flush suit.  The value is the score of
    [eval_flush_ranks] on the identifier reached (-1 stored as the
    offset [HR[1]]), or [HR[1]] when a transition was pruned. *)
Theorem flush_rank_chain
    (flushes unique5 values cactus_findit cactus_to_ray : Z → Z) :
  ∃ max_rank HR fr_base,
    generate_handranks flushes unique5 values cactus_findit cactus_to_ray
      = Some (max_rank, HR) ∧
    vget HR 1 = Some fr_base ∧
    ∀ flush_suit cards,
      1 ≤ flush_suit ≤ 4 → length cards = 9%nat → cards_in_order cards →
      let score new_id :=
        let q := (eval_flush_ranks flushes cactus_to_ray new_id).1 in
        if decide (q = -1) then fr_base else q in
      chain HR (4 - flush_suit) (fr_base + 56) cards =
        Some (match follow (transition (FR 4)) 0
                           (shifted_card flush_suit <$> cards) with
              | Some new_id => score new_id
              | None => fr_base
              end) ∧
      (Forall (λ c, 1 ≤ c ≤ 52) cards →
       chain HR (4 - flush_suit) (fr_base + 56) cards =
         Some (match follow (transition (FR flush_suit)) 0 cards with
               | Some new_id => score new_id
               | None => fr_base
               end)).
Proof.
  destruct (generate_handranks_chains flushes unique5 values cactus_findit
              cactus_to_ray)
    as (max_rank & HR & offset_fr4 & offset_nf & Hgen & _ & H1 & _ & _ &
        _ & Cfr & _).
  exists max_rank, HR, offset_fr4. split; [exact Hgen|]. clear Hgen.
  split; [done|].
  intros flush_suit cards Hs Hlen Hord score. pose proof Hord as [Hr _].
  assert (Hsh : 0 ≤ 4 - flush_suit ≤ 3) by lia.
  pose proof (cards_in_order_allowed _
                (cards_in_order_aliased _ cards Hsh Hord)) as Hall.
  assert (Heq : chain HR (4 - flush_suit) (offset_fr4 + 56) cards =
            Some (match follow (transition (FR 4)) 0
                               (shifted_card flush_suit <$> cards) with
                  | Some new_id => score new_id
                  | None => offset_fr4
                  end)).
  { rewrite (Cfr (4 - flush_suit) cards Hsh Hlen Hr Hall).
    change (aliased_card (4 - flush_suit) 1) with (shifted_card flush_suit).
    destruct (follow _ 0 _) as [r|]; [|done].
    cbn [chain_value mbind option_bind]. by rewrite default_singleton. }
  split; [exact Heq|]. intros Hnz. rewrite Heq.
  by rewrite (follow_flush_ranks_shifted flush_suit cards 0 Hs Hnz).
Qed.

(** X20. The query protocol of [test_all_handranks] never reads outside
    the generated table: for nine card values 0..52 with 0 only in the
    first two places, the flush-suit chain, the chain without flush and,
    when a flush suit was found, the shifted flush-rank chain are all
    defined. *)
Theorem score_new_in_bounds
    (flushes unique5 values cactus_findit cactus_to_ray : Z → Z) :
  ∃ max_rank HR_new,
    generate_handranks flushes unique5 values cactus_findit cactus_to_ray
      = Some (max_rank, HR_new) ∧
    ∀ c, length c = 9%nat → cards_in_order c → is_Some (score_new HR_new c).
Proof.
  destruct (generate_handranks_chains flushes unique5 values cactus_findit
              cactus_to_ray)
    as (max_rank & HR & offset_fr4 & offset_nf & Hgen & H0 & H1 & _ & _ &
        Cfs & Cfr & Cnf).
  exists max_rank, HR. split; [exact Hgen|]. clear Hgen.
  intros cards Hlen Hord. pose proof Hord as [Hr _].
  pose proof (cards_in_order_allowed cards Hord) as Hall.
  assert (Hz : valid_id FS 0 ∧ 0 ≤ 0 < 2 ^ 63)
    by (split; [apply valid_id_zero|apply zero_in_range]).
  assert (Hznf : valid_id NF 0 ∧ 0 ≤ 0 < 2 ^ 63)
    by (split; [apply valid_id_zero|apply zero_in_range]).
  unfold score_new.
  (* flush suit *)
  rewrite (Cfs cards Hlen Hr Hall).
  destruct (follow_flush_suits_total cards 0) as [r Hf];
    [rewrite count_cards_zero, Hlen; lia|done|].
  destruct (follow_valid FS cards 0 r Hz) as [[Hv _] _];
    [by rewrite count_cards_zero
    |rewrite count_cards_zero, Hlen; lia|done|].
  destruct (eval_flush_suits_defined r Hv) as [suit Hsuit].
  pose proof (eval_flush_suits_range r suit Hsuit) as Hrange.
  rewrite Hf. cbn [chain_value]. rewrite Hsuit. cbn [mbind option_bind].
  rewrite default_singleton, H0. cbn [mbind option_bind].
  (* no flush *)
  rewrite (Cnf cards Hlen Hr Hall).
  assert (is_Some (chain_value
            (λ id, fst <$> eval_no_flush unique5 values cactus_findit
                                         cactus_to_ray id)
            {[ -1 := offset_nf ]} offset_nf
            (follow (transition NF) 0 cards))) as [score ->].
  { destruct (follow (transition NF) 0 cards) as [rn|] eqn:Hfn; [|done].
    destruct (follow_valid NF cards 0 rn Hznf) as [[Hvn _] H9];
      [by rewrite count_cards_zero
      |rewrite count_cards_zero, Hlen; lia|done|].
    rewrite count_cards_zero, Hlen in H9.
    destruct (eval_no_flush_defined unique5 values cactus_findit
                cactus_to_ray rn Hvn H9) as [v Hev].
    cbn [chain_value]. rewrite Hev. done. }
  cbn [mbind option_bind].
  (* flush ranks *)
  destruct (decide ((if decide (suit = -1) then 0 else suit) ≠ 0))
    as [Hfs|Hfs]; [|done].
  rewrite H1. cbn [mbind option_bind].
  destruct (decide (suit = -1)) as [|Hne]; [done|].
  assert (Hsh : 0 ≤ 4 - suit ≤ 3) by lia.
  pose proof (cards_in_order_allowed _
                (cards_in_order_aliased _ cards Hsh Hord)) as Halls.
  rewrite (Cfr (4 - suit) cards Hsh Hlen Hr Halls).
  destruct (follow (transition (FR 4)) 0 _) as [rf|];
    cbn [chain_value mbind option_bind]; done.
Qed.


(** ** The identifier of a sequence of cards *)

Lemma pad_perm n (l k : list Z) : l ≡ₚ k → pad n l ≡ₚ pad n k.
Proof.
  intros Hp. unfold pad. rewrite (Permutation_length Hp). by rewrite Hp.
Qed.

(** A transition that is not pruned returns a packed identifier. *)
Lemma transition_canonical a id c r :
  valid_id a id → count_cards id ≤ 8 → card_allowed id c →
  transition a id c = Some r → r ≠ 0 →
  pack64 (pocket (unpack64 r)) (board (unpack64 r)) = r.
Proof.
  intros Hv H8 Hc Hr Hr0.
  destruct (transition_cards a id c r Hv H8 Hc Hr Hr0)
    as (ps' & bs' & Hpack & Hp & Hb & Hlp & Hlb & _).
  destruct (transition_spec a id c Hv H8 Hc) as (r' & Hr' & Hgood).
  rewrite Hr in Hr'. injection Hr' as <-.
  destruct (Hgood Hr0) as ([Hvp Hvb] & _).
  rewrite Hp in Hvp. rewrite Hb in Hvb.
  rewrite sort_desc_Forall in Hvp, Hvb.
  rewrite Hpack. apply pack64_canonical_after_add; [| |done..].
  - eapply Forall_impl; [exact Hvp|]. apply valid_pocket_value_range.
  - eapply Forall_impl; [exact Hvb|]. apply valid_board_value_range.
Qed.

(** The cards of the identifier reached: the free board entries are filled
    first, the remaining cards go to the pocket. *)
Lemma follow_cards a (cards : list Z) : ∀ id r,
  valid_id a id ∧ 0 ≤ id < 2 ^ 63 →
  pack64 (pocket (unpack64 id)) (board (unpack64 id)) = id →
  cards_allowed_from (count_cards id) cards →
  count_cards id + Z.of_nat (length cards) ≤ 9 →
  follow (transition a) id cards = Some r →
  let free := (5 - length (board_cards id))%nat in
  board_cards r ≡ₚ board_cards id ++ (fold_card a <$> take free cards) ∧
  pocket_cards r ≡ₚ pocket_cards id ++ (fold_card a <$> drop free cards) ∧
  pack64 (pocket (unpack64 r)) (board (unpack64 r)) = r.
Proof.
  induction cards as [|c cards IH]; intros id r Hv Hcan Hall Hlen Hf free.
  - cbn [follow] in Hf. apply (inj Some) in Hf. subst r.
    rewrite take_nil, drop_nil, fmap_nil, !app_nil_r.
    split; [reflexivity|]. split; [reflexivity|exact Hcan].
  - destruct Hall as (Hc & Hc0 & Hall). cbn [length] in Hlen.
    cbn [follow] in Hf.
    destruct (automaton_step_range a id c Hv ltac:(lia) (conj Hc Hc0))
      as (r1 & Hr1 & Hgood).
    rewrite Hr1 in Hf. cbn [mbind option_bind] in Hf.
    destruct (decide (r1 = 0)) as [|Hnz]; [done|].
    destruct (Hgood Hnz) as [Hv1 Hcnt1]. destruct Hv as [Hv _].
    pose proof (transition_canonical a id c r1 Hv ltac:(lia) (conj Hc Hc0)
                  Hr1 Hnz) as Hcan1.
    destruct (transition_cards a id c r1 Hv ltac:(lia) (conj Hc Hc0) Hr1 Hnz)
      as (ps' & bs' & _ & Hp & Hb & _ & _ & Hcase).
    destruct (IH r1 r Hv1 Hcan1) as (Hbr & Hpr & Hcr);
      [by rewrite Hcnt1|lia|done|].
    assert (Hlb1 : length (board_cards r1) = length bs')
      by (by rewrite Hb, sort_desc_length).
    assert (Hpb1 : board_cards r1 ≡ₚ bs') by (rewrite Hb; apply sort_desc_perm).
    assert (Hpp1 : pocket_cards r1 ≡ₚ ps') by (rewrite Hp; apply sort_desc_perm).
    cbv zeta in Hbr, Hpr. rewrite Hlb1 in Hbr, Hpr. subst free.
    split; [|split; [|exact Hcr]].
    + etrans; [exact Hbr|]. rewrite Hpb1.
      destruct Hcase as [(-> & -> & Hlt)|(-> & -> & Hfull)].
      * rewrite length_app. cbn [length].
        replace (5 - length (board_cards id))%nat
          with (S (5 - (length (board_cards id) + 1)))%nat by lia.
        cbn [take fmap list_fmap]. by rewrite <- app_assoc.
      * rewrite Hfull. done.
    + etrans; [exact Hpr|]. rewrite Hpp1.
      destruct Hcase as [(-> & -> & Hlt)|(-> & -> & Hfull)].
      * rewrite length_app. cbn [length].
        replace (5 - length (board_cards id))%nat
          with (S (5 - (length (board_cards id) + 1)))%nat by lia.
        done.
      * rewrite Hfull. cbn [drop fmap list_fmap].
        by rewrite <- app_assoc.
Qed.

Lemma canonical_zero : pack64 (pocket (unpack64 0)) (board (unpack64 0)) = 0.
Proof. reflexivity. Qed.

(** X21. The identifier reached from the empty hand by a sequence of at
    most nine cards, none of whose transitions is pruned, is the packed
    form of the folded cards: the first five on the board, the others in
    the pocket.  It depends only on which cards are on the board and
    which are in the pocket, not on their order. *)
Theorem follow_packs_folded_cards (a : automaton) (cards : list Z) (r : Z) :
  cards_in_order cards → (length cards ≤ 9)%nat →
  follow (transition a) 0 cards = Some r →
  r = pack64 (pad 4 (fold_card a <$> drop 5 cards))
             (pad 5 (fold_card a <$> take 5 cards)) ∧
  count_cards r = Z.of_nat (length cards) ∧
  ∀ cards', cards_in_order cards' →
    take 5 cards' ≡ₚ take 5 cards → drop 5 cards' ≡ₚ drop 5 cards →
    ∀ r', follow (transition a) 0 cards' = Some r' → r' = r.
Proof.
  assert (Hclosed : ∀ l r0, cards_in_order l → (length l ≤ 9)%nat →
            follow (transition a) 0 l = Some r0 →
            r0 = pack64 (pad 4 (fold_card a <$> drop 5 l))
                        (pad 5 (fold_card a <$> take 5 l)) ∧
            count_cards r0 = Z.of_nat (length l)).
  { intros l r0 Hord Hlen Hf.
    pose proof (cards_in_order_allowed l Hord) as Hall.
    assert (Hz : valid_id a 0 ∧ 0 ≤ 0 < 2 ^ 63)
      by (split; [apply valid_id_zero|apply zero_in_range]).
    destruct (follow_cards a l 0 r0 Hz canonical_zero) as (Hb & Hp & Hcan);
      [by rewrite count_cards_zero|rewrite count_cards_zero; lia|done|].
    destruct (follow_valid a l 0 r0 Hz) as [_ Hcnt];
      [by rewrite count_cards_zero|rewrite count_cards_zero; lia|done|].
    rewrite count_cards_zero in Hcnt. split; [|lia].
    change (board_cards 0) with (@nil Z) in Hb.
    change (pocket_cards 0) with (@nil Z) in Hp.
    cbn [app length] in Hb, Hp. change (5 - 0)%nat with 5%nat in Hb, Hp.
    rewrite <- Hcan at 1. rewrite unpack64_cards. cbn [pocket board].
    apply pack64_perm; by apply pad_perm. }
  intros Hord Hlen Hf. destruct (Hclosed cards r Hord Hlen Hf) as [Hr Hcnt].
  split; [done|]. split; [done|].
  intros cards' Hord' Ht Hd r' Hf'.
  assert (Hlen' : (length cards' ≤ 9)%nat).
  { rewrite <- (take_drop 5 cards'), length_app, Ht, Hd, <- length_app,
      take_drop. done. }
  destruct (Hclosed cards' r' Hord' Hlen' Hf') as [Hr' _].
  rewrite Hr, Hr'. apply pack64_perm; apply pad_perm; by apply fmap_Permutation.
Qed.

Lemma follow_packs_folded_cards_witness :
  290499906672591364 =
    pack64 (pad 4 (fold_card FS <$> drop 5 [4; 8; 12; 16; 20; 24; 28; 32; 36]))
           (pad 5 (fold_card FS <$> take 5 [4; 8; 12; 16; 20; 24; 28; 32; 36])) ∧
  count_cards 290499906672591364 =
    Z.of_nat (length [4; 8; 12; 16; 20; 24; 28; 32; 36]) ∧
  ∀ cards', cards_in_order cards' →
    take 5 cards' ≡ₚ take 5 [4; 8; 12; 16; 20; 24; 28; 32; 36] →
    drop 5 cards' ≡ₚ drop 5 [4; 8; 12; 16; 20; 24; 28; 32; 36] →
    ∀ r', follow (transition FS) 0 cards' = Some r' → r' = 290499906672591364.
Proof.
  apply (follow_packs_folded_cards FS [4; 8; 12; 16; 20; 24; 28; 32; 36]).
  - split; repeat (apply Forall_cons; split; [lia|]); apply Forall_nil_2.
  - cbn. lia.
  - vm_compute. reflexivity.
Defined.


(** ** Hands of distinct cards *)

Lemma follow_app (step : Z → Z → option Z) (l1 l2 : list Z) : ∀ id,
  follow step id (l1 ++ l2) = r ← follow step id l1; follow step r l2.
Proof.
  induction l1 as [|c l1 IH]; intros id; [reflexivity|].
  cbn [app follow]. destruct (step id c) as [r|]; [|reflexivity].
  cbn [mbind option_bind]. destruct (decide (r = 0)); [reflexivity|].
  apply IH.
Qed.

Lemma follow_snoc_Some (step : Z → Z → option Z) (l : list Z) id c r r' :
  follow step id l = Some r → step r c = Some r' → r' ≠ 0 →
  follow step id (l ++ [c]) = Some r'.
Proof.
  intros Hl Hc Hr'. rewrite follow_app, Hl. cbn [mbind option_bind follow].
  rewrite Hc. cbn [mbind option_bind]. by rewrite decide_False.
Qed.

Lemma cards_in_order_app (l k : list Z) :
  cards_in_order (l ++ k) → cards_in_order l.
Proof.
  intros [Hr Hnz]. apply Forall_app in Hr as [Hr _]. split; [done|].
  rewrite drop_app in Hnz. by apply Forall_app in Hnz as [Hnz _].
Qed.

Lemma cards_in_order_last (l : list Z) c :
  cards_in_order (l ++ [c]) → 0 ≤ c ≤ 52 ∧ (c = 0 → (length l ≤ 1)%nat).
Proof.
  intros [Hr Hnz]. apply Forall_app in Hr as [_ Hc].
  apply Forall_cons in Hc as [Hc _]. split; [done|]. intros ->.
  destruct (decide (length l ≤ 1)%nat) as [|Hgt]; [done|exfalso].
  rewrite drop_app in Hnz. apply Forall_app in Hnz as [_ Hnz].
  replace (2 - length l)%nat with 0%nat in Hnz by lia.
  cbn [drop] in Hnz. by apply Forall_cons in Hnz as [? _].
Qed.

Lemma occurrences_fmap (f : Z → Z) v (l : list Z) :
  occurrences v (f <$> l) = Z.of_nat (length (filter (λ c, f c = v) l)).
Proof.
  unfold occurrences. induction l as [|c l IH]; [done|].
  cbn [fmap list_fmap]. rewrite !filter_cons.
  destruct (decide (f c = v)); cbn [length]; lia.
Qed.

Lemma fold_no_flush_div c : 1 ≤ c ≤ 52 → fold_no_flush c = (c - 1) / 4 + 1.
Proof.
  intros Hc. unfold fold_no_flush.
  destruct (Z.eqb_spec c 0) as [->|_]; [lia|].
  rewrite land_15_mod, Z.shiftr_div_pow2 by lia. change (2 ^ 2) with 4.
  assert (0 ≤ (c - 1) / 4 ≤ 12).
  { split; [apply Z.div_pos; lia|].
    apply Z.lt_succ_r, Z.div_lt_upper_bound; lia. }
  rewrite Z.mod_small by lia. lia.
Qed.

(** At most four cards of a deck have a given rank. *)
Lemma rank_cards_bound rank (cards : list Z) :
  1 ≤ rank ≤ 13 → Forall (λ c, 0 ≤ c ≤ 52) cards →
  NoDup (filter (λ c, c ≠ 0) cards) →
  occurrences rank (fold_no_flush <$> cards) ≤ 4.
Proof.
  intros Hrank Hr Hnd. rewrite occurrences_fmap.
  assert (Hsub : filter (λ c, fold_no_flush c = rank) cards
                 ⊆+ seqZ (4 * rank - 3) 4).
  { apply NoDup_submseteq.
    - assert (Heq : filter (λ c, fold_no_flush c = rank) cards =
                    filter (λ c, fold_no_flush c = rank)
                           (filter (λ c, c ≠ 0) cards)).
      { clear Hr Hnd. induction cards as [|c cards IH]; [done|].
        rewrite !filter_cons. destruct (decide (c ≠ 0)) as [Hc|Hc].
        - rewrite filter_cons. destruct (decide _); by rewrite IH.
        - apply dec_stable in Hc. subst c.
          rewrite decide_False; [done|].
          change (fold_no_flush 0) with 53. lia. }
      rewrite Heq. by apply NoDup_filter.
    - intros c [Hf Hc]%list_elem_of_filter.
      rewrite Forall_forall in Hr. specialize (Hr c Hc).
      destruct (decide (c = 0)) as [->|Hc0].
      { change (fold_no_flush 0) with 53 in Hf. lia. }
      rewrite fold_no_flush_div in Hf by lia.
      pose proof (Z.div_mod (c - 1) 4 ltac:(lia)).
      pose proof (Z.mod_pos_bound (c - 1) 4 ltac:(lia)).
      apply elem_of_seqZ. lia. }
  apply submseteq_length in Hsub. rewrite length_seqZ in Hsub. lia.
Qed.

(** A pruned transition without flush has met a rank five times. *)
Lemma no_flush_pruned_rank id c :
  valid_id NF id → count_cards id ≤ 8 → card_allowed id c →
  add_card_to_id_no_flush id c = Some 0 →
  ∃ rank, 1 ≤ rank ≤ 13 ∧
    4 < occurrences rank (pocket_cards id) + occurrences rank (board_cards id) +
        occurrences rank [fold_no_flush c].
Proof.
  intros Hv H8 Hc.
  destruct (no_flush_histogram id c Hv H8 Hc)
    as (n_rank & st & _ & -> & Hnz & Hval).
  destruct (existsb _ (seq 1 13)) eqn:E; [intros _|intros [= ?]; done].
  apply existsb_ranks in E as (rank & Hrank & Hgt).
  exists rank. split; [done|]. by rewrite <- Hval.
Qed.

(** Distinct cards are never pruned without flush. *)
Lemma no_flush_follows_distinct_path (cards : list Z) :
  cards_in_order cards → (length cards ≤ 9)%nat →
  NoDup (filter (λ c, c ≠ 0) cards) →
  is_Some (follow (transition NF) 0 cards).
Proof.
  induction cards as [|c l IH] using rev_ind; intros Hord Hlen Hnd;
    [by eexists|].
  rewrite length_app in Hlen. cbn [length] in Hlen.
  pose proof (cards_in_order_app l [c] Hord) as Hordl.
  destruct (cards_in_order_last l c Hord) as [Hc Hc0].
  destruct IH as [r Hf]; [done|lia| |].
  { rewrite filter_app in Hnd. by apply NoDup_app in Hnd as [? _]. }
  assert (Hz : valid_id NF 0 ∧ 0 ≤ 0 < 2 ^ 63)
    by (split; [apply valid_id_zero|apply zero_in_range]).
  pose proof (cards_in_order_allowed l Hordl) as Halll.
  destruct (follow_valid NF l 0 r Hz) as [Hv Hcnt];
    [by rewrite count_cards_zero|rewrite count_cards_zero; lia|done|].
  rewrite count_cards_zero in Hcnt.
  destruct (follow_cards NF l 0 r Hz canonical_zero) as (Hb & Hp & _);
    [by rewrite count_cards_zero|rewrite count_cards_zero; lia|done|].
  change (board_cards 0) with (@nil Z) in Hb.
  change (pocket_cards 0) with (@nil Z) in Hp.
  cbn [app length] in Hb, Hp. change (5 - 0)%nat with 5%nat in Hb, Hp.
  assert (Hca : card_allowed r c) by (split; [done|intros Hz0; apply Hc0 in Hz0; lia]).
  destruct (automaton_step_range NF r c Hv ltac:(lia) Hca) as (r' & Hr' & _).
  destruct (decide (r' = 0)) as [->|Hnz];
    [exfalso|exists r'; by apply (follow_snoc_Some _ l 0 c r r')].
  rewrite transition_NF in Hr'. destruct Hv as [Hv _].
  destruct (no_flush_pruned_rank r c Hv ltac:(lia) Hca Hr')
    as (rank & Hrank & Hgt).
  change (fold_card NF) with fold_no_flush in Hb, Hp.
  rewrite (occurrences_perm _ _ _ Hp), (occurrences_perm _ _ _ Hb) in Hgt.
  rewrite (Z.add_comm (occurrences rank (fold_no_flush <$> drop 5 l))) in Hgt.
  rewrite <- !occurrences_app, <- fmap_app, take_drop in Hgt.
  change [fold_no_flush c] with (fold_no_flush <$> [c]) in Hgt.
  rewrite <- fmap_app in Hgt.
  pose proof (rank_cards_bound rank (l ++ [c]) Hrank (proj1 Hord) Hnd). lia.
Qed.


(** X22. With pairwise distinct cards the automaton without flush never
    prunes: for at most nine card values 0..52, 0 (skip) only in the
    first two places and the other values pairwise distinct, every
    transition on the way returns a non-zero identifier. *)
Theorem no_flush_follows_distinct_cards (cards : list Z) :
  cards_in_order cards → (length cards ≤ 9)%nat →
  NoDup (filter (λ c, c ≠ 0) cards) →
  is_Some (follow (transition NF) 0 cards).
Proof. apply no_flush_follows_distinct_path. Qed.

Lemma no_flush_follows_distinct_cards_witness :
  is_Some (follow (transition NF) 0 [0; 0; 1; 2; 3; 4; 5; 6; 7]).
Proof.
  apply (no_flush_follows_distinct_cards [0; 0; 1; 2; 3; 4; 5; 6; 7]).
  - split; repeat (apply Forall_cons; split; [lia|]); apply Forall_nil_2.
  - cbn. lia.
  - vm_compute.
    repeat (apply NoDup_cons_2;
            [rewrite ?elem_of_cons, elem_of_nil; intros H; decompose [or] H;
             discriminate || done|]).
    apply NoDup_nil_2.
Defined.


(** ** The evaluators on the identifiers of a hand *)

(** The cards of the identifier reached from the empty hand. *)
Lemma follow_cards_zero a (cards : list Z) r :
  cards_in_order cards → (length cards ≤ 9)%nat →
  follow (transition a) 0 cards = Some r →
  valid_id a r ∧ count_cards r = Z.of_nat (length cards) ∧
  board_cards r ≡ₚ fold_card a <$> take 5 cards ∧
  pocket_cards r ≡ₚ fold_card a <$> drop 5 cards.
Proof.
  intros Hord Hlen Hf.
  pose proof (cards_in_order_allowed cards Hord) as Hall.
  assert (Hz : valid_id a 0 ∧ 0 ≤ 0 < 2 ^ 63)
    by (split; [apply valid_id_zero|apply zero_in_range]).
  destruct (follow_cards a cards 0 r Hz canonical_zero) as (Hb & Hp & _);
    [by rewrite count_cards_zero|rewrite count_cards_zero; lia|done|].
  destruct (follow_valid a cards 0 r Hz) as [[Hv _] Hcnt];
    [by rewrite count_cards_zero|rewrite count_cards_zero; lia|done|].
  rewrite count_cards_zero in Hcnt.
  change (board_cards 0) with (@nil Z) in Hb.
  change (pocket_cards 0) with (@nil Z) in Hp.
  cbn [app length] in Hb, Hp. change (5 - 0)%nat with 5%nat in Hb, Hp.
  split; [done|]. split; [lia|]. done.
Qed.

Lemma eval_flush_suits_flush_total id :
  valid_id FS id →
  ∃ r, eval_flush_suits id = Some r ∧
       ((r = -1 ∧ ∀ s, 1 ≤ s ≤ 4 → flush_total id s < 5) ∨
        (1 ≤ r ≤ 4 ∧ 5 ≤ flush_total id r)).
Proof.
  intros Hv.
  destruct (suit_histograms_spec id Hv) as (nsp & nsb & Hh & Hval).
  assert (Htot : ∀ s, 1 ≤ s ≤ 4 →
            nsp !!! Z.to_nat s + nsb !!! Z.to_nat s = flush_total id s).
  { intros s Hs. destruct (Hval s Hs) as [-> ->]. done. }
  assert (Hin : ∀ s, s ∈ [1; 2; 3; 4] ↔ 1 ≤ s ≤ 4).
  { intros s. rewrite !elem_of_cons, elem_of_nil. lia. }
  exists (scan_suits nsp nsb [1; 2; 3; 4]).
  unfold eval_flush_suits, eval_flush_suits_scan. rewrite Hh.
  cbn [mbind option_bind]. split; [done|].
  destruct (scan_suits_spec nsp nsb [1; 2; 3; 4]) as [[H1 H2]|[H1 H2]].
  - left. split; [done|]. intros s Hs. rewrite <- Htot by done.
    rewrite Forall_forall in H2. apply H2. by apply Hin.
  - right. apply Hin in H1. split; [done|]. by rewrite <- Htot.
Qed.

(** X23. The flush suit found for a hand: the identifier reached by the
    flush-suit transitions is evaluated to a suit 1..4 only if at least
    two of the pocket cards (the last four) and at least three of the
    board cards (the first five) have that suit, and to -1 only if no
    suit has; skipped board cards count for no suit. *)
Theorem flush_suit_of_cards (cards : list Z) (new_id suit : Z) :
  cards_in_order cards → (length cards ≤ 9)%nat →
  follow (transition FS) 0 cards = Some new_id →
  eval_flush_suits new_id = Some suit →
  let in_pocket s := occurrences s (fold_flush_suits <$> drop 5 cards) in
  let on_board s := occurrences s (fold_flush_suits <$> take 5 cards) in
  (suit = -1 ∨ 1 ≤ suit ≤ 4) ∧
  (1 ≤ suit ≤ 4 → 2 ≤ in_pocket suit ∧ 3 ≤ on_board suit) ∧
  (suit = -1 → ∀ s, 1 ≤ s ≤ 4 → in_pocket s < 2 ∨ on_board s < 3).
Proof.
  intros Hord Hlen Hf He in_pocket on_board.
  destruct (follow_cards_zero FS cards new_id Hord Hlen Hf)
    as (Hv & _ & Hb & Hp).
  change (fold_card FS) with fold_flush_suits in Hb, Hp.
  assert (Htot : ∀ s, 1 ≤ s ≤ 4 →
            flush_total new_id s = Z.min (in_pocket s) 2 + Z.min (on_board s) 3).
  { intros s Hs. unfold flush_total.
    rewrite suit_count_no_skip by (unfold SKIP_BOARD; lia).
    by rewrite (suit_count_perm _ _ _ Hp), (suit_count_perm _ _ _ Hb). }
  destruct (eval_flush_suits_flush_total new_id Hv) as (r & Hr & Hcase).
  rewrite He in Hr. injection Hr as <-.
  destruct Hcase as [[-> Hnone]|[Hs Hsome]].
  - split; [by left|]. split; [lia|]. intros _ s Hs.
    specialize (Hnone s Hs). rewrite Htot in Hnone by done. lia.
  - split; [by right|]. rewrite Htot in Hsome by done.
    split; [intros _; lia|lia].
Qed.

Lemma flush_suit_of_cards_witness :
  let in_pocket s :=
    occurrences s (fold_flush_suits <$> drop 5 [4; 8; 12; 16; 20; 24; 28; 3; 7]) in
  let on_board s :=
    occurrences s (fold_flush_suits <$> take 5 [4; 8; 12; 16; 20; 24; 28; 3; 7]) in
  (4 = -1 ∨ 1 ≤ 4 ≤ 4) ∧
  (1 ≤ 4 ≤ 4 → 2 ≤ in_pocket 4 ∧ 3 ≤ on_board 4) ∧
  (4 = -1 → ∀ s, 1 ≤ s ≤ 4 → in_pocket s < 2 ∨ on_board s < 3).
Proof.
  apply (flush_suit_of_cards [4; 8; 12; 16; 20; 24; 28; 3; 7]
           217879362681242116 4).
  - split; repeat (apply Forall_cons; split; [lia|]); apply Forall_nil_2.
  - cbn. lia.
  - vm_compute. reflexivity.
  - vm_compute. reflexivity.
Defined.

Lemma skip_board_pad (l : list Z) :
  (length l ≤ 5)%nat →
  skip_board (pad 5 l) =
    (pad 5 (filter (λ v, v ≠ SKIP_BOARD) l),
     (5 - (length l - length (filter (λ v, v ≠ SKIP_BOARD) l)))%nat).
Proof.
  intros Hb. rewrite skip_board_spec by by apply pad_length.
  pose proof (length_filter (λ v : Z, v ≠ SKIP_BOARD) l) as Hf.
  assert (Hz : ∀ n, filter (λ v : Z, v ≠ SKIP_BOARD) (replicate n 0)
                    = replicate n 0).
  { intros n. apply filter_all. apply Forall_replicate.
    unfold SKIP_BOARD. lia. }
  unfold pad at 2 4. rewrite filter_app, Hz.
  unfold pad. rewrite length_app, !length_replicate, <- app_assoc.
  rewrite <- replicate_add. f_equal; [f_equal; f_equal; lia|].
  rewrite filter_app, Hz, length_app, length_replicate. lia.
Qed.

Lemma occurrences_filter_ne v (l : list Z) :
  Z.of_nat (length (filter (λ x, x ≠ v) l)) =
  Z.of_nat (length l) - occurrences v l.
Proof.
  unfold occurrences. induction l as [|x l IH]; [done|].
  rewrite !filter_cons. destruct (decide (x ≠ v)) as [Hx|Hx].
  - rewrite decide_False by done. cbn [length]. lia.
  - apply dec_stable in Hx. rewrite decide_True by done. cbn [length]. lia.
Qed.

Lemma occurrences_absent v (l : list Z) :
  Forall (λ x, x ≠ v) l → occurrences v l = 0.
Proof.
  unfold occurrences. induction 1 as [|x l Hx _ IH]; [done|].
  rewrite filter_cons, decide_False by done. exact IH.
Qed.

Lemma fold_card_skip_iff a c :
  0 ≤ c ≤ 52 → fold_card a c = SKIP_BOARD ↔ c = 0.
Proof.
  intros Hc. destruct (fold_card_valid a c Hc) as [[-> ->]|[Hne Hf]]; [done|].
  split; [|done]. intros Heq. rewrite Heq in Hf.
  destruct a; cbn in Hf; unfold SKIP_BOARD in Hf; lia.
Qed.

(** The skipped places of a hand are its skip sentinels on the board. *)
Lemma skips_of_cards a (cards : list Z) :
  cards_in_order cards →
  occurrences SKIP_BOARD (fold_card a <$> take 5 cards) = occurrences 0 cards ∧
  0 ≤ occurrences 0 cards ≤ 2.
Proof.
  intros [Hr Hnz].
  assert (Hfold : ∀ l : list Z, Forall (λ c, 0 ≤ c ≤ 52) l →
            occurrences SKIP_BOARD (fold_card a <$> l) = occurrences 0 l).
  { intros l Hl. rewrite occurrences_fmap. unfold occurrences.
    f_equal. apply length_filter_ext.
    eapply Forall_impl; [exact Hl|]. intros c Hc. cbn beta.
    by apply fold_card_skip_iff. }
  assert (H2 : occurrences 0 cards = occurrences 0 (take 2 cards)).
  { rewrite <- (take_drop 2 cards) at 1.
    rewrite occurrences_app, (occurrences_absent 0 (drop 2 cards)) by done.
    lia. }
  split.
  - rewrite Hfold by by apply Forall_take.
    rewrite <- (take_drop 2 (take 5 cards)), occurrences_app.
    rewrite take_take. change (2 `min` 5)%nat with 2%nat.
    rewrite skipn_firstn_comm.
    rewrite (occurrences_absent 0 (take _ (drop 2 cards)))
      by by apply Forall_take.
    lia.
  - rewrite H2. split; [apply occurrences_nonneg|].
    pose proof (suit_count_le_length 0 (take 2 cards)) as Hle.
    rewrite <- occurrences_suit_count in Hle.
    rewrite length_take in Hle. lia.
Qed.

(** With at most two skip sentinels the evaluator scores the hand. *)
Lemma eval_no_flush_silent unique5 values cactus_findit cactus_to_ray id :
  valid_id NF id → count_cards id = 9 →
  (3 ≤ length (filter (λ v, v ≠ SKIP_BOARD) (board_cards id)))%nat →
  ∃ score, eval_no_flush unique5 values cactus_findit cactus_to_ray id
           = Some (score, []).
Proof.
  intros [Hvp Hvb] H9 H3. unfold eval_no_flush.
  destruct (cards_range id) as (_ & _ & Hlp & Hlb).
  rewrite count_cards_cards in H9.
  assert (Hlp4 : length (pocket_cards id) = 4%nat) by lia.
  assert (Hlb5 : length (board_cards id) = 5%nat) by lia.
  rewrite unpack64_cards. cbn [n_pocket n_board pocket board].
  rewrite (pad_full 5 (board_cards id)) by done.
  rewrite skip_board_spec by done.
  set (bs := filter (λ v, v ≠ SKIP_BOARD) (board_cards id)) in *.
  cbv zeta.
  assert ((length (pocket_cards id) <? 4)%nat || (length bs <? 3)%nat = false)
    as ->.
  { apply orb_false_iff. split; apply Nat.ltb_ge; lia. }
  assert (Hp : is_Some (foldM resuit_step (pad 4 (pocket_cards id), 0)
                              (seq 0 (length (pocket_cards id))))).
  { apply resuit_Some; [lia|]. intros i Hi.
    pose proof (lookup_total_pad_lt 4 (pocket_cards id) i ltac:(lia)) as Hin.
    rewrite Forall_forall in Hvp. specialize (Hvp _ Hin).
    unfold valid_pocket_value in Hvp. lia. }
  destruct Hp as [[pk suit] Hp]. rewrite Hp. cbn [mbind option_bind].
  pose proof (resuit_suit _ _ _ _ _ Hp) as Hsuit.
  assert (Hb : is_Some (foldM resuit_step (pad 5 bs, suit)
                              (seq 0 (length bs)))).
  { apply resuit_Some; [lia|]. intros i Hi.
    pose proof (lookup_total_pad_lt 5 bs i ltac:(lia)) as Hin.
    apply list_elem_of_filter in Hin as [Hns Hin].
    rewrite Forall_forall in Hvb. destruct (Hvb _ Hin) as [H|H]; [|done].
    unfold valid_pocket_value in H. lia. }
  destruct Hb as [[bd suit'] Hb]. rewrite Hb. cbn [mbind option_bind].
  by eexists.
Qed.

(** X24. On the identifier of a nine-place hand, [eval_no_flush] never
    takes its error branch and writes nothing: the pocket holds 4 cards,
    [skip_board] leaves 5 minus the number of skipped places on the
    board, so that 9, 8 or 7 cards are counted and the number of board
    triples tried is 10, 4 or 1. *)
Theorem eval_no_flush_on_hands
    (unique5 values cactus_findit cactus_to_ray : Z → Z)
    (cards : list Z) (new_id : Z) :
  cards_in_order cards → length cards = 9%nat →
  follow (transition NF) 0 cards = Some new_id →
  let h := unpack64 new_id in
  let skipped := occurrences 0 cards in
  n_pocket h = 4%nat ∧
  Z.of_nat (skip_board (board h)).2 = 5 - skipped ∧
  n_board_perms_of (n_pocket h + (skip_board (board h)).2) =
    (if decide (skipped = 0) then 10 else if decide (skipped = 1) then 4
     else 1) ∧
  ∃ score, eval_no_flush unique5 values cactus_findit cactus_to_ray new_id
           = Some (score, []).
Proof.
  intros Hord Hlen Hf. cbv zeta.
  destruct (follow_cards_zero NF cards new_id Hord ltac:(lia) Hf)
    as (Hv & Hcnt & Hb & Hp).
  destruct (skips_of_cards NF cards Hord) as [Hskip Hrange].
  rewrite <- (occurrences_perm _ _ _ Hb) in Hskip.
  destruct (cards_range new_id) as (_ & _ & Hlp & Hlb).
  rewrite Hlen in Hcnt. pose proof Hcnt as H9.
  rewrite count_cards_cards in Hcnt.
  assert (Hlp4 : length (pocket_cards new_id) = 4%nat) by lia.
  assert (Hlb5 : length (board_cards new_id) = 5%nat) by lia.
  pose proof (occurrences_filter_ne SKIP_BOARD (board_cards new_id)) as Hkept.
  rewrite Hlb5, Hskip in Hkept.
  rewrite unpack64_cards. cbn [n_pocket board].
  rewrite skip_board_pad by done. cbn [snd]. rewrite Hlp4, Hlb5.
  set (kept := length (filter (λ v, v ≠ SKIP_BOARD) (board_cards new_id))) in *.
  set (skipped := occurrences 0 cards) in *.
  split; [done|]. split; [lia|]. split.
  { unfold n_board_perms_of.
    destruct (decide (skipped = 0)) as [H0|H0];
      [|destruct (decide (skipped = 1)) as [H1|H1]].
    - replace kept with 5%nat by lia. done.
    - replace kept with 4%nat by lia. done.
    - replace kept with 3%nat by lia. done. }
  apply eval_no_flush_silent; [done|done|]. fold kept. lia.
Qed.

Lemma eval_no_flush_on_hands_witness :
  let h := unpack64 436321708054479541 in
  let skipped := occurrences 0 [0; 5; 9; 13; 17; 21; 25; 29; 33] in
  n_pocket h = 4%nat ∧
  Z.of_nat (skip_board (board h)).2 = 5 - skipped ∧
  n_board_perms_of (n_pocket h + (skip_board (board h)).2) =
    (if decide (skipped = 0) then 10 else if decide (skipped = 1) then 4
     else 1) ∧
  ∃ score, eval_no_flush (λ _, 0) (λ _, 0) (λ _, 0) (λ x, x)
                         436321708054479541 = Some (score, []).
Proof.
  apply (eval_no_flush_on_hands (λ _, 0) (λ _, 0) (λ _, 0) (λ x, x)
           [0; 5; 9; 13; 17; 21; 25; 29; 33] 436321708054479541).
  - split; repeat (apply Forall_cons; split; [lia|]); apply Forall_nil_2.
  - reflexivity.
  - vm_compute. reflexivity.
Defined.


(** ** A flush that was found is scored *)

Lemma length_filter_fmap (P : Z → Prop) `{∀ x, Decision (P x)}
    (f : Z → Z) (l : list Z) :
  length (filter P (f <$> l)) = length (filter (λ c, P (f c)) l).
Proof.
  induction l as [|c l IH]; [done|]. cbn [fmap list_fmap].
  rewrite !filter_cons. destruct (decide (P (f c))); cbn [length]; lia.
Qed.

(** The value stored for a card read through the shifted pointer. *)
Lemma shifted_fold (s c : Z) :
  1 ≤ s ≤ 4 → 0 ≤ c ≤ 52 →
  let f := fold_flush_ranks (shifted_card s c) 4 in
  (c ≠ 0 ∧ fold_flush_suits c = s → 2 ≤ f ≤ 14 ∧ c = 4 * (f - 2) + s) ∧
  (¬ (c ≠ 0 ∧ fold_flush_suits c = s) → f = 1 ∨ f = 53).
Proof.
  intros Hs Hc.
  assert (Hall : forallb (λ s, forallb (λ c,
            let f := fold_flush_ranks (shifted_card s c) 4 in
            if negb (c =? 0) && (fold_flush_suits c =? s)
            then (2 <=? f) && (f <=? 14) && (c =? 4 * (f - 2) + s)
            else (f =? 1) || (f =? 53))
            (seqZ 0 53)) (seqZ 1 4) = true) by (vm_compute; reflexivity).
  apply Is_true_true, forallb_True in Hall. rewrite Forall_forall in Hall.
  assert (Hin : s ∈ seqZ 1 4) by (apply elem_of_seqZ; lia).
  specialize (Hall s Hin). apply forallb_True in Hall.
  rewrite Forall_forall in Hall.
  assert (Hin' : c ∈ seqZ 0 53) by (apply elem_of_seqZ; lia).
  specialize (Hall c Hin'). cbv zeta in Hall |- *.
  set (f := fold_flush_ranks (shifted_card s c) 4) in *.
  destruct (Z.eqb_spec c 0) as [Hc0|Hc0],
           (Z.eqb_spec (fold_flush_suits c) s) as [Hfs|Hfs];
    cbn [negb andb] in Hall; apply Is_true_true in Hall;
    try (apply orb_true_iff in Hall; split; [tauto|intros _; lia]).
  apply andb_true_iff in Hall as [Hall H3].
  apply andb_true_iff in Hall as [H1 H2]. split; [intros _; lia|tauto].
Qed.

Lemma suited_cards_app s (l k : list Z) :
  suited_cards s (l ++ k) = suited_cards s l + suited_cards s k.
Proof. unfold suited_cards. rewrite filter_app, length_app. lia. Qed.

Lemma suited_cards_bounds s (l : list Z) :
  0 ≤ suited_cards s l ≤ Z.of_nat (length l).
Proof.
  unfold suited_cards.
  pose proof (length_filter (λ c, c ≠ 0 ∧ fold_flush_suits c = s) l). lia.
Qed.

Lemma suited_cards_flush_suits s (l : list Z) :
  1 ≤ s ≤ 4 → occurrences s (fold_flush_suits <$> l) = suited_cards s l.
Proof.
  intros Hs. rewrite occurrences_fmap. unfold suited_cards. f_equal.
  apply length_filter_ext. apply Forall_forall. intros c _. split; [|tauto].
  intros Hf. split; [|done]. intros ->.
  change (fold_flush_suits 0) with 53 in Hf. lia.
Qed.

Lemma suited_cards_shifted s (l : list Z) :
  1 ≤ s ≤ 4 → Forall (λ c, 0 ≤ c ≤ 52) l →
  count_suited (fold_card (FR 4) <$> (shifted_card s <$> l)) =
  suited_cards s l.
Proof.
  intros Hs Hl. unfold count_suited, suited_cards. f_equal.
  rewrite <- list_fmap_compose, length_filter_fmap.
  apply length_filter_ext. eapply Forall_impl; [exact Hl|].
  intros c Hc. cbn beta in Hc |- *. unfold compose.
  change (fold_card (FR 4) (shifted_card s c))
    with (fold_flush_ranks (shifted_card s c) 4).
  destruct (shifted_fold s c Hs Hc) as [Hyes Hno].
  destruct (decide (c ≠ 0 ∧ fold_flush_suits c = s)) as [Hd|Hd].
  - specialize (Hyes Hd). tauto.
  - specialize (Hno Hd). split; [lia|tauto].
Qed.

Lemma is_duplicate_elem (f : Z) (l : list Z) :
  existsb (is_duplicate f) l = true → f ∈ l ∧ f ≠ 1 ∧ f ≠ 53.
Proof.
  intros (v & Hv & Hd)%existsb_exists. apply list_elem_of_In in Hv.
  unfold is_duplicate, ANY_CARD, SKIP_BOARD in Hd.
  apply andb_true_iff in Hd as [Hd H3]. apply andb_true_iff in Hd as [H1 H2].
  apply negb_true_iff in H1, H2.
  assert (v = f) by lia. subst v. split; [done|lia].
Qed.

Lemma flush_unreachable_cards_true s (ps bs : list Z) :
  Forall (valid_pocket_value (FR s)) ps →
  Forall (valid_board_value (FR s)) bs →
  flush_unreachable_cards ps bs = true →
  (length bs = 4%nat ∧ count_suited bs ≤ 1) ∨
  (length bs = 5%nat ∧ count_suited bs ≤ 2) ∨
  (length bs = 5%nat ∧ length ps = 3%nat ∧ count_suited ps ≤ 0) ∨
  (length bs = 5%nat ∧ length ps = 4%nat ∧ count_suited ps ≤ 1).
Proof.
  intros Hp Hb. unfold flush_unreachable_cards. cbv zeta.
  rewrite (count_suited_pocket s ps Hp), (count_suited_board s bs Hb).
  rewrite !orb_true_iff, !andb_true_iff, !Nat.eqb_eq, !Z.leb_le, Z.eqb_eq.
  intros [[[H|H]|H]|H]; [left|right; left|right; right; left
                        |right; right; right]; lia.
Qed.

(** The successor cards of a prefix. *)
Lemma add_cards_prefix (f : Z) (g : Z → Z) (l : list Z) c (ps bs ps' bs' : list Z) :
  bs ≡ₚ g <$> take 5 l → ps ≡ₚ g <$> drop 5 l → f = g c →
  add_cards f ps bs = Some (ps', bs') →
  bs' ≡ₚ g <$> take 5 (l ++ [c]) ∧ ps' ≡ₚ g <$> drop 5 (l ++ [c]).
Proof.
  intros Hb Hp -> Hadd. unfold add_cards in Hadd.
  assert (Hlb : length bs = (length l `min` 5)%nat)
    by (rewrite Hb, length_fmap, length_take; lia).
  assert (Hlp : length ps = (length l - 5)%nat)
    by (rewrite Hp, length_fmap, length_drop; lia).
  rewrite take_app, drop_app.
  destruct (Nat.ltb_spec (length bs) 5) as [Hlt|Hge].
  - injection Hadd as <- <-.
    replace (5 - length l)%nat with (S (4 - length l)) by lia.
    cbn [take drop]. rewrite take_nil, drop_nil, fmap_app, app_nil_r.
    cbn [fmap list_fmap]. split; [by rewrite Hb|].
    rewrite Hp. by rewrite (drop_ge l 5) by lia.
  - destruct (Nat.ltb_spec (length ps) 4) as [Hlt4|Hge4]; [|done].
    injection Hadd as <- <-.
    replace (5 - length l)%nat with 0%nat by lia.
    cbn [take drop]. rewrite app_nil_r, fmap_app.
    cbn [fmap list_fmap]. split; [done|]. by rewrite Hp.
Qed.

(** The flush-rank path of a hand whose flush suit has at least three
    board cards and two pocket cards is never pruned. *)
Lemma flush_rank_path_unpruned (s : Z) (cards : list Z) :
  1 ≤ s ≤ 4 → cards_in_order cards → length cards = 9%nat →
  NoDup (filter (λ c, c ≠ 0) cards) →
  3 ≤ suited_cards s (take 5 cards) → 2 ≤ suited_cards s (drop 5 cards) →
  ∀ l rest, cards = l ++ rest →
    is_Some (follow (transition (FR 4)) 0 (shifted_card s <$> l)).
Proof.
  intros Hs Hord Hlen Hnd H3 H2.
  induction l as [|c l IH] using rev_ind; intros rest Hcards; [by eexists|].
  destruct (IH (c :: rest)) as [r Hf]; [by rewrite Hcards, <- app_assoc|].
  assert (Hordp : cards_in_order (l ++ [c]))
    by (rewrite Hcards in Hord; by apply cards_in_order_app in Hord).
  assert (Hlenp : (length l + 1 + length rest = 9)%nat).
  { rewrite Hcards, !length_app in Hlen. cbn [length] in Hlen. lia. }
  assert (Hsh : 0 ≤ 4 - s ≤ 3) by lia.
  pose proof (cards_in_order_aliased (4 - s) (l ++ [c]) Hsh Hordp) as Hordp'.
  change (aliased_card (4 - s) 1) with (shifted_card s) in Hordp'.
  rewrite fmap_app in Hordp'. cbn [fmap list_fmap] in Hordp'.
  pose proof (cards_in_order_app _ _ Hordp') as Hordl'.
  destruct (cards_in_order_last _ _ Hordp') as [Hc' Hc0'].
  rewrite length_fmap in Hc0'.
  destruct (follow_cards_zero (FR 4) (shifted_card s <$> l) r Hordl')
    as (Hv & Hcnt & Hb & Hp); [rewrite length_fmap; lia|done|].
  rewrite length_fmap in Hcnt.
  rewrite <- fmap_take in Hb. rewrite <- fmap_drop in Hp.
  assert (Hca : card_allowed r (shifted_card s c))
    by (split; [done|intros Hz0; apply Hc0' in Hz0; lia]).
  assert (Hvr : valid_id (FR 4) r ∧ 0 ≤ r < 2 ^ 63).
  { assert (Hz : valid_id (FR 4) 0 ∧ 0 ≤ 0 < 2 ^ 63)
      by (split; [apply valid_id_zero|apply zero_in_range]).
    destruct (follow_valid (FR 4) (shifted_card s <$> l) 0 r Hz) as [? _];
      [rewrite count_cards_zero; by apply cards_in_order_allowed
      |rewrite count_cards_zero, length_fmap; lia|done|done]. }
  destruct (automaton_step_range (FR 4) r (shifted_card s c) Hvr ltac:(lia) Hca)
    as (r' & Hr' & _).
  rewrite fmap_app. cbn [fmap list_fmap].
  destruct (decide (r' = 0)) as [->|Hnz];
    [exfalso|exists r'; by apply (follow_snoc_Some _ _ 0 _ r r')].
  (* the pruned transition is impossible *)
  destruct Hord as [Hrange _]. rewrite Hcards in Hrange.
  apply Forall_app in Hrange as [Hrange _].
  apply Forall_app in Hrange as [Hrl Hrc]. apply Forall_cons in Hrc as [Hrc _].
  set (g := λ c, fold_card (FR 4) (shifted_card s c)).
  assert (Hbg : board_cards r ≡ₚ g <$> take 5 l)
    by (by rewrite Hb, <- list_fmap_compose).
  assert (Hpg : pocket_cards r ≡ₚ g <$> drop 5 l)
    by (by rewrite Hp, <- list_fmap_compose).
  rewrite (transition_unfold (FR 4)), flush_ranks_cards in Hr'.
  cbv zeta in Hr'.
  change (fold_flush_ranks (shifted_card s c) 4) with (g c) in Hr'.
  assert (Hdup : ∀ L : list Z, (∀ v, v ∈ L → ∃ c0, c0 ∈ l ∧ g c0 = v) →
            existsb (is_duplicate (g c)) L = true → False).
  { intros L HL (Hin & Hn1 & Hn53)%is_duplicate_elem.
    destruct (HL _ Hin) as (c0 & Hc0 & Hg0).
    rewrite Forall_forall in Hrl. pose proof (Hrl c0 Hc0) as Hr0.
    destruct (shifted_fold s c Hs Hrc) as [Hyes Hno].
    destruct (shifted_fold s c0 Hs Hr0) as [Hyes0 Hno0].
    cbv zeta in Hyes, Hno, Hyes0, Hno0.
    change (fold_flush_ranks (shifted_card s c) 4) with (g c) in Hyes, Hno.
    change (fold_flush_ranks (shifted_card s c0) 4) with (g c0) in Hyes0, Hno0.
    destruct (decide (c ≠ 0 ∧ fold_flush_suits c = s)) as [Hd|Hd];
      [|specialize (Hno Hd); lia].
    destruct (decide (c0 ≠ 0 ∧ fold_flush_suits c0 = s)) as [Hd0|Hd0];
      [|specialize (Hno0 Hd0); lia].
    specialize (Hyes Hd). specialize (Hyes0 Hd0).
    assert (c0 = c) by lia. subst c0.
    rewrite Hcards, <- app_assoc, filter_app in Hnd.
    apply NoDup_app in Hnd as (_ & Hdisj & _).
    apply (Hdisj c).
    - apply list_elem_of_filter. tauto.
    - apply list_elem_of_filter. split; [tauto|]. apply elem_of_app. left.
      apply list_elem_of_here. }
  destruct (existsb _ (pocket_cards r)) eqn:Ep.
  { apply (Hdup (pocket_cards r)); [|done]. intros v Hin.
    rewrite Hpg in Hin. apply list_elem_of_fmap in Hin as (c0 & -> & Hc0).
    exists c0. split; [|done]. rewrite <- (take_drop 5 l).
    apply elem_of_app. by right. }
  destruct (existsb _ (board_cards r)) eqn:Eb.
  { apply (Hdup (board_cards r)); [|done]. intros v Hin.
    rewrite Hbg in Hin. apply list_elem_of_fmap in Hin as (c0 & -> & Hc0).
    exists c0. split; [|done]. rewrite <- (take_drop 5 l).
    apply elem_of_app. by left. }
  destruct (cards_range r) as (_ & _ & Hlp & Hlb).
  destruct (add_cards_Some (g c) (pocket_cards r) (board_cards r))
    as [[ps' bs'] Hadd]; [rewrite count_cards_cards in Hcnt; lia|done..|].
  rewrite Hadd in Hr'. cbn [mbind option_bind fst snd] in Hr'.
  destruct Hvr as [Hvr _].
  destruct (packed_valid (FR 4) r (shifted_card s c) ps' bs' Hvr Hca Hadd)
    as (_ & _ & Hpos).
  cbv zeta in Hpos.
  destruct (flush_unreachable_cards ps' bs') eqn:Eu;
    [|injection Hr' as Hr'; lia].
  clear Hr' Hpos Ep Eb Hdup.
  destruct (add_cards_prefix (g c) g l c _ _ ps' bs' Hbg Hpg eq_refl Hadd)
    as [Hb' Hp'].
  set (p := l ++ [c]) in *.
  assert (Hrp : Forall (λ c, 0 ≤ c ≤ 52) p)
    by (apply Forall_app; split; [done|by constructor]).
  assert (Hgv : ∀ c0, 0 ≤ c0 ≤ 52 →
            valid_board_value (FR 4) (g c0) ∧
            (c0 ≠ 0 → valid_pocket_value (FR 4) (g c0))).
  { intros c0 Hc0. destruct (shifted_fold s c0 Hs Hc0) as [Hyes Hno].
    cbv zeta in Hyes, Hno.
    change (fold_flush_ranks (shifted_card s c0) 4) with (g c0) in Hyes, Hno.
    destruct (decide (c0 ≠ 0 ∧ fold_flush_suits c0 = s)) as [Hd|Hd].
    - specialize (Hyes Hd).
      split; [left|intros _]; cbn [valid_pocket_value]; lia.
    - destruct (Hno Hd) as [H1|H53].
      + split; [left|intros _]; cbn [valid_pocket_value]; lia.
      + split; [by right|]. intros Hne. exfalso.
        assert (Hsc : 0 ≤ shifted_card s c0 ≤ 52).
        { unfold shifted_card, aliased_card.
          destruct (Z.leb_spec (c0 + (4 - s)) 52); lia. }
        apply (fold_card_skip_iff (FR 4) _ Hsc) in H53.
        unfold shifted_card, aliased_card in H53.
        destruct (Z.leb_spec (c0 + (4 - s)) 52); lia. }
  assert (Hvb' : Forall (valid_board_value (FR 4)) bs').
  { rewrite Hb', Forall_fmap. eapply Forall_impl; [by apply Forall_take|].
    intros c0 Hc0. by apply Hgv. }
  assert (Hvp' : Forall (valid_pocket_value (FR 4)) ps').
  { rewrite Hp', Forall_fmap. destruct Hordp as [_ Hnzp].
    rewrite Forall_forall in Hrp, Hnzp |- *. intros c0 Hc0.
    assert (Hin2 : c0 ∈ drop 2 p).
    { replace (drop 5 p) with (drop 3 (drop 2 p)) in Hc0
        by (by rewrite drop_drop).
      rewrite <- (take_drop 3 (drop 2 p)). apply elem_of_app. by right. }
    assert (Hin : c0 ∈ p).
    { rewrite <- (take_drop 2 p). apply elem_of_app. by right. }
    apply (Hgv c0 (Hrp c0 Hin)). by apply Hnzp. }
  assert (Hcb : count_suited bs' = suited_cards s (take 5 p)).
  { unfold count_suited. rewrite Hb'.
    replace (g <$> take 5 p)
      with (fold_card (FR 4) <$> (shifted_card s <$> take 5 p))
      by (by rewrite <- list_fmap_compose).
    apply (suited_cards_shifted s); [done|by apply Forall_take]. }
  assert (Hcp : count_suited ps' = suited_cards s (drop 5 p)).
  { unfold count_suited. rewrite Hp'.
    replace (g <$> drop 5 p)
      with (fold_card (FR 4) <$> (shifted_card s <$> drop 5 p))
      by (by rewrite <- list_fmap_compose).
    apply (suited_cards_shifted s); [done|by apply Forall_drop]. }
  assert (Hlb' : length bs' = (length p `min` 5)%nat)
    by (rewrite Hb', length_fmap, length_take; lia).
  assert (Hlp' : length ps' = (length p - 5)%nat)
    by (rewrite Hp', length_fmap, length_drop; lia).
  assert (Hlp9 : (length p + length rest = 9)%nat)
    by (unfold p; rewrite length_app; cbn [length]; lia).
  rewrite Hcards in H3, H2. fold p in H3, H2.
  rewrite take_app, suited_cards_app in H3.
  rewrite drop_app, suited_cards_app in H2.
  pose proof (suited_cards_bounds s (take (5 - length p) rest)) as B3.
  pose proof (suited_cards_bounds s (drop (5 - length p) rest)) as B2.
  rewrite length_take in B3. rewrite length_drop in B2.
  destruct (flush_unreachable_cards_true 4 ps' bs' Hvp' Hvb' Eu)
    as [H|[H|[H|H]]]; lia.
Qed.

(** *** The evaluator on a hand with a flush *)

Lemma StronglySorted_filter_desc (P : Z → Prop) `{∀ x, Decision (P x)}
    (l : list Z) :
  StronglySorted (flip Z.le) l → StronglySorted (flip Z.le) (filter P l).
Proof.
  induction 1 as [|x l Hs IH Hx]; [constructor|].
  rewrite filter_cons. destruct (decide (P x)); [|done].
  constructor; [done|]. rewrite Forall_forall in Hx |- *.
  intros y [_ Hy]%list_elem_of_filter. by apply Hx.
Qed.

Lemma filter_none (P : Z → Prop) `{∀ x, Decision (P x)} (l : list Z) :
  Forall (λ x, ¬ P x) l → filter P l = [].
Proof.
  induction 1 as [|x l Hx _ IH]; [done|].
  by rewrite filter_cons, decide_False.
Qed.

Lemma Sorted_desc_strongly (l : list Z) :
  Sorted (flip Z.le) l → StronglySorted (flip Z.le) l.
Proof.
  apply Sorted_StronglySorted. intros x y z. unfold flip. lia.
Qed.

(** In a descending list the cards of the flush suit come first. *)
Lemma sorted_desc_top (l : list Z) :
  StronglySorted (flip Z.le) l → Forall (λ v, 1 ≤ v ≤ 14) l →
  ∀ (k i : nat), Z.of_nat k ≤ count_suited l → (i < k)%nat →
    2 ≤ l !!! i ≤ 14.
Proof.
  unfold count_suited.
  induction 1 as [|x l Hs IH Hx]; intros Hv k i Hk Hi.
  - rewrite filter_nil in Hk. cbn [length] in Hk. lia.
  - apply Forall_cons in Hv as [Hvx Hv]. rewrite filter_cons in Hk.
    destruct (decide (2 ≤ x ≤ 14)) as [Hx2|Hx2].
    + destruct i as [|i]; [done|]. cbn [length] in Hk.
      change ((x :: l) !!! S i) with (l !!! i).
      apply (IH Hv (k - 1)%nat); lia.
    + exfalso.
      assert (Hnil : filter (λ v, 2 ≤ v ≤ 14) l = []).
      { apply filter_none. rewrite Forall_forall in Hx, Hv |- *.
        intros y Hy. specialize (Hx y Hy). specialize (Hv y Hy).
        unfold flip in Hx. lia. }
      rewrite Hnil in Hk. cbn [length] in Hk. lia.
Qed.

Lemma pad_lookup_total n (l : list Z) i :
  (i < length l)%nat → pad n l !!! i = l !!! i.
Proof. intros Hi. unfold pad. by rewrite lookup_total_app_l. Qed.

Lemma best_score_le n score : best_score n score ≤ 8191.
Proof.
  unfold best_score.
  by destruct (fold_min_nested_spec score (seq 0 (Z.to_nat n))
                 (seq 0 n_pocket_perms) 8191) as (Hle & _).
Qed.

(** A packed identifier holds its cards in descending order. *)
Lemma packed_cards_sorted id :
  pack64 (pocket (unpack64 id)) (board (unpack64 id)) = id →
  StronglySorted (flip Z.le) (pocket_cards id) ∧
  StronglySorted (flip Z.le) (board_cards id).
Proof.
  rewrite unpack64_cards. cbn [pocket board]. intros Hcan.
  destruct (cards_range id) as (Hp & Hb & Hlp & Hlb).
  destruct (pack64_cards (pocket_cards id) (board_cards id) Hp Hb Hlp Hlb)
    as (_ & Hpc & Hbc & _).
  rewrite Hcan in Hpc, Hbc.
  split; apply Sorted_desc_strongly.
  - rewrite Hpc. apply sort_desc_sorted.
  - rewrite Hbc. apply sort_desc_sorted.
Qed.

Lemma eval_flush_ranks_scores (flushes cactus_to_ray : Z → Z) (s id : Z) :
  valid_id (FR s) id → count_cards id = 9 →
  pack64 (pocket (unpack64 id)) (board (unpack64 id)) = id →
  2 ≤ count_suited (pocket_cards id) → 3 ≤ count_suited (board_cards id) →
  ∃ best, eval_flush_ranks flushes cactus_to_ray id = (cactus_to_ray best, [])
          ∧ best ≤ 8191.
Proof.
  intros [Hvp Hvb] H9 Hcan Hnp Hnb.
  destruct (packed_cards_sorted id Hcan) as [Hsp Hsb].
  destruct (cards_range id) as (_ & _ & Hlp & Hlb).
  rewrite count_cards_cards in H9.
  assert (Hlp4 : length (pocket_cards id) = 4%nat) by lia.
  assert (Hlb5 : length (board_cards id) = 5%nat) by lia.
  set (kept := filter (λ v, v ≠ SKIP_BOARD) (board_cards id)).
  assert (Hkv : Forall (λ v, 1 ≤ v ≤ 14) kept).
  { apply Forall_forall. intros v [Hne Hin]%list_elem_of_filter.
    rewrite Forall_forall in Hvb. destruct (Hvb v Hin) as [H|H]; [|done].
    exact H. }
  assert (Hks : StronglySorted (flip Z.le) kept)
    by (by apply StronglySorted_filter_desc).
  assert (Hkc : count_suited kept = count_suited (board_cards id)).
  { unfold count_suited, kept. f_equal.
    rewrite list_filter_filter. apply length_filter_ext.
    apply Forall_forall. intros v _. unfold SKIP_BOARD. lia. }
  assert (Hkl : (3 ≤ length kept)%nat).
  { unfold count_suited in Hkc, Hnb.
    pose proof (length_filter (λ v, 2 ≤ v ≤ 14) kept). lia. }
  assert (Hpt : ∀ i, (i < 2)%nat → 2 ≤ pocket_cards id !!! i ≤ 14).
  { intros i Hi. apply (sorted_desc_top _ Hsp) with (k := 2%nat);
      [exact Hvp|lia|done]. }
  assert (Hbt : ∀ i, (i < 3)%nat → 2 ≤ pad 5 kept !!! i ≤ 14).
  { intros i Hi. rewrite pad_lookup_total by lia.
    apply (sorted_desc_top _ Hks) with (k := 3%nat); [done|lia|done]. }
  unfold eval_flush_ranks. rewrite unpack64_cards.
  cbn [pocket board n_pocket].
  rewrite (pad_full 4 (pocket_cards id)) by done.
  rewrite skip_board_pad by lia. fold kept.
  pose proof (Hpt 0%nat ltac:(lia)) as P0. pose proof (Hpt 1%nat ltac:(lia)) as P1.
  pose proof (Hbt 0%nat ltac:(lia)) as B0. pose proof (Hbt 1%nat ltac:(lia)) as B1.
  pose proof (Hbt 2%nat ltac:(lia)) as B2.
  cbv beta iota zeta.
  rewrite (proj2 (Z.eqb_neq (pocket_cards id !!! 0%nat) 0)) by lia.
  rewrite (proj2 (Z.eqb_neq (pocket_cards id !!! 1%nat) 0)) by lia.
  rewrite (proj2 (Z.eqb_neq (pad 5 kept !!! 0%nat) 0)) by lia.
  rewrite (proj2 (Z.eqb_neq (pad 5 kept !!! 1%nat) 0)) by lia.
  rewrite (proj2 (Z.eqb_neq (pad 5 kept !!! 2%nat) 0)) by lia.
  unfold ANY_CARD.
  rewrite (proj2 (Z.eqb_neq (pocket_cards id !!! 0%nat) 1)) by lia.
  rewrite (proj2 (Z.eqb_neq (pocket_cards id !!! 1%nat) 1)) by lia.
  rewrite (proj2 (Z.eqb_neq (pad 5 kept !!! 0%nat) 1)) by lia.
  rewrite (proj2 (Z.eqb_neq (pad 5 kept !!! 1%nat) 1)) by lia.
  rewrite (proj2 (Z.eqb_neq (pad 5 kept !!! 2%nat) 1)) by lia.
  cbn [orb]. eexists. split; [reflexivity|]. apply best_score_le.
Qed.

Lemma follow_canonical_zero a (cards : list Z) r :
  cards_in_order cards → (length cards ≤ 9)%nat →
  follow (transition a) 0 cards = Some r →
  pack64 (pocket (unpack64 r)) (board (unpack64 r)) = r.
Proof.
  intros Hord Hlen Hf.
  pose proof (cards_in_order_allowed cards Hord) as Hall.
  assert (Hz : valid_id a 0 ∧ 0 ≤ 0 < 2 ^ 63)
    by (split; [apply valid_id_zero|apply zero_in_range]).
  destruct (follow_cards a cards 0 r Hz canonical_zero) as (_ & _ & Hcan);
    [by rewrite count_cards_zero|rewrite count_cards_zero; lia|done|done].
Qed.

(** The cards of a flush suit that [eval_flush_suits] has found. *)
Lemma flush_suit_found_counts (cards : list Z) (id_fs suit : Z) :
  cards_in_order cards → (length cards ≤ 9)%nat →
  follow (transition FS) 0 cards = Some id_fs →
  eval_flush_suits id_fs = Some suit → suit ≠ -1 →
  1 ≤ suit ≤ 4 ∧
  3 ≤ suited_cards suit (take 5 cards) ∧ 2 ≤ suited_cards suit (drop 5 cards).
Proof.
  intros Hord Hlen Hf He Hne.
  destruct (follow_cards_zero FS cards id_fs Hord Hlen Hf)
    as (Hv & _ & Hb & Hp).
  change (fold_card FS) with fold_flush_suits in Hb, Hp.
  destruct (eval_flush_suits_flush_total id_fs Hv) as (r & Hr & Hcase).
  rewrite He in Hr. injection Hr as <-.
  destruct Hcase as [[-> _]|[Hs Hsome]]; [done|]. split; [done|].
  unfold flush_total in Hsome.
  rewrite suit_count_no_skip in Hsome by (unfold SKIP_BOARD; lia).
  rewrite (suit_count_perm _ _ _ Hp), (suit_count_perm _ _ _ Hb) in Hsome.
  rewrite <- !occurrences_suit_count in Hsome.
  rewrite !suited_cards_flush_suits in Hsome by done.
  pose proof (suited_cards_bounds suit (take 5 cards)).
  pose proof (suited_cards_bounds suit (drop 5 cards)). lia.
Qed.

(** The flush-rank path of a hand whose flush suit was found. *)
Lemma flush_found_scored_path (cards : list Z) (id_fs suit : Z) :
  cards_in_order cards → length cards = 9%nat →
  NoDup (filter (λ c, c ≠ 0) cards) →
  follow (transition FS) 0 cards = Some id_fs →
  eval_flush_suits id_fs = Some suit → suit ≠ -1 →
  ∃ id_fr,
    follow (transition (FR 4)) 0 (shifted_card suit <$> cards) = Some id_fr.
Proof.
  intros Hord Hlen Hnd Hf He Hne.
  destruct (flush_suit_found_counts cards id_fs suit Hord ltac:(lia) Hf He Hne)
    as (Hs & H3 & H2).
  exact (flush_rank_path_unpruned suit cards Hs Hord Hlen Hnd H3 H2
           cards [] (eq_sym (app_nil_r cards))).
Qed.

(** X25. A flush that was found is scored.  For a hand of nine places
    with pairwise distinct cards, if the flush-suit automaton ends on a
    suit, then no transition of the flush-rank path read through the
    pointer shifted by [4 - suit] is pruned (for nine cards 1..52 this is
    the path of the automaton of that suit), and [eval_flush_ranks] takes
    neither of its early returns on the identifier reached: it writes
    nothing and returns the converted best score of the loop. *)
Theorem flush_found_is_scored (flushes cactus_to_ray : Z → Z)
    (cards : list Z) (id_fs suit : Z) :
  cards_in_order cards → length cards = 9%nat →
  NoDup (filter (λ c, c ≠ 0) cards) →
  follow (transition FS) 0 cards = Some id_fs →
  eval_flush_suits id_fs = Some suit → suit ≠ -1 →
  ∃ id_fr,
    follow (transition (FR 4)) 0 (shifted_card suit <$> cards) = Some id_fr ∧
    (Forall (λ c, 1 ≤ c ≤ 52) cards →
     follow (transition (FR suit)) 0 cards = Some id_fr) ∧
    ∃ best,
      eval_flush_ranks flushes cactus_to_ray id_fr = (cactus_to_ray best, []) ∧
      best ≤ 8191.
Proof.
  intros Hord Hlen Hnd Hf He Hne.
  destruct (flush_suit_found_counts cards id_fs suit Hord ltac:(lia) Hf He Hne)
    as (Hs & H3 & H2).
  destruct (flush_rank_path_unpruned suit cards Hs Hord Hlen Hnd H3 H2
              cards [] (eq_sym (app_nil_r cards))) as [id_fr Hfr].
  exists id_fr. split; [exact Hfr|]. split.
  { intros Hnz. rewrite <- Hfr. symmetry.
    by apply follow_flush_ranks_shifted. }
  assert (Hsh : 0 ≤ 4 - suit ≤ 3) by lia.
  pose proof (cards_in_order_aliased (4 - suit) cards Hsh Hord) as Hord'.
  change (aliased_card (4 - suit) 1) with (shifted_card suit) in Hord'.
  destruct (follow_cards_zero (FR 4) (shifted_card suit <$> cards) id_fr Hord')
    as (Hv & Hcnt & Hb & Hp); [rewrite length_fmap; lia|done|].
  pose proof (follow_canonical_zero (FR 4) (shifted_card suit <$> cards) id_fr
                Hord' ltac:(rewrite length_fmap; lia) Hfr) as Hcan.
  rewrite length_fmap, Hlen in Hcnt.
  rewrite <- fmap_take in Hb. rewrite <- fmap_drop in Hp.
  destruct Hord as [Hrange _].
  apply (eval_flush_ranks_scores flushes cactus_to_ray 4 id_fr Hv Hcnt Hcan).
  - assert (count_suited (pocket_cards id_fr) =
            count_suited (fold_card (FR 4) <$>
                          (shifted_card suit <$> drop 5 cards))) as ->
      by (unfold count_suited; by rewrite Hp).
    rewrite (suited_cards_shifted suit (drop 5 cards) Hs); [done|].
    by apply Forall_drop.
  - assert (count_suited (board_cards id_fr) =
            count_suited (fold_card (FR 4) <$>
                          (shifted_card suit <$> take 5 cards))) as ->
      by (unfold count_suited; by rewrite Hb).
    rewrite (suited_cards_shifted suit (take 5 cards) Hs); [done|].
    by apply Forall_take.
Qed.

Lemma flush_found_is_scored_witness :
  ∃ id_fr,
    follow (transition (FR 4)) 0
           (shifted_card 4 <$> [4; 8; 12; 16; 20; 24; 28; 3; 7]) = Some id_fr ∧
    (Forall (λ c, 1 ≤ c ≤ 52) [4; 8; 12; 16; 20; 24; 28; 3; 7] →
     follow (transition (FR 4)) 0 [4; 8; 12; 16; 20; 24; 28; 3; 7]
       = Some id_fr) ∧
    ∃ best,
      eval_flush_ranks (λ x, x) (λ x, x) id_fr = ((λ x : Z, x) best, []) ∧
      best ≤ 8191.
Proof.
  apply (flush_found_is_scored (λ x, x) (λ x, x)
           [4; 8; 12; 16; 20; 24; 28; 3; 7] 217879362681242116 4).
  - split; repeat (apply Forall_cons; split; [lia|]); apply Forall_nil_2.
  - reflexivity.
  - vm_compute.
    repeat (apply NoDup_cons_2;
            [rewrite ?elem_of_cons, elem_of_nil; intros H; decompose [or] H;
             discriminate || done|]).
    apply NoDup_nil_2.
  - vm_compute. reflexivity.
  - vm_compute. reflexivity.
  - lia.
Defined.


(** ** The score read from the table *)

(** The evaluator without flush on the identifier of a hand. *)
Lemma eval_no_flush_hand unique5 values cactus_findit cactus_to_ray
    (cards : list Z) (id_nf : Z) :
  cards_in_order cards → length cards = 9%nat →
  follow (transition NF) 0 cards = Some id_nf →
  ∃ score, eval_no_flush unique5 values cactus_findit cactus_to_ray id_nf
           = Some (score, []).
Proof.
  intros Hord Hlen Hf.
  destruct (follow_cards_zero NF cards id_nf Hord ltac:(lia) Hf)
    as (Hv & Hcnt & Hb & Hp).
  destruct (skips_of_cards NF cards Hord) as [Hskip Hrange].
  rewrite <- (occurrences_perm _ _ _ Hb) in Hskip.
  destruct (cards_range id_nf) as (_ & _ & Hlp & Hlb).
  rewrite Hlen in Hcnt. pose proof Hcnt as H9.
  rewrite count_cards_cards in Hcnt.
  pose proof (occurrences_filter_ne SKIP_BOARD (board_cards id_nf)) as Hkept.
  apply eval_no_flush_silent; [done|done|]. lia.
Qed.

(** X26. The score of a hand read from the generated table.  For nine
    places with pairwise distinct cards (0 for a skipped board card in
    the first two places) the three automata are never pruned where they
    are read, and [score_new] of [test_all_handranks] is the score of
    [eval_no_flush] on the identifier without flush when
    [eval_flush_suits] finds no flush suit, and otherwise the larger of
    that score and the score of [eval_flush_ranks] on the identifier of
    the flush-rank path read through the shifted pointer (a score -1
    being stored as the offset of its region). *)
Theorem score_new_is_best_of_both
    (flushes unique5 values cactus_findit cactus_to_ray : Z → Z) :
  ∃ max_rank HR_new nf_base fr_base,
    generate_handranks flushes unique5 values cactus_findit cactus_to_ray
      = Some (max_rank, HR_new) ∧
    vget HR_new 0 = Some nf_base ∧ vget HR_new 1 = Some fr_base ∧
    ∀ c, length c = 9%nat → cards_in_order c →
      NoDup (filter (λ x, x ≠ 0) c) →
      ∃ id_fs suit id_nf score,
        follow (transition FS) 0 c = Some id_fs ∧
        eval_flush_suits id_fs = Some suit ∧
        follow (transition NF) 0 c = Some id_nf ∧
        eval_no_flush unique5 values cactus_findit cactus_to_ray id_nf
          = Some (score, []) ∧
        let score_nf := if decide (score = -1) then nf_base else score in
        (suit = -1 → score_new HR_new c = Some score_nf) ∧
        (suit ≠ -1 →
         ∃ id_fr,
           follow (transition (FR 4)) 0 (shifted_card suit <$> c)
             = Some id_fr ∧
           let q := (eval_flush_ranks flushes cactus_to_ray id_fr).1 in
           score_new HR_new c =
             Some (MAX score_nf (if decide (q = -1) then fr_base else q))).
Proof.
  destruct (generate_handranks_chains flushes unique5 values cactus_findit
              cactus_to_ray)
    as (max_rank & HR & offset_fr4 & offset_nf & Hgen & H0 & H1 & _ & _ &
        Cfs & Cfr & Cnf).
  exists max_rank, HR, offset_nf, offset_fr4. split; [exact Hgen|]. clear Hgen.
  split; [done|]. split; [done|].
  intros cards Hlen Hord Hnd. pose proof Hord as [Hr _].
  pose proof (cards_in_order_allowed cards Hord) as Hall.
  destruct (follow_flush_suits_total cards 0) as [id_fs Hfs];
    [rewrite count_cards_zero, Hlen; lia|done|].
  destruct (follow_cards_zero FS cards id_fs Hord ltac:(lia) Hfs)
    as (Hvfs & _).
  destruct (eval_flush_suits_defined id_fs Hvfs) as [suit Hsuit].
  pose proof (eval_flush_suits_range id_fs suit Hsuit) as Hrange.
  destruct (no_flush_follows_distinct_path cards Hord ltac:(lia) Hnd)
    as [id_nf Hnf].
  destruct (eval_no_flush_hand unique5 values cactus_findit cactus_to_ray
              cards id_nf Hord Hlen Hnf) as [score Hscore].
  exists id_fs, suit, id_nf, score.
  split; [done|]. split; [done|]. split; [done|]. split; [done|].
  cbv zeta.
  assert (Hhead : score_new HR cards =
            (if decide ((if decide (suit = -1) then 0 else suit) ≠ 0) then
               score_flush ←
                 chain HR (4 - (if decide (suit = -1) then 0 else suit))
                       (offset_fr4 + 56) cards;
               Some (MAX (if decide (score = -1) then offset_nf else score)
                         score_flush)
             else Some (if decide (score = -1) then offset_nf else score))).
  { unfold score_new.
    rewrite (Cfs cards Hlen Hr Hall), Hfs. cbn [chain_value].
    rewrite Hsuit. cbn [mbind option_bind].
    rewrite default_singleton, H0. cbn [mbind option_bind].
    rewrite (Cnf cards Hlen Hr Hall), Hnf. cbn [chain_value].
    rewrite Hscore. cbn [fmap option_fmap option_map fst mbind option_bind].
    rewrite default_singleton.
    destruct (decide ((if decide (suit = -1) then 0 else suit) ≠ 0));
      [|done].
    by rewrite H1. }
  rewrite Hhead. split.
  - intros ->. destruct (decide (-1 = -1)) as [_|Hx]; [|by destruct Hx].
    destruct (decide (0 ≠ 0)) as [Hx|_]; [by destruct Hx|reflexivity].
  - intros Hne. rewrite (decide_False (P := suit = -1)) by done.
    rewrite decide_True by lia.
    destruct (flush_found_scored_path cards id_fs suit Hord Hlen Hnd Hfs
                Hsuit Hne) as (id_fr & Hfr).
    exists id_fr. split; [done|].
    assert (Hsh : 0 ≤ 4 - suit ≤ 3) by lia.
    pose proof (cards_in_order_allowed _
                  (cards_in_order_aliased _ cards Hsh Hord)) as Halls.
    rewrite (Cfr (4 - suit) cards Hsh Hlen Hr Halls).
    change (aliased_card (4 - suit) 1) with (shifted_card suit).
    rewrite Hfr. cbn [chain_value mbind option_bind].
    by rewrite default_singleton.
Qed.


(** ** One region, on any vector *)

(** X27. [process_ids] on the identifiers of an automaton, for any
    vector, offset, header value, number of dummy slots, dummy card and
    remapping: when the terminal evaluator is defined on the valid
    identifiers of nine cards and the vector reaches the end of the
    region, every write is inside the vector, the length is kept, nothing
    outside the region changes, the header cell holds [offset_value], the
    rest of the fan-in block holds [offset], the cell of a pruned
    transition holds [offset], and the cell of a transition to a
    non-zero identifier from fewer than eight cards holds the start of
    the block of that identifier, which the hash table always finds. *)
Theorem process_ids_writes_its_region (a : automaton) (eval_id : Z → option Z) :
  ∃ ids,
    generate_ids (transition a) = Some ids ∧
    ∀ offset offset_value hr n_dummy dummy_card map,
      (∀ new_id, valid_id a new_id → count_cards new_id = 9 →
                 is_Some (eval_id new_id)) →
      0 ≤ offset → 0 ≤ n_dummy →
      block_start offset (53 + n_dummy) (length ids) ≤ Z.of_nat (length hr) →
      ∃ hr',
        process_ids ids offset offset_value hr (transition a) eval_id
                    n_dummy dummy_card map = Some hr' ∧
        length hr' = length hr ∧
        (∀ j, ¬ (offset ≤ j < block_start offset (53 + n_dummy) (length ids)) →
              vget hr' j = vget hr j) ∧
        vget hr' offset = Some offset_value ∧
        (∀ j, 1 ≤ j < 53 + n_dummy → vget hr' (offset + j) = Some offset) ∧
        (∀ k id c, ids !! k = Some id → card_allowed id c →
           transition a id c = Some 0 →
           vget hr' (block_start offset (53 + n_dummy) k + c) = Some offset) ∧
        (∀ k id c r, ids !! k = Some id → card_allowed id c →
           count_cards id ≤ 7 → transition a id c = Some r → r ≠ 0 →
           ∃ k', ids !! k' = Some r ∧
                 build_hash_table 0 ids ∅ !! r = Some (Z.of_nat k') ∧
                 vget hr' (block_start offset (53 + n_dummy) k + c)
                   = Some (block_start offset (53 + n_dummy) k')).
Proof.
  destruct (enumeration_range_ok a) as (ids & Hgen & Hs & _ & Hinv & Hclosed).
  exists ids. split; [exact Hgen|].
  intros offset offset_value hr n_dummy dummy_card map Heval Hoff Hnd Hlen.
  destruct (process_ids_region a ids offset offset_value hr eval_id n_dummy
              dummy_card map Hgen Heval Hoff Hnd Hlen)
    as (hr' & Hp & Hlen' & Hreg & Hframe).
  clear Hgen. exists hr'.
  split; [exact Hp|]. clear Hp.
  split; [exact Hlen'|]. split; [exact Hframe|].
  destruct Hreg as (H0 & Hfan & Hcell & _).
  split; [exact H0|]. split; [exact Hfan|]. split.
  - intros k id c Hk Hc Hr.
    rewrite (Hcell k id c Hk (proj2 (process_min_card_allowed id c) Hc)).
    unfold cell_value. rewrite Hr. cbn [mbind option_bind].
    unfold transition_value, transition_branch.
    rewrite decide_False by tauto. by rewrite decide_False by tauto.
  - intros k id c r Hk Hc H7 Hr Hr0.
    assert (Hid : id ∈ ids) by (by eapply list_elem_of_lookup_2).
    assert (Hrin : r ∈ ids) by (apply (Hclosed id c r); [done|lia|done..]).
    apply list_elem_of_lookup_1 in Hrin as [k' Hk'].
    pose proof (build_hash_table_lookup ids 0 ∅ k' r
                  (StronglySorted_lt_NoDup _ Hs) ltac:(done) Hk') as Hh.
    exists k'. split; [done|]. split; [exact Hh|].
    rewrite (Hcell k id c Hk (proj2 (process_min_card_allowed id c) Hc)).
    unfold cell_value. rewrite Hr. cbn [mbind option_bind].
    unfold transition_value, transition_branch.
    rewrite decide_False by lia. rewrite decide_True by done.
    rewrite Hh. cbn. unfold block_start. f_equal.
Qed.


(** ** The skip card in the enumerator and in the table assembly *)

Lemma occurrences_elem v (l : list Z) : v ∈ l → 1 ≤ occurrences v l.
Proof.
  induction l as [|x l IH]; intros Hin; [by apply elem_of_nil in Hin|].
  rewrite occurrences_cons. pose proof (occurrences_nonneg v l).
  apply elem_of_cons in Hin as [->|Hin].
  - rewrite decide_True by done. lia.
  - specialize (IH Hin). destruct (decide (x = v)); lia.
Qed.

(** In a descending list of values up to 53 that holds 53 at most twice,
    no position from 2 on holds 53. *)
Lemma sorted_skips_first (l : list Z) (i : nat) :
  StronglySorted (flip Z.le) l → Forall (λ v, v ≤ SKIP_BOARD) l →
  occurrences SKIP_BOARD l ≤ 2 → (2 ≤ i)%nat → l !! i ≠ Some SKIP_BOARD.
Proof.
  intros Hs Hle Hocc Hi Hl.
  destruct l as [|x0 [|x1 rest]]; [done| |].
  - destruct i as [|[|i]]; [lia|done|done].
  - destruct i as [|[|i]]; [lia|lia|]. cbn in Hl.
    apply list_elem_of_lookup_2 in Hl.
    apply StronglySorted_inv in Hs as [Hs H0].
    apply StronglySorted_inv in Hs as [_ H1].
    apply Forall_cons in Hle as [Hx0 Hle].
    apply Forall_cons in Hle as [Hx1 _].
    apply Forall_cons in H0 as [_ H0].
    rewrite Forall_forall in H0, H1.
    pose proof (H0 _ Hl) as H0'. pose proof (H1 _ Hl) as H1'.
    unfold flip in H0', H1'.
    assert (x0 = SKIP_BOARD) as -> by lia.
    assert (x1 = SKIP_BOARD) as -> by lia.
    rewrite !occurrences_cons, !decide_True in Hocc by done.
    pose proof (occurrences_elem _ _ Hl). lia.
Qed.

Lemma valid_board_value_skip_bound a v : valid_board_value a v → v ≤ SKIP_BOARD.
Proof.
  unfold valid_board_value, SKIP_BOARD.
  intros [Hv| ->]; [|lia]. destruct a; cbn [valid_pocket_value] in Hv; lia.
Qed.

(** The skip sentinels of an enumerated identifier. *)
Lemma enumerated_skips a l id :
  generate_ids (transition a) = Some l → id ∈ l →
  occurrences SKIP_BOARD (pocket_cards id) = 0 ∧
  occurrences SKIP_BOARD (board_cards id) ≤ Z.min (count_cards id) 2 ∧
  pack64 (pocket (unpack64 id)) (board (unpack64 id)) = id.
Proof.
  revert l id.
  apply (enumeration_ind a (λ id,
    occurrences SKIP_BOARD (pocket_cards id) = 0 ∧
    occurrences SKIP_BOARD (board_cards id) ≤ Z.min (count_cards id) 2 ∧
    pack64 (pocket (unpack64 id)) (board (unpack64 id)) = id)).
  - split; [done|]. split; [done|]. reflexivity.
  - intros id c r Hv (Hsp & Hsb & _) H7 Hc Hr Hr0.
    destruct (transition_cards a id c r Hv ltac:(lia) Hc Hr Hr0)
      as (ps' & bs' & Hpack & Hp & Hb & Hlp & Hlb & Hcase).
    destruct (transition_spec a id c Hv ltac:(lia) Hc) as (r' & Hr' & Hgood).
    rewrite Hr in Hr'. injection Hr' as <-.
    destruct (Hgood Hr0) as (_ & Hcnt & _).
    pose proof Hc as [Hc52 Hc0].
    assert (Hskip : occurrences SKIP_BOARD [fold_card a c] =
                    if decide (c = 0) then 1 else 0).
    { rewrite occurrences_singleton.
      destruct (decide (c = 0)) as [->|Hne].
      - by rewrite fold_card_skip, decide_True.
      - rewrite decide_False; [done|].
        intros Heq. by apply (fold_card_skip_iff a c Hc52) in Heq. }
    rewrite Hp, Hb, (occurrences_perm _ _ _ (sort_desc_perm ps')),
      (occurrences_perm _ _ _ (sort_desc_perm bs')).
    split_and!.
    + destruct Hcase as [(-> & -> & Hlt)|(-> & -> & Hfull)]; [done|].
      rewrite occurrences_app, Hsp, Hskip.
      destruct (decide (c = 0)) as [->|]; [|done].
      specialize (Hc0 eq_refl). rewrite count_cards_cards in Hc0. lia.
    + destruct Hcase as [(-> & -> & Hlt)|(-> & -> & Hfull)].
      * rewrite occurrences_app, Hskip.
        destruct (decide (c = 0)) as [->|]; [|lia].
        specialize (Hc0 eq_refl). lia.
      * lia.
    + apply (transition_canonical a id c r); [done|lia|done..].
Qed.

(** The skip card given to an identifier of at most one card is never
    pruned; the sentinel becomes the first board card of the result. *)
Lemma skip_step a id :
  valid_id a id → count_cards id ≤ 1 →
  ∃ r, transition a id 0 = Some r ∧ r ≠ 0 ∧
       count_cards r = count_cards id + 1 ∧
       board_cards r = SKIP_BOARD :: board_cards id.
Proof.
  intros Hv H1.
  assert (Hc : card_allowed id 0) by (split; [lia|done]).
  destruct (transition_spec a id 0 Hv ltac:(lia) Hc) as (r & Hr & Hgood).
  pose proof (cards_range id) as (_ & _ & Hlp & Hlb).
  pose proof H1 as Hlen. rewrite count_cards_cards in Hlen.
  assert (Hr0 : r ≠ 0).
  { intros ->. destruct a as [|s|].
    - rewrite transition_FS in Hr.
      destruct (flush_suits_never_zero id 0) as (r' & Hr' & Hne & _);
        [lia|lia|].
      rewrite Hr in Hr'. by injection Hr' as <-.
    - rewrite (transition_unfold (FR s)), flush_ranks_cards in Hr.
      cbv zeta in Hr. change (fold_flush_ranks 0 s) with SKIP_BOARD in Hr.
      destruct (existsb _ (pocket_cards id)) eqn:E1;
        [by apply is_duplicate_elem in E1 as (_ & _ & ?)|].
      destruct (existsb _ (board_cards id)) eqn:E2;
        [by apply is_duplicate_elem in E2 as (_ & _ & ?)|].
      destruct (add_cards_Some SKIP_BOARD (pocket_cards id) (board_cards id))
        as [[ps' bs'] Hadd]; [lia|done|done|].
      rewrite Hadd in Hr. cbn [mbind option_bind fst snd] in Hr.
      destruct (add_cards_inv _ _ _ _ _ Hadd Hlp Hlb)
        as (_ & _ & Hsum & _).
      destruct (packed_valid (FR s) id 0 ps' bs' Hv Hc Hadd) as (_ & _ & Hpos).
      cbv zeta in Hpos.
      assert (flush_unreachable_cards ps' bs' = false) as Hfu.
      { unfold flush_unreachable_cards.
        rewrite (proj2 (Nat.eqb_neq (length bs') 4)) by lia.
        by rewrite (proj2 (Nat.eqb_neq (length bs') 5)) by lia. }
      rewrite Hfu in Hr. apply (inj Some) in Hr. lia.
    - rewrite transition_NF in Hr.
      destruct (no_flush_pruned_rank id 0 Hv ltac:(lia) Hc Hr)
        as (rank & Hrank & Hgt).
      assert (Ha : ∀ l, occurrences rank l ≤ Z.of_nat (length l))
        by (intros l; apply suit_count_le_length).
      pose proof (Ha (pocket_cards id)). pose proof (Ha (board_cards id)).
      pose proof (Ha [fold_no_flush 0]) as Hone.
      change (Z.of_nat (length [fold_no_flush 0])) with 1 in Hone.
      lia. }
  exists r. split; [done|]. split; [done|].
  destruct (Hgood Hr0) as (_ & Hcnt & _). split; [done|].
  destruct (transition_cards a id 0 r Hv ltac:(lia) Hc Hr Hr0)
    as (ps' & bs' & _ & _ & Hb & _ & _ & Hcase).
  destruct Hcase as [(_ & -> & _)|(_ & _ & Hfull)]; [|lia].
  rewrite Hb, fold_card_skip. apply sort_desc_unique.
  - destruct Hv as [_ Hvb].
    destruct (board_cards id) as [|x [|y rest]]; [| |cbn in Hlen; lia].
    + repeat constructor.
    + apply Forall_cons in Hvb as [Hx _].
      apply valid_board_value_skip_bound in Hx.
      repeat constructor. exact Hx.
  - apply Permutation_cons_append.
Qed.

(** Every enumerated identifier is reached from the empty hand. *)
Lemma enumerated_reachable a l id :
  generate_ids (transition a) = Some l → id ∈ l →
  reachable (transition a) id.
Proof.
  revert l id. apply (enumeration_ind a (reachable (transition a))).
  - constructor.
  - intros id c r _ Hreach H7 Hc Hr Hr0. by eapply reachable_step.
Qed.

(** C5. In the identifier enumerator and in the table assembly alike the
    skip card (card 0, stored as 53) is given to an identifier only when
    its card count is at most 2 (precisely: at most 1), and identifiers
    with a larger count start at card 1.

    Enumerator: [generate_ids] returns exactly the identifiers reached by
    transitions in which card 0 is given only to an identifier of at most
    one card.  So no enumerated identifier holds a sentinel in its pocket
    or more than two on its board (never more than it has cards), and no
    board position from 2 on holds one.  An enumerated identifier of at
    most one card does get the skip: the transition is not pruned, its
    result is enumerated and has the sentinel as first board card, and
    [add_card] writes it to board position 0 or 1 while the positions
    from 2 on are empty.

    Assembly: in the block [process_ids] writes for an enumerated
    identifier, the cell of card 0 holds the start of the block of that
    result when the identifier has at most one card, and otherwise only
    the backup value [offset]: the loop over the cards starts at 1, and
    the cells of the cards 1..52 hold the value of their transition for
    every identifier. *)
Theorem skip_only_for_first_two_cards
    (a : automaton) (eval_id : Z → option Z) :
  ∃ ids,
    generate_ids (transition a) = Some ids ∧
    (∀ id, id ∈ ids ↔ reachable (transition a) id) ∧
    (∀ id, id ∈ ids →
       occurrences SKIP_BOARD (pocket_cards id) = 0 ∧
       occurrences SKIP_BOARD (board_cards id) ≤ Z.min (count_cards id) 2 ∧
       ∀ i, (2 ≤ i < 5)%nat → board (unpack64 id) !!! i ≠ SKIP_BOARD) ∧
    (∀ id, id ∈ ids → count_cards id ≤ 1 →
       let h := unpack64 id in
       ∃ r, transition a id 0 = Some r ∧ r ≠ 0 ∧ r ∈ ids ∧
            count_cards r = count_cards id + 1 ∧
            board_cards r = SKIP_BOARD :: board_cards id ∧
            (n_board h < 2)%nat ∧
            add_card (fold_card a 0) h =
              Some (Hand (pocket h) (<[n_board h := SKIP_BOARD]> (board h))
                         (n_pocket h) (S (n_board h))) ∧
            ∀ i, (2 ≤ i < 5)%nat → board h !!! i = 0) ∧
    ∀ offset offset_value hr n_dummy dummy_card map,
      (∀ new_id, valid_id a new_id → count_cards new_id = 9 →
                 is_Some (eval_id new_id)) →
      0 ≤ offset → 0 ≤ n_dummy →
      block_start offset (53 + n_dummy) (length ids) ≤ Z.of_nat (length hr) →
      ∃ hr',
        process_ids ids offset offset_value hr (transition a) eval_id
                    n_dummy dummy_card map = Some hr' ∧
        ∀ k id, ids !! k = Some id →
          (count_cards id ≤ 1 →
           ∃ r k', transition a id 0 = Some r ∧ r ≠ 0 ∧
                   ids !! k' = Some r ∧
                   vget hr' (block_start offset (53 + n_dummy) k)
                     = Some (block_start offset (53 + n_dummy) k')) ∧
          (2 ≤ count_cards id →
           vget hr' (block_start offset (53 + n_dummy) k) = Some offset) ∧
          (∀ c, 1 ≤ c ≤ 52 →
             vget hr' (block_start offset (53 + n_dummy) k + c) =
             cell_value (transition a) eval_id offset (53 + n_dummy)
                        (build_hash_table 0 ids ∅) map id c).
Proof.
  destruct (enumeration_range_ok a) as (ids & Hgen & Hs & _ & Hinv & Hclosed).
  exists ids. split; [exact Hgen|].
  assert (Hskips : ∀ id, id ∈ ids →
            occurrences SKIP_BOARD (pocket_cards id) = 0 ∧
            occurrences SKIP_BOARD (board_cards id)
              ≤ Z.min (count_cards id) 2 ∧
            pack64 (pocket (unpack64 id)) (board (unpack64 id)) = id)
    by (intros id; apply (enumerated_skips a ids id Hgen)).
  assert (Hreach : ∀ id, id ∈ ids → reachable (transition a) id)
    by (intros id; apply (enumerated_reachable a ids id Hgen)).
  pose proof (zero_in_enumeration a ids Hgen) as Hzero.
  assert (Hstep : ∀ id, id ∈ ids → count_cards id ≤ 1 →
            ∃ r, transition a id 0 = Some r ∧ r ≠ 0 ∧ r ∈ ids ∧
                 count_cards r = count_cards id + 1 ∧
                 board_cards r = SKIP_BOARD :: board_cards id).
  { intros id Hid H1. destruct (Hinv id Hid) as [[Hv _] _].
    destruct (skip_step a id Hv H1) as (r & Hr & Hr0 & Hcnt & Hb).
    exists r. split; [done|]. split; [done|]. split; [|done].
    apply (Hclosed id 0 r); [done|lia| |done|done]. split; [lia|done]. }
  split; [|split; [|split]].
  - intros id. split; [apply Hreach|].
    induction 1 as [|id c r _ IH H7 Hc Hr Hr0]; [done|].
    by apply (Hclosed id c r).
  - intros id Hid. destruct (Hskips id Hid) as (Hsp & Hsb & Hcan).
    split; [done|]. split; [done|].
    intros i Hi. rewrite unpack64_cards. cbn [board].
    destruct (decide (i < length (board_cards id))%nat) as [Hlt|Hge].
    + rewrite pad_lookup_total by done.
      destruct (lookup_lt_is_Some_2 (board_cards id) i Hlt) as [v Hl].
      rewrite (list_lookup_total_correct _ _ _ Hl). intros ->.
      destruct (Hinv id Hid) as [[[_ Hvb] _] _].
      apply (sorted_skips_first (board_cards id) i); [| |lia|lia|done].
      * by apply packed_cards_sorted.
      * eapply Forall_impl; [exact Hvb|]. apply valid_board_value_skip_bound.
    + pose proof (cards_range id) as (_ & _ & _ & Hlb).
      rewrite lookup_total_pad_ge by lia. done.
  - intros id Hid H1. cbv zeta.
    destruct (Hstep id Hid H1) as (r & Hr & Hr0 & Hrin & Hcnt & Hb).
    exists r. split; [done|]. split; [done|]. split; [done|].
    split; [done|]. split; [done|].
    rewrite fold_card_skip, unpack64_cards.
    cbn [n_board n_pocket pocket board].
    rewrite count_cards_cards in H1.
    assert (Hlt : (length (board_cards id) < 2)%nat) by lia.
    split; [done|]. split.
    + unfold add_card. cbn [n_board n_pocket pocket board].
      by rewrite (proj2 (Nat.ltb_lt _ 5)) by lia.
    + intros i Hi. apply lookup_total_pad_ge. lia.
  - intros offset offset_value hr n_dummy dummy_card map Heval Hoff Hnd Hlen.
    destruct (process_ids_region a ids offset offset_value hr eval_id n_dummy
                dummy_card map Hgen Heval Hoff Hnd Hlen)
      as (hr' & Hp & _ & Hreg & _).
    clear Hgen. exists hr'. split; [exact Hp|]. clear Hp.
    destruct Hreg as (_ & _ & Hcell & Hback & _).
    intros k id Hk.
    assert (Hid : id ∈ ids) by (by eapply list_elem_of_lookup_2).
    split.
    + intros H1.
      destruct (Hstep id Hid H1) as (r & Hr & Hr0 & Hrin & Hcnt & Hb).
      apply list_elem_of_lookup_1 in Hrin as [k' Hk'].
      exists r, k'. split; [done|]. split; [done|]. split; [done|].
      assert (Hc : card_allowed id 0) by (split; [lia|done]).
      pose proof (Hcell k id 0 Hk (proj2 (process_min_card_allowed id 0) Hc))
        as Hv.
      rewrite Z.add_0_r in Hv. rewrite Hv.
      unfold cell_value. rewrite Hr. cbn [mbind option_bind].
      unfold transition_value, transition_branch.
      rewrite decide_False by lia. rewrite decide_True by done.
      rewrite (build_hash_table_lookup ids 0 ∅ k' r
                 (StronglySorted_lt_NoDup _ Hs) ltac:(done) Hk').
      cbn. unfold block_start. f_equal.
    + split.
      * intros H2. apply (Hback k id Hk).
        unfold process_min_card.
        by rewrite (proj2 (Z.leb_gt (count_cards id) 1)) by lia.
      * intros c Hc. apply (Hcell k id c Hk).
        unfold process_min_card. destruct (_ <=? _); lia.
Qed.

